(** * pygfx wgpu renderer: shader composition and pipeline containers

    A shallow embedding of [pygfx/renderers/wgpu/_shaderbase.py] and
    [pygfx/renderers/wgpu/_pipeline.py], with the properties of the
    specification stated over it.

    Python [str] values are modelled by [string]; every character stands
    for the code point of the same number (0..255).  Exceptions are values
    of [exn]; a function that can raise returns [exn + A]. *)

From Stdlib Require Import Bool Arith NArith ZArith List Lia.
From Stdlib Require Import Ascii String DecimalString.
From stdpp Require Import base gmap strings.
Import ListNotations.

Local Open Scope string_scope.
Local Open Scope list_scope.

(** ** Exceptions *)

(** The exception classes the two modules raise, each with the data that
    identifies the raise site (the formatted message is not modelled). *)
Inductive exn : Type :=
  | TypeError (msg : string) (name : string) (line : string)
  | ValueError (msg : string)
  | AssertionError (msg : string)
  | KeyError (key : string)
  | IndexError
  | AttributeError (attr : string)
  | RuntimeError (msg : string)
  | UnboundLocalError (name : string)
  | ZeroDivisionError
  | ExternalError (msg : string).

Definition is_TypeError (e : exn) : bool :=
  match e with TypeError _ _ _ => true | _ => false end.

(** ** Python string operations *)

Module PyStr.

Definition code (c : ascii) : N := N_of_ascii c.

(** [str.isspace] and the [\s] class of [re] on code points below 256. *)
Definition isspace (c : ascii) : bool :=
  let n := code c in
  ((9 <=? n) && (n <=? 13) || (28 <=? n) && (n <=? 32)
   || (n =? 133) || (n =? 160))%N.

(** The [\w] class of [re] (unicode pattern) on code points below 256. *)
Definition isword (c : ascii) : bool :=
  let n := code c in
  ((48 <=? n) && (n <=? 57) || (65 <=? n) && (n <=? 90) || (n =? 95)
   || (97 <=? n) && (n <=? 122)
   || (n =? 170) || (n =? 178) || (n =? 179) || (n =? 181) || (n =? 185)
   || (n =? 186) || (n =? 188) || (n =? 189) || (n =? 190)
   || (192 <=? n) && (n <=? 214) || (216 <=? n) && (n <=? 246)
   || (248 <=? n) && (n <=? 255))%N.

(** The line boundaries of [str.splitlines] below 256. *)
Definition islinebreak (c : ascii) : bool :=
  let n := code c in
  ((10 <=? n) && (n <=? 13) || (28 <=? n) && (n <=? 30) || (n =? 133))%N.

Definition CR : ascii := ascii_of_N 13.
Definition LF : ascii := ascii_of_N 10.
Definition nl : string := String LF EmptyString.

(** [s.splitlines()]: a carriage return directly followed by a line feed
    is one boundary; a final boundary opens no further line. *)
Fixpoint splitlines (s : string) : list string :=
  match s with
  | EmptyString => []
  | String c rest =>
      if islinebreak c then
        EmptyString ::
          (if Ascii.eqb c CR then
             match rest with
             | String c2 rest2 =>
                 if Ascii.eqb c2 LF then splitlines rest2 else splitlines rest
             | EmptyString => splitlines rest
             end
           else splitlines rest)
      else
        match splitlines rest with
        | [] => [String c EmptyString]
        | l :: ls => String c l :: ls
        end
  end.

Fixpoint lstrip (s : string) : string :=
  match s with
  | String c rest => if isspace c then lstrip rest else s
  | EmptyString => EmptyString
  end.

Fixpoint rstrip (s : string) : string :=
  match s with
  | EmptyString => EmptyString
  | String c rest =>
      match rstrip rest with
      | EmptyString => if isspace c then EmptyString else String c EmptyString
      | r => String c r
      end
  end.

Definition strip (s : string) : string := lstrip (rstrip s).

(** [line[: len(line) - len(line.lstrip())]]: the leading white space. *)
Fixpoint indent_of (s : string) : string :=
  match s with
  | String c rest => if isspace c then String c (indent_of rest) else EmptyString
  | EmptyString => EmptyString
  end.

(** [p] is a prefix of [s]. *)
Fixpoint has_prefix (p s : string) : bool :=
  match p with
  | EmptyString => true
  | String a p' =>
      match s with
      | String b s' => Ascii.eqb a b && has_prefix p' s'
      | EmptyString => false
      end
  end.

Definition startswith (s p : string) : bool := has_prefix p s.

(** [s.endswith(p)]: some suffix of [s] is [p]. *)
Fixpoint endswith (s p : string) : bool :=
  String.eqb s p ||
  match s with
  | EmptyString => false
  | String _ rest => endswith rest p
  end.

(** [sub in s]. *)
Fixpoint contains (sub s : string) : bool :=
  has_prefix sub s ||
  match s with
  | EmptyString => false
  | String _ rest => contains sub rest
  end.

(** [s.split(sep)[0]] for a separator that is not empty. *)
Fixpoint split_head (sep s : string) : string :=
  if has_prefix sep s then EmptyString
  else match s with
       | EmptyString => EmptyString
       | String c rest => String c (split_head sep rest)
       end.

(** [s.replace(" ", "")]. *)
Fixpoint remove_spaces (s : string) : string :=
  match s with
  | EmptyString => EmptyString
  | String c rest =>
      if Ascii.eqb c " "%char then remove_spaces rest
      else String c (remove_spaces rest)
  end.

(** [sep.join(ls)]. *)
Definition join (sep : string) (ls : list string) : string :=
  String.concat sep ls.

(** The longest run of [\w] characters at the head, and what follows. *)
Fixpoint span_word (s : string) : string * string :=
  match s with
  | String c rest =>
      if isword c then
        let '(w, r) := span_word rest in (String c w, r)
      else (EmptyString, s)
  | EmptyString => (EmptyString, EmptyString)
  end.

(** [s] without the prefix [p], when it has it. *)
Fixpoint drop_prefix (p s : string) : option string :=
  match p with
  | EmptyString => Some s
  | String a p' =>
      match s with
      | String b s' => if Ascii.eqb a b then drop_prefix p' s' else None
      | EmptyString => None
      end
  end.

(** [str(n)] for a natural number. *)
Definition of_nat (n : nat) : string :=
  NilEmpty.string_of_uint (Nat.to_uint n).

(** [sorted(names)]: insertion sort by code points. *)
Fixpoint insert_sorted (x : string) (l : list string) : list string :=
  match l with
  | [] => [x]
  | y :: l' => if String.leb x y then x :: l else y :: insert_sorted x l'
  end.

Definition sorted (l : list string) : list string :=
  fold_right insert_sorted [] l.

End PyStr.


(** ** Python dicts with insertion order *)

(** A [dict] with [str] keys, as the list of its items in insertion
    order.  Every operation keeps the keys distinct. *)
Module Dict.

Definition t (V : Type) : Type := list (string * V).

Fixpoint get {V} (k : string) (d : t V) : option V :=
  match d with
  | [] => None
  | (k', v) :: d' => if String.eqb k k' then Some v else get k d'
  end.

Definition mem {V} (k : string) (d : t V) : bool :=
  match get k d with Some _ => true | None => false end.

(** [d[k] = v]: an existing key keeps its place. *)
Fixpoint set {V} (k : string) (v : V) (d : t V) : t V :=
  match d with
  | [] => [(k, v)]
  | (k', v') :: d' =>
      if String.eqb k k' then (k, v) :: d' else (k', v') :: set k v d'
  end.

(** [d.setdefault(k, []).append(x)]. *)
Definition append_to {A} (k : string) (x : A) (d : t (list A)) : t (list A) :=
  match get k d with
  | Some l => set k (l ++ [x]) d
  | None => d ++ [(k, [x])]
  end.

Definition keys {V} (d : t V) : list string := map fst d.
Definition values {V} (d : t V) : list V := map snd d.

(** [d.update(other)]. *)
Definition update {V} (d other : t V) : t V :=
  fold_left (fun acc kv => set (fst kv) (snd kv) acc) other d.

End Dict.

(** ** Varyings: [resolve_varyings] *)

Definition replace_char (a b : ascii) (s : string) : string :=
  string_of_list_ascii
    (map (fun c => if Ascii.eqb c a then b else c) (list_ascii_of_string s)).

Definition varying_types_f : list string :=
  ["f32"; "vec2<f32>"; "vec3<f32>"; "vec4<f32>"].

Definition varying_types : list string :=
  varying_types_f
  ++ map (replace_char "f" "i") varying_types_f
  ++ map (replace_char "f" "u") varying_types_f.

Definition str_in (s : string) (l : list string) : bool :=
  existsb (String.eqb s) l.

Definition builtin_varyings : Dict.t string := [("position", "vec4<f32>")].

(** [re_varying_setter.match(line)], the pattern
    [\A\s*?varyings\.(\w+)(\.\w+)?\s*?\=]: the name, the attribute group
    when it takes part, and [line[match.end():]]. *)
Definition re_varying_setter (line : string)
  : option (string * option string * string) :=
  match PyStr.drop_prefix "varyings." (PyStr.lstrip line) with
  | None => None
  | Some r1 =>
      let '(name, r2) := PyStr.span_word r1 in
      match name with
      | EmptyString => None
      | _ =>
          let '(attr, r3) :=
            match r2 with
            | String "."%char r2' =>
                let '(a, r3) := PyStr.span_word r2' in
                match a with
                | EmptyString => (None, r2)
                | _ => (Some (String "."%char a), r3)
                end
            | _ => (None, r2)
            end in
          match PyStr.lstrip r3 with
          | String "="%char rest => Some (name, attr, rest)
          | _ => None
          end
      end
  end.

Definition is_getter_sep (c : ascii) : bool :=
  PyStr.isspace c || Ascii.eqb c ","%char || Ascii.eqb c "("%char
  || Ascii.eqb c "["%char.

(** The names of [re_varying_getter.finditer(s)], the pattern
    [[\s,\(\[]varyings\.(\w+)], from left to right.  A match holds no
    separator after its first character, so the scan may go on one
    character further instead of at the end of the match. *)
Fixpoint re_varying_getter (s : string) : list string :=
  match s with
  | EmptyString => []
  | String c rest =>
      if is_getter_sep c then
        match PyStr.drop_prefix "varyings." rest with
        | Some r =>
            match fst (PyStr.span_word r) with
            | EmptyString => re_varying_getter rest
            | name => name :: re_varying_getter rest
            end
        | None => re_varying_getter rest
        end
      else re_varying_getter rest
  end.

(** The start of [resolve_varyings] and of [resolve_depth_output]: split
    into lines, drop blank lines at both ends, append an empty line. *)
Fixpoint pop_blank_front (lines : list string) : list string :=
  match lines with
  | l :: rest =>
      match PyStr.strip l with
      | EmptyString => pop_blank_front rest
      | _ => lines
      end
  | [] => []
  end.

Definition pop_blank_back (lines : list string) : list string :=
  rev (pop_blank_front (rev lines)).

Definition prepare_lines (wgsl : string) : list string :=
  pop_blank_back (pop_blank_front (PyStr.splitlines wgsl)) ++ [EmptyString].

(** The three dicts of [resolve_varyings]. *)
Record varyings_state : Type := {
  assigned_varyings : Dict.t (list nat);
  used_varyings : Dict.t (list nat);
  types : Dict.t string
}.

Definition varyings_init : varyings_state :=
  {| assigned_varyings := []; used_varyings := []; types := [] |}.

(** The type text of an assignment: what stands between [=] and the first
    parenthesis, or the empty string when that is no varying type. *)
Definition cast_type (rest : string) : string :=
  let ty := PyStr.remove_spaces (PyStr.strip (PyStr.split_head "(" rest)) in
  if str_in ty varying_types then ty else EmptyString.

(** The body of the first loop, for the line [line] with number [linenr]. *)
Definition setter_step (linenr : nat) (line : string) (st : varyings_state)
  : exn + varyings_state :=
  match re_varying_setter line with
  | None => inr st
  | Some (name, attr, rest) =>
      let '(used1, types1) :=
        match Dict.get name builtin_varyings with
        | Some bt =>
            (Dict.set name [] (used_varyings st), Dict.set name bt (types st))
        | None => (used_varyings st, types st)
        end in
      let ty := cast_type rest in
      let store types2 :=
        inr {| assigned_varyings :=
                 Dict.append_to name linenr (assigned_varyings st);
               used_varyings := used1;
               types := types2 |} in
      match attr with
      | Some _ => store types1
      | None =>
          match ty with
          | EmptyString =>
              inl (TypeError "assignment needs an explicit cast" name line)
          | _ =>
              match Dict.get name types1 with
              | Some t =>
                  if String.eqb ty t then store (Dict.set name ty types1)
                  else inl (TypeError "assignment does not match expected type"
                              name line)
              | None => store (Dict.set name ty types1)
              end
          end
      end
  end.

Fixpoint scan_setters (linenr : nat) (lines : list string)
  (st : varyings_state) : exn + varyings_state :=
  match lines with
  | [] => inr st
  | line :: rest =>
      match setter_step linenr line st with
      | inl e => inl e
      | inr st' => scan_setters (S linenr) rest st'
      end
  end.

(** The state of the second loop. *)
Record getter_state : Type := {
  in_vertex_shader : bool;
  current_func_linenr : nat;
  struct_insert_pos : option nat;
  used : Dict.t (list nat)
}.

Definition set_on_line (assigned : Dict.t (list nat)) (name : string)
  (linenr : nat) : bool :=
  match Dict.get name assigned with
  | Some l => existsb (Nat.eqb linenr) l
  | None => false
  end.

(** The inner loop over the getter matches of one line. *)
Fixpoint record_getters (assigned : Dict.t (list nat)) (in_vs : bool)
  (linenr : nat) (line : string) (names : list string)
  (used : Dict.t (list nat)) : exn + Dict.t (list nat) :=
  match names with
  | [] => inr used
  | name :: rest =>
      if set_on_line assigned name linenr then
        record_getters assigned in_vs linenr line rest used
      else if in_vs then
        inl (TypeError "read in the vertex shader, but only writing is allowed"
               name line)
      else
        record_getters assigned in_vs linenr line rest
          (Dict.append_to name linenr used)
  end.

Definition getter_step (assigned : Dict.t (list nat)) (linenr : nat)
  (line0 : string) (st : getter_state) : exn + getter_state :=
  let line := PyStr.strip line0 in
  let is_fn := PyStr.startswith line "fn " in
  let cur := if is_fn then linenr else current_func_linenr st in
  let in_vs :=
    if is_fn then PyStr.startswith line "fn vs_main" else in_vertex_shader st in
  let line := PyStr.split_head "//" line in
  let pos :=
    match struct_insert_pos st with
    | None => if PyStr.contains "Varyings" line then Some cur else None
    | Some p => Some p
    end in
  match record_getters assigned in_vs linenr line
          (re_varying_getter (String " "%char line)) (used st) with
  | inl e => inl e
  | inr used' =>
      inr {| in_vertex_shader := in_vs; current_func_linenr := cur;
             struct_insert_pos := pos; used := used' |}
  end.

Fixpoint scan_getters (assigned : Dict.t (list nat)) (linenr : nat)
  (lines : list string) (st : getter_state) : exn + getter_state :=
  match lines with
  | [] => inr st
  | line :: rest =>
      match getter_step assigned linenr line st with
      | inl e => inl e
      | inr st' => scan_getters assigned (S linenr) rest st'
      end
  end.

(** "Check if all used varyings are assigned". *)
Fixpoint check_assigned (lines : list string) (assigned : Dict.t (list nat))
  (used : Dict.t (list nat)) : exn + unit :=
  match used with
  | [] => inr tt
  | (name, linenrs) :: rest =>
      if Dict.mem name assigned then check_assigned lines assigned rest
      else
        match linenrs with
        | [] => inl IndexError
        | n :: _ =>
            match nth_error lines n with
            | Some line => inl (TypeError "is read, but not assigned" name line)
            | None => inl IndexError
            end
        end
  end.

Definition starts_unexpected (line_s : string) : bool :=
  existsb (PyStr.startswith line_s) ["fn "; "struct "; "var "; "let "; "}"].

(** The [while] loop that comments out the further lines of an assignment;
    [rest] holds the lines after the current one. *)
Fixpoint comment_continuation (name line indent : string) (rest : list string)
  : exn + list string :=
  match rest with
  | [] => inl IndexError
  | l :: rest' =>
      let line_s := PyStr.strip l in
      if starts_unexpected line_s
         || match rest' with [] => true | _ => false end
      then inl (TypeError "assignment seems to be missing a semicolon" name line)
      else
        let l' := indent +:+ "// " +:+ line_s in
        if PyStr.endswith line_s ";" then inr (l' :: rest')
        else
          match comment_continuation name line indent rest' with
          | inl e => inl e
          | inr r => inr (l' :: r)
          end
  end.

(** The body of the loop over the line numbers of an unused varying. *)
Definition comment_assignment (name : string) (lines : list string)
  (linenr : nat) : exn + list string :=
  match nth_error lines linenr with
  | None => inl IndexError
  | Some line =>
      let indent := PyStr.indent_of line in
      let first := indent +:+ "// unused: " +:+ PyStr.lstrip line in
      if PyStr.endswith (PyStr.strip line) ";" then
        inr (firstn linenr lines ++ first :: skipn (S linenr) lines)
      else
        match comment_continuation name line indent (skipn (S linenr) lines) with
        | inl e => inl e
        | inr rest => inr (firstn linenr lines ++ first :: rest)
        end
  end.

Fixpoint comment_linenrs (name : string) (linenrs : list nat)
  (lines : list string) : exn + list string :=
  match linenrs with
  | [] => inr lines
  | n :: rest =>
      match comment_assignment name lines n with
      | inl e => inl e
      | inr lines' => comment_linenrs name rest lines'
      end
  end.

(** "Comment-out the varying setter if its unused elsewhere". *)
Fixpoint comment_unused (assigned : Dict.t (list nat))
  (used : Dict.t (list nat)) (lines : list string) : exn + list string :=
  match assigned with
  | [] => inr lines
  | (name, linenrs) :: rest =>
      if Dict.mem name used then comment_unused rest used lines
      else
        match comment_linenrs name linenrs lines with
        | inl e => inl e
        | inr lines' => comment_unused rest used lines'
        end
  end.

(** The two kinds of field lines of the struct. *)
Definition slot_field (slotnr : nat) (name ty : string) : string :=
  "    @location(" +:+ PyStr.of_nat slotnr +:+ ") " +:+ name
  +:+ " : " +:+ ty +:+ ",".

Definition builtin_field (name ty : string) : string :=
  "    @builtin(" +:+ name +:+ ") " +:+ name +:+ " : " +:+ ty +:+ ",".

(** The fields of the struct: slots first, then builtins. *)
Fixpoint slot_fields (types : Dict.t string) (slotnr : nat)
  (names : list string) : exn + list string :=
  match names with
  | [] => inr []
  | name :: rest =>
      match Dict.get name types with
      | None => inl (KeyError name)
      | Some ty =>
          match slot_fields types (S slotnr) rest with
          | inl e => inl e
          | inr fs =>
              inr (slot_field slotnr name ty :: fs)
          end
      end
  end.

Fixpoint builtin_fields (types : Dict.t string) (names : list string)
  : exn + list string :=
  match names with
  | [] => inr []
  | name :: rest =>
      match Dict.get name types with
      | None => inl (KeyError name)
      | Some ty =>
          match builtin_fields types rest with
          | inl e => inl e
          | inr fs =>
              inr (builtin_field name ty :: fs)
          end
      end
  end.

(** [set(used_varyings)] split into builtins and slots, each sorted. *)
Definition used_names (used : Dict.t (list nat)) : list string :=
  nodup string_dec (Dict.keys used).

Definition used_builtins (used : Dict.t (list nat)) : list string :=
  PyStr.sorted (List.filter (fun n => Dict.mem n builtin_varyings) (used_names used)).

Definition used_slots (used : Dict.t (list nat)) : list string :=
  PyStr.sorted
    (List.filter (fun n => negb (Dict.mem n builtin_varyings)) (used_names used)).

Definition struct_lines (types : Dict.t string) (used : Dict.t (list nat))
  : exn + list string :=
  match slot_fields types 0 (used_slots used) with
  | inl e => inl e
  | inr slots =>
      match builtin_fields types (used_builtins used) with
      | inl e => inl e
      | inr builtins =>
          inr (["struct Varyings {"] ++ slots ++ builtins ++ ["};" +:+ PyStr.nl])
      end
  end.

(** [lines.insert(pos, x)] for [pos <= len(lines)]. *)
Definition list_insert_at {A} (pos : nat) (x : A) (l : list A) : list A :=
  firstn pos l ++ x :: skipn pos l.

(** "Build and insert the struct". *)
Definition insert_struct (types : Dict.t string) (used : Dict.t (list nat))
  (pos : option nat) (lines : list string) : exn + list string :=
  match pos with
  | Some p0 =>
      let p :=
        match p0 with
        | O => O
        | S q =>
            match nth_error lines q with
            | Some prev =>
                if PyStr.startswith (PyStr.lstrip prev) "@" then q else p0
            | None => p0
            end
        end in
      match struct_lines types used with
      | inl e => inl e
      | inr sl =>
          match nth_error lines p with
          | None => inl IndexError
          | Some line =>
              let indent := PyStr.indent_of line in
              inr (list_insert_at p
                     (PyStr.join PyStr.nl (map (String.append indent) sl)) lines)
          end
      end
  | None =>
      match used with
      | [] => inr lines
      | _ => inl (AssertionError "woops, did not expect used_varyings here")
      end
  end.

(** [resolve_varyings] on the prepared lines. *)
Definition resolve_varyings_lines (lines : list string) : exn + list string :=
  match scan_setters 0 lines varyings_init with
  | inl e => inl e
  | inr st =>
      match scan_getters (assigned_varyings st) 0 lines
              {| in_vertex_shader := false; current_func_linenr := 0;
                 struct_insert_pos := None; used := used_varyings st |} with
      | inl e => inl e
      | inr gs =>
          match check_assigned lines (assigned_varyings st) (used gs) with
          | inl e => inl e
          | inr _ =>
              match comment_unused (assigned_varyings st) (used gs) lines with
              | inl e => inl e
              | inr lines' =>
                  insert_struct (types st) (used gs) (struct_insert_pos gs) lines'
              end
          end
      end
  end.

Definition resolve_varyings (wgsl : string) : exn + string :=
  match resolve_varyings_lines (prepare_lines wgsl) with
  | inl e => inl e
  | inr lines => inr (PyStr.join PyStr.nl lines)
  end.

(** ** Depth output: [resolve_depth_output] *)

(** [re_depth_setter.match(line)], the pattern [\A\s*?out\.depth\s*?\=]. *)
Definition re_depth_setter (line : string) : bool :=
  match PyStr.drop_prefix "out.depth" (PyStr.lstrip line) with
  | Some r =>
      match PyStr.lstrip r with
      | String "="%char _ => true
      | _ => false
      end
  | None => false
  end.

Definition is_struct_open (line : string) : bool :=
  PyStr.startswith (PyStr.lstrip line) "struct FragmentOutput {".

(** The scanning loop with its [break]; [struct_linenr] is [None] for the
    value [-1] of the source. *)
Fixpoint scan_depth (linenr : nat) (lines : list string)
  (depth_is_set : bool) (struct_linenr : option nat) : bool * option nat :=
  match lines with
  | [] => (depth_is_set, struct_linenr)
  | line :: rest =>
      if is_struct_open line then
        scan_depth (S linenr) rest depth_is_set (Some linenr)
      else if re_depth_setter line then
        match struct_linenr with
        | Some _ => (true, struct_linenr)
        | None => scan_depth (S linenr) rest true struct_linenr
        end
      else scan_depth (S linenr) rest depth_is_set struct_linenr
  end.

Definition depth_field : string := "    @builtin(frag_depth) depth : f32,".

Definition resolve_depth_output_lines (lines : list string)
  : exn + list string :=
  match scan_depth 0 lines false None with
  | (true, None) =>
      inl (TypeError "FragmentOutput definition not found." "" "")
  | (true, Some k) =>
      match nth_error lines k with
      | Some line =>
          inr (list_insert_at (S k) (PyStr.indent_of line +:+ depth_field) lines)
      | None => inl IndexError
      end
  | (false, _) => inr lines
  end.

Definition resolve_depth_output (wgsl : string) : exn + string :=
  match resolve_depth_output_lines (prepare_lines wgsl) with
  | inl e => inl e
  | inr lines => inr (PyStr.join PyStr.nl lines)
  end.

(** *** Notions the properties are stated with *)

(** The name a line assigns, when [re_varying_setter] matches it. *)
Definition setter_name (line : string) : option string :=
  match re_varying_setter line with
  | Some (name, _, _) => Some name
  | None => None
  end.

(** Line [i] assigns the varying [name]. *)
Definition assigns (lines : list string) (name : string) (i : nat) : Prop :=
  exists line, nth_error lines i = Some line /\ setter_name line = Some name.

(** The varying names the second loop finds on a line. *)
Definition getters_of_line (line : string) : list string :=
  re_varying_getter (String " "%char (PyStr.split_head "//" (PyStr.strip line))).

(** Whether line [i] lies in the vertex shader: the last line up to [i]
    that starts a function starts [vs_main]. *)
Fixpoint in_vs_at (lines : list string) (i : nat) (cur : bool) : bool :=
  match lines with
  | [] => cur
  | l :: rest =>
      let cur' :=
        if PyStr.startswith (PyStr.strip l) "fn "
        then PyStr.startswith (PyStr.strip l) "fn vs_main" else cur in
      match i with
      | O => cur'
      | S j => in_vs_at rest j cur'
      end
  end.




(** A line that declares a depth field. *)
Definition is_depth_field (line : string) : bool :=
  PyStr.contains "@builtin(frag_depth)" line.

Definition count_depth_fields (lines : list string) : nat :=
  length (List.filter is_depth_field lines).

(** Line [j] opens the [FragmentOutput] struct; line [d] assigns
    [out.depth]. *)
Definition opens_struct_at (lines : list string) (j : nat) : Prop :=
  exists l, nth_error lines j = Some l /\ is_struct_open l = true.

Definition sets_depth_at (lines : list string) (d : nat) : Prop :=
  exists l, nth_error lines d = Some l /\ re_depth_setter l = true.



(** ** The shader object: [BaseShader] *)

(** The values of template variables are Python objects of any class;
    what the shader needs of them is [repr].  A [str] is such an object. *)
Class Python (V : Type) : Type := {
  repr : V -> string;
  str_obj : string -> V
}.

(** The store of the dict objects template variables live in. *)
Abbreviation heap V := (gmap positive (list (string * V))).

(** A shader: [kwargs] is a reference to a dict object of the store. *)
Record BaseShader : Type := {
  kwargs : positive;
  _typedefs : Dict.t string;
  _binding_codes : Dict.t string
}.

Definition set_kwargs (r : positive) (s : BaseShader) : BaseShader :=
  {| kwargs := r; _typedefs := _typedefs s;
     _binding_codes := _binding_codes s |}.

(** What [jinja2] answers to rendering the template [code] with the
    template variables. *)
Inductive jinja_result : Type :=
  | Rendered (code : string)
  | UndefinedError (msg : string)
  | RenderError (e : exn).

(** What a call of [generate_wgsl] works on.  The items of a dict are
    references to objects, and [old_kwargs.copy()] copies the references:
    the objects are shared by the dict and its copy.  [objects] is the
    state of all objects; what [repr] gives for an item is taken in that
    state. *)
Record ShaderWorld (V O : Type) : Type := {
  dicts : heap V;
  objects : O;
  shader : BaseShader
}.
Arguments dicts {V O}.
Arguments objects {V O}.
Arguments shader {V O}.

(** The parts of a shader its subclasses and [jinja2] provide.  Both are
    code that runs on the shader and the objects as they are, and can
    change them: [get_code] is a method of the shader, it can assign
    template variables ([self[key] = value], as [code_common] does) and
    register fragments; [jinja_render code variables] is
    [jinja_env.from_string(code).render(variables)], and the environment
    is a plain [jinja2.Environment], so an expression of the template
    can call the methods of the objects it is given. *)
Record ShaderHooks (V O : Type) : Type := {
  get_code : ShaderWorld V O -> (exn + string) * ShaderWorld V O;
  jinja_render :
    string -> Dict.t V -> ShaderWorld V O -> jinja_result * ShaderWorld V O
}.
Arguments get_code {V O}.
Arguments jinja_render {V O}.

Section Shader.
Context {V : Type} {PV : Python V}.

(** [repr(d)] for a dict. *)
Definition repr_item (kv : string * V) : string :=
  repr (str_obj (fst kv)) +:+ ": " +:+ repr (snd kv).

Definition repr_dict (d : Dict.t V) : string :=
  "{" +:+ PyStr.join ", " (map repr_item d) +:+ "}".

Definition code_definitions (s : BaseShader) : string :=
  PyStr.join PyStr.nl (Dict.values (_typedefs s))
  +:+ PyStr.nl
  +:+ PyStr.join PyStr.nl (Dict.values (_binding_codes s)).

(** The text the digest is taken of.  Encoding to bytes distributes over
    [+:+], so the two [h.update] calls feed the encoding of this text. *)
Definition hash_input (h : heap V) (s : BaseShader) : string :=
  repr_dict (h !!! kwargs s) +:+ code_definitions s.

(** [hash()]; [sha1] stands for [hashlib.sha1(text.encode()).hexdigest()]. *)
Definition hash (sha1 : string -> string) (h : heap V) (s : BaseShader)
  : string :=
  sha1 (hash_input h s).

End Shader.

Section GenerateWgsl.
Context {V O : Type}.

Definition set_shader (s : BaseShader) (w : ShaderWorld V O)
  : ShaderWorld V O :=
  {| dicts := dicts w; objects := objects w; shader := s |}.

Definition set_dicts (h : heap V) (w : ShaderWorld V O) : ShaderWorld V O :=
  {| dicts := h; objects := objects w; shader := shader w |}.

(** [generate_wgsl], called with the keyword arguments [extra]. *)
Definition generate_wgsl (hooks : ShaderHooks V O) (extra : Dict.t V)
  (w : ShaderWorld V O) : (exn + string) * ShaderWorld V O :=
  let old_kwargs := kwargs (shader w) in
  (* self.kwargs = old_kwargs.copy(); self.kwargs.update(kwargs) *)
  let r := fresh (dom (dicts w)) in
  let w1 :=
    {| dicts := <[r := Dict.update (dicts w !!! old_kwargs) extra]> (dicts w);
       objects := objects w;
       shader := set_kwargs r (shader w) |} in
  (* try: *)
  let '(result, w3) :=
    let '(code1, w2) := get_code hooks w1 in
    match code1 with
    | inl e => (inl e, w2)
    | inr code1 =>
        let '(t, w3) :=
          jinja_render hooks code1 (dicts w2 !!! kwargs (shader w2)) w2 in
        (match t with
         | RenderError e => inl e
         | UndefinedError msg =>
             inl (ValueError ("Canot compose shader: " +:+ msg))
         | Rendered code2 =>
             match resolve_varyings code2 with
             | inl e => inl e
             | inr code2 => resolve_depth_output code2
             end
         end, w3)
    end in
  (* finally: self.kwargs = old_kwargs *)
  (result, set_shader (set_kwargs old_kwargs (shader w3)) w3).

(** [hash()] of the shader of a world: [repr] is taken in the state the
    objects are in. *)
Definition world_hash (py : O -> Python V) (sha1 : string -> string)
  (w : ShaderWorld V O) : string :=
  @hash V (py (objects w)) sha1 (dicts w) (shader w).

(** A step that does no more to the shader than assign template
    variables: it changes no dict but the one [self.kwargs] refers to,
    and leaves the objects and the shader itself, with its fragments, as
    they are. *)
Definition only_assigns_variables {A}
  (f : ShaderWorld V O -> A * ShaderWorld V O) : Prop :=
  forall w,
    shader (snd (f w)) = shader w
    /\ objects (snd (f w)) = objects w
    /\ forall r, r <> kwargs (shader w) ->
         dicts (snd (f w)) !! r = dicts w !! r.

End GenerateWgsl.

(** ** Resources and bindings *)

(** Native wgpu objects are known by a number. *)
Definition handle : Type := nat.

(** The fields of [pygfx.resources.Buffer] this module reads.  An
    attribute that is set only once the resource is uploaded is an
    [option]. *)
Record Buffer : Type := {
  buf_id : positive;
  buf_format : string;
  buf_nbytes : Z;
  buf_nitems : Z;
  buf_vertex_byte_range : Z * Z;
  buf_wgpu_buffer : option (Z * handle)
}.

(** [buffer.size]: the class gives the size of a buffer as [nbytes] and
    [nitems]; it has no attribute [size], so reading it raises. *)
Definition buf_size (b : Buffer) : exn + Z := inl (AttributeError "size").

Record TextureView : Type := {
  tv_id : positive;
  tv_texture : positive;
  tv_format : string;
  tv_view_dim : string;
  tv_wgpu_texture_view : option (Z * handle);
  tv_wgpu_sampler : option (Z * handle)
}.

Inductive resource : Type :=
  | RBuffer (b : Buffer)
  | RTextureView (v : TextureView)
  | ROther.

(** The enums of the [wgpu] library this module looks members up in, each
    as the dict from member name to value. *)
Record WgpuEnums : Type := {
  BufferBindingType : Dict.t string;
  SamplerBindingType : Dict.t string;
  TextureSampleType : Dict.t string;
  StorageTextureAccess : Dict.t string;
  TextureViewDimension : Dict.t string
}.

(** [getattr(enum, name)] and [getattr(enum, name, default)]. *)
Definition getattr (enum : Dict.t string) (name : string) : exn + string :=
  match Dict.get name enum with
  | Some v => inr v
  | None => inl (AttributeError name)
  end.

Definition getattr_default (enum : Dict.t string) (name default : string)
  : string :=
  match Dict.get name enum with
  | Some v => v
  | None => default
  end.

(** What [_utils] and [_update] provide: the two format conversions and
    the table [ALTTEXFORMAT]. *)
Record Utils : Type := {
  to_texture_format : string -> exn + string;
  to_vertex_format : string -> exn + string;
  ALTTEXFORMAT : Dict.t (list string)
}.

(** [ALTTEXFORMAT.get(fmt, [fmt])[0]]. *)
Definition alt_format (u : Utils) (fmt : string) : exn + string :=
  match Dict.get fmt (ALTTEXFORMAT u) with
  | Some (f :: _) => inr f
  | Some [] => inl IndexError
  | None => inr fmt
  end.

(** [s.partition("/")[2]]. *)
Fixpoint after_slash (s : string) : string :=
  match s with
  | EmptyString => EmptyString
  | String c rest => if Ascii.eqb c "/"%char then rest else after_slash rest
  end.

(** The descriptors of a bind group entry and of its layout. *)
Inductive entry_resource : Type :=
  | BufferRange (buffer : handle) (offset size : Z)
  | NativeObject (h : handle).

Record bind_entry : Type := {
  be_binding : Z;
  be_resource : entry_resource
}.

Inductive layout_kind : Type :=
  | LBuffer (type : string) (has_dynamic_offset : bool) (min_binding_size : Z)
  | LSampler (type : string)
  | LTexture (sample_type : string) (view_dimension : string)
      (multisampled : bool)
  | LStorageTexture (access : string) (format : string)
      (view_dimension : string).

Record layout_entry : Type := {
  le_binding : Z;
  le_visibility : Z;
  le_kind : layout_kind
}.

Module Binding.

Record t : Type := {
  name : string;
  type : string;
  resource : resource;
  visibility : Z
}.

(** The derivation of the sample type of a [texture/auto] binding. *)
Definition auto_sample_type (w : WgpuEnums) (u : Utils) (v : TextureView)
  : exn + string :=
  match to_texture_format u (tv_format v) with
  | inl e => inl e
  | inr fmt =>
      match alt_format u fmt with
      | inl e => inl e
      | inr fmt =>
          if PyStr.contains "float" fmt || PyStr.contains "norm" fmt then
            getattr (TextureSampleType w) "float"
          else if PyStr.contains "uint" fmt then
            getattr (TextureSampleType w) "uint"
          else if PyStr.contains "sint" fmt then
            getattr (TextureSampleType w) "sint"
          else if PyStr.contains "depth" fmt then
            getattr (TextureSampleType w) "depth"
          else inl (ValueError "Could not determine texture sample type.")
      end
  end.

(** [get_bind_group_descriptors(slot)]. *)
Definition get_bind_group_descriptors (w : WgpuEnums) (u : Utils) (self : t)
  (slot : Z) : exn + (bind_entry * layout_entry) :=
  let subtype := after_slash (type self) in
  let layout k :=
    {| le_binding := slot; le_visibility := visibility self; le_kind := k |} in
  let entry r := {| be_binding := slot; be_resource := r |} in
  if PyStr.startswith (type self) "buffer/" then
    match resource self with
    | RBuffer b =>
        match buf_wgpu_buffer b with
        | None => inl (AttributeError "_wgpu_buffer")
        | Some (_, native) =>
            match getattr (BufferBindingType w) subtype with
            | inl e => inl e
            | inr ty =>
                inr (entry (BufferRange native 0 (buf_nbytes b)),
                     layout (LBuffer ty false 0))
            end
        end
    | _ => inl (AssertionError "isinstance(resource, Buffer)")
    end
  else if PyStr.startswith (type self) "sampler/" then
    match resource self with
    | RTextureView v =>
        match tv_wgpu_sampler v with
        | None => inl (AttributeError "_wgpu_sampler")
        | Some (_, native) =>
            match getattr (SamplerBindingType w) subtype with
            | inl e => inl e
            | inr ty => inr (entry (NativeObject native), layout (LSampler ty))
            end
        end
    | _ => inl (AssertionError "isinstance(resource, TextureView)")
    end
  else if PyStr.startswith (type self) "texture/" then
    match resource self with
    | RTextureView v =>
        match tv_wgpu_texture_view v with
        | None => inl (AttributeError "_wgpu_texture_view")
        | Some (_, native) =>
            let dim :=
              getattr_default (TextureViewDimension w) (tv_view_dim v)
                (tv_view_dim v) in
            let sample_type :=
              getattr_default (TextureSampleType w) subtype subtype in
            let derived :=
              if String.eqb sample_type "auto" then auto_sample_type w u v
              else inr sample_type in
            match derived with
            | inl e => inl e
            | inr sample_type =>
                inr (entry (NativeObject native),
                     layout (LTexture sample_type dim false))
            end
        end
    | _ => inl (AssertionError "isinstance(resource, TextureView)")
    end
  else if PyStr.startswith (type self) "storage_texture/" then
    match resource self with
    | RTextureView v =>
        match tv_wgpu_texture_view v with
        | None => inl (AttributeError "_wgpu_texture_view")
        | Some (_, native) =>
            let dim :=
              getattr_default (TextureViewDimension w) (tv_view_dim v)
                (tv_view_dim v) in
            match to_texture_format u (tv_format v) with
            | inl e => inl e
            | inr fmt =>
                match alt_format u fmt with
                | inl e => inl e
                | inr fmt =>
                    match getattr (StorageTextureAccess w) subtype with
                    | inl e => inl e
                    | inr access =>
                        inr (entry (NativeObject native),
                             layout (LStorageTexture access fmt dim))
                    end
                end
            end
        end
    | _ => inl (AssertionError "isinstance(resource, TextureView)")
    end
  else inl (UnboundLocalError "binding").

End Binding.

(** ** Python values *)

(** The values a shader may answer with. *)
#[warnings="-register-all"]
Inductive pyval : Type :=
  | PyNone
  | PyBool (b : bool)
  | PyInt (z : Z)
  | PyStr (s : string)
  | PyTuple (l : list pyval)
  | PyList (l : list pyval)
  | PyDict (d : list (string * pyval))
  | PyOpaque (id : positive).

(** [bool(v)]. *)
Definition truthy (v : pyval) : bool :=
  match v with
  | PyNone => false
  | PyBool b => b
  | PyInt z => negb (Z.eqb z 0)
  | PyStr s => negb (String.eqb s "")
  | PyTuple l | PyList l => match l with [] => false | _ => true end
  | PyDict d => match d with [] => false | _ => true end
  | PyOpaque _ => true
  end.

(** [isinstance(v, int)]; a [bool] is an [int]. *)
Definition is_int (v : pyval) : bool :=
  match v with PyInt _ | PyBool _ => true | _ => false end.

Definition int_value (v : pyval) : Z :=
  match v with
  | PyInt z => z
  | PyBool true => 1
  | _ => 0
  end.

(** [set(d.keys()) == set(expected)]. *)
Definition keys_equal {V} (d : Dict.t V) (expected : list string) : bool :=
  forallb (fun k => str_in k expected) (Dict.keys d)
  && forallb (fun k => Dict.mem k d) expected.

(** ** The world around a container *)

Record vbo_descriptor : Type := {
  array_stride : Z;
  step_mode : string;
  attr_format : string;
  attr_offset : Z;
  shader_location : Z
}.

(** What a container does that is seen outside of it, in order: the
    calls on the device, the calls on a pass, and the calls on the other
    collaborators. *)
Inductive event : Type :=
  | create_shader_module (code : string)
  | create_bind_group_layout (entries : list layout_entry)
  | create_bind_group (layout : handle) (entries : list bind_entry)
  | create_pipeline_layout (bind_group_layouts : list handle)
  | create_compute_pipeline (layout module : handle)
  | create_render_pipeline (layout module : handle)
      (buffers : list vbo_descriptor) (topology cull_mode : pyval)
      (strip_index_format : option string) (depth : string)
      (targets : list string)
  | set_pipeline (pipeline : handle)
  | set_vertex_buffer (slot : Z) (buffer : handle) (offset size : Z)
  | set_bind_group (index : nat) (bind_group : handle) (a b : Z)
  | set_index_buffer (buffer : positive) (offset size : Z)
  | pass_draw (indices : list pyval)
  | pass_draw_indexed (indices : list pyval)
  | dispatch_workgroups (indices : list pyval)
  | update_resource (kind : string) (res : positive)
  | tag_usage (res : positive) (flags : list string)
  | register_pipeline_container (env_hash : string)
  | logger_info (labels : list string).

(** The calls on the device and on a pass. *)
Definition is_gpu_call (ev : event) : bool :=
  match ev with
  | update_resource _ _ | tag_usage _ _ | register_pipeline_container _
  | logger_info _ => false
  | _ => true
  end.

Record World : Type := {
  trace : list event;
  next_handle : handle;
  cache : gmap string handle
}.

(** The resource description a shader returns, with the values of the
    three known keys typed as the checks demand. *)
Record Resources : Type := {
  res_keys : list string;
  index_buffer : option Buffer;
  vertex_buffers : list (Z * Buffer);
  bindings : list (nat * list (Z * Binding.t))
}.

(** The collaborators of a container: the shader, the device (whether a
    call raises), the blender of the environment, and the libraries. *)
Record Externals : Type := {
  wgpu : WgpuEnums;
  utils : Utils;
  get_resources : World -> exn + Resources;
  get_pipeline_info : World -> exn + pyval;
  get_render_info : World -> exn + pyval;
  shader_hash : World -> string;
  shader_generate_wgsl : option nat -> World -> exn + string;
  call_raises : event -> World -> option exn;
  IndexFormat_uint32 : string;
  VertexStepMode_vertex : string;
  get_pass_count : nat;
  get_color_descriptors : nat -> list string;
  get_depth_descriptor : nat -> string
}.

Inductive container_kind : Type := Compute | Render.

#[global] Instance layout_kind_eq_dec : EqDecision layout_kind.
Proof. solve_decision. Defined.
#[global] Instance layout_entry_eq_dec : EqDecision layout_entry.
Proof. solve_decision. Defined.
#[global] Instance vbo_descriptor_eq_dec : EqDecision vbo_descriptor.
Proof. solve_decision. Defined.

(** The attributes of a container ([__init__] of [PipelineContainer] and
    of [RenderPipelineContainer]).  [stored_hash] is the attribute
    [shader_hash]: [None] is its initial value, the bytes object that
    equals no [str]; [strip_index_format] is [None] for the integer 0. *)
Record Container : Type := {
  kind : container_kind;
  stored_hash : option string;
  resources : option Resources;
  pipeline_info : option pyval;
  render_info : option pyval;
  wgpu_shaders : gmap string (gmap nat handle);
  wgpu_pipelines : gmap string (gmap nat handle);
  bind_group_layout_descriptors : list (list layout_entry);
  wgpu_bind_group_layouts : list handle;
  wgpu_bind_groups : list handle;
  flat_resources : list (string * positive);
  broken : pyval;
  strip_index_format : option string;
  vertex_buffer_descriptors : list vbo_descriptor
}.

Definition new_container (k : container_kind) : Container :=
  {| kind := k; stored_hash := None; resources := None; pipeline_info := None;
     render_info := None; wgpu_shaders := ∅; wgpu_pipelines := ∅;
     bind_group_layout_descriptors := []; wgpu_bind_group_layouts := [];
     wgpu_bind_groups := []; flat_resources := []; broken := PyBool false;
     strip_index_format := None; vertex_buffer_descriptors := [] |}.

(** The state a method runs in: the container, the world, and the set
    [changed] the caller passed in (the methods add to it). *)
Record State : Type := {
  self : Container;
  world : World;
  changed : gset string
}.

(** ** A state and exception monad *)

Definition M (A : Type) : Type := State -> (exn + A) * State.

Definition ret {A} (a : A) : M A := fun st => (inr a, st).
Definition raise {A} (e : exn) : M A := fun st => (inl e, st).
Definition bind {A B} (m : M A) (k : A -> M B) : M B :=
  fun st =>
    match m st with
    | (inl e, st') => (inl e, st')
    | (inr a, st') => k a st'
    end.

Notation "x <- m ;; k" := (bind m (fun x => k))
  (at level 100, m at next level, right associativity).
Notation "m ;;; k" := (bind m (fun _ => k))
  (at level 100, right associativity).

Definition get_self : M Container := fun st => (inr (self st), st).
Definition get_world : M World := fun st => (inr (world st), st).
Definition get_changed : M (gset string) := fun st => (inr (changed st), st).

Definition modify_self (f : Container -> Container) : M unit :=
  fun st => (inr tt, {| self := f (self st); world := world st;
                        changed := changed st |}).

Definition modify_world (f : World -> World) : M unit :=
  fun st => (inr tt, {| self := self st; world := f (world st);
                        changed := changed st |}).

(** [changed.add(label)]. *)
Definition changed_add (label : string) : M unit :=
  fun st => (inr tt, {| self := self st; world := world st;
                        changed := {[label]} ∪ changed st |}).

(** Turn the answer of a pure step into a step. *)
Definition lift {A} (r : exn + A) : M A :=
  match r with inl e => raise e | inr a => ret a end.

Definition assert (b : bool) (msg : string) : M unit :=
  if b then ret tt else raise (AssertionError msg).

Definition emit (ev : event) : M unit :=
  modify_world (fun w => {| trace := trace w ++ [ev];
                            next_handle := next_handle w;
                            cache := cache w |}).

(** A call on a collaborator: it is seen, then it raises or returns. *)
Definition call (X : Externals) (ev : event) : M unit :=
  w <- get_world ;;
  emit ev ;;;
  match call_raises X ev w with
  | Some e => raise e
  | None => ret tt
  end.

(** A call on the device or on a pass, which returns a new object. *)
Definition gpu_call (X : Externals) (ev : event) : M handle :=
  call X ev ;;;
  w <- get_world ;;
  modify_world (fun w => {| trace := trace w;
                            next_handle := S (next_handle w);
                            cache := cache w |}) ;;;
  ret (next_handle w).

(** [for x in l: body(x)]. *)
Fixpoint for_each {A} (l : list A) (body : A -> M unit) : M unit :=
  match l with
  | [] => ret tt
  | x :: rest => body x ;;; for_each rest body
  end.

(** [try: m except Exception as err: handler; raise err else: otherwise]. *)
Definition try_except_else {A} (m : M A) (handler otherwise : M unit) : M A :=
  fun st =>
    match m st with
    | (inl e, st') => (inl e, snd (handler st'))
    | (inr a, st') => (inr a, snd (otherwise st'))
    end.

(** Setters of the attributes that are assigned. *)
Definition set_broken (v : pyval) (c : Container) : Container :=
  {| kind := kind c; stored_hash := stored_hash c; resources := resources c;
     pipeline_info := pipeline_info c; render_info := render_info c;
     wgpu_shaders := wgpu_shaders c; wgpu_pipelines := wgpu_pipelines c;
     bind_group_layout_descriptors := bind_group_layout_descriptors c;
     wgpu_bind_group_layouts := wgpu_bind_group_layouts c;
     wgpu_bind_groups := wgpu_bind_groups c;
     flat_resources := flat_resources c; broken := v;
     strip_index_format := strip_index_format c;
     vertex_buffer_descriptors := vertex_buffer_descriptors c |}.

Definition set_wgpu_shaders (v : gmap string (gmap nat handle))
  (c : Container) : Container :=
  {| kind := kind c; stored_hash := stored_hash c; resources := resources c;
     pipeline_info := pipeline_info c; render_info := render_info c;
     wgpu_shaders := v; wgpu_pipelines := wgpu_pipelines c;
     bind_group_layout_descriptors := bind_group_layout_descriptors c;
     wgpu_bind_group_layouts := wgpu_bind_group_layouts c;
     wgpu_bind_groups := wgpu_bind_groups c;
     flat_resources := flat_resources c; broken := broken c;
     strip_index_format := strip_index_format c;
     vertex_buffer_descriptors := vertex_buffer_descriptors c |}.

Definition set_wgpu_pipelines (v : gmap string (gmap nat handle))
  (c : Container) : Container :=
  {| kind := kind c; stored_hash := stored_hash c; resources := resources c;
     pipeline_info := pipeline_info c; render_info := render_info c;
     wgpu_shaders := wgpu_shaders c; wgpu_pipelines := v;
     bind_group_layout_descriptors := bind_group_layout_descriptors c;
     wgpu_bind_group_layouts := wgpu_bind_group_layouts c;
     wgpu_bind_groups := wgpu_bind_groups c;
     flat_resources := flat_resources c; broken := broken c;
     strip_index_format := strip_index_format c;
     vertex_buffer_descriptors := vertex_buffer_descriptors c |}.

Definition set_shader_data (h : option string) (r : option Resources)
  (p i : option pyval) (fl : list (string * positive)) (c : Container)
  : Container :=
  {| kind := kind c; stored_hash := h; resources := r;
     pipeline_info := p; render_info := i;
     wgpu_shaders := wgpu_shaders c; wgpu_pipelines := wgpu_pipelines c;
     bind_group_layout_descriptors := bind_group_layout_descriptors c;
     wgpu_bind_group_layouts := wgpu_bind_group_layouts c;
     wgpu_bind_groups := wgpu_bind_groups c;
     flat_resources := fl; broken := broken c;
     strip_index_format := strip_index_format c;
     vertex_buffer_descriptors := vertex_buffer_descriptors c |}.

Definition set_bind_groups (d : list (list layout_entry))
  (ls gs : list handle) (c : Container) : Container :=
  {| kind := kind c; stored_hash := stored_hash c; resources := resources c;
     pipeline_info := pipeline_info c; render_info := render_info c;
     wgpu_shaders := wgpu_shaders c; wgpu_pipelines := wgpu_pipelines c;
     bind_group_layout_descriptors := d;
     wgpu_bind_group_layouts := ls;
     wgpu_bind_groups := gs;
     flat_resources := flat_resources c; broken := broken c;
     strip_index_format := strip_index_format c;
     vertex_buffer_descriptors := vertex_buffer_descriptors c |}.

Definition set_render_formats (s : option string) (v : list vbo_descriptor)
  (c : Container) : Container :=
  {| kind := kind c; stored_hash := stored_hash c; resources := resources c;
     pipeline_info := pipeline_info c; render_info := render_info c;
     wgpu_shaders := wgpu_shaders c; wgpu_pipelines := wgpu_pipelines c;
     bind_group_layout_descriptors := bind_group_layout_descriptors c;
     wgpu_bind_group_layouts := wgpu_bind_group_layouts c;
     wgpu_bind_groups := wgpu_bind_groups c;
     flat_resources := flat_resources c; broken := broken c;
     strip_index_format := s;
     vertex_buffer_descriptors := v |}.

(** ** Reading Python values *)

(** [v[k]] for a [str] key. *)
Definition subscript (v : pyval) (k : string) : exn + pyval :=
  match v with
  | PyDict d =>
      match Dict.get k d with
      | Some x => inr x
      | None => inl (KeyError k)
      end
  | _ => inl (TypeError "object is not subscriptable" k "")
  end.

(** [self.attr[k]] for an attribute that starts as [None]. *)
Definition subscript_opt (v : option pyval) (k : string) : exn + pyval :=
  match v with
  | Some v => subscript v k
  | None => inl (TypeError "'NoneType' object is not subscriptable" k "")
  end.

(** The items of a tuple or a list. *)
Definition sequence_items (v : pyval) : option (list pyval) :=
  match v with
  | PyTuple l | PyList l => Some l
  | _ => None
  end.

(** [*v] in a call. *)
Definition unpack (v : pyval) : exn + list pyval :=
  match v with
  | PyTuple l | PyList l => inr l
  | PyStr s => inr (map (fun c => PyStr (String c EmptyString))
                      (list_ascii_of_string s))
  | PyDict d => inr (map PyStr (Dict.keys d))
  | _ => inl (TypeError "argument after * must be an iterable" "" "")
  end.

(** [len(v)]. *)
Definition len (v : pyval) : exn + nat :=
  match v with
  | PyTuple l | PyList l => inr (length l)
  | PyStr s => inr (String.length s)
  | PyDict d => inr (length d)
  | _ => inl (TypeError "object has no len()" "" "")
  end.

(** ["strip" in v]. *)
Definition contains_strip (v : pyval) : exn + bool :=
  match v with
  | PyStr s => inr (PyStr.contains "strip" s)
  | PyTuple l | PyList l =>
      inr (existsb (fun x => match x with
                             | PyStr s => String.eqb s "strip"
                             | _ => false
                             end) l)
  | PyDict d => inr (Dict.mem "strip" d)
  | _ => inl (TypeError "argument is not iterable" "" "")
  end.

(** [range(n)]. *)
Definition range (n : nat) : list nat := seq 0 n.

(** [sorted(d.keys())] with the values, for keys compared by [leb]. *)
Fixpoint insert_by {K A} (leb : K -> K -> bool) (x : K * A)
  (l : list (K * A)) : list (K * A) :=
  match l with
  | [] => [x]
  | y :: l' => if leb (fst x) (fst y) then x :: l else y :: insert_by leb x l'
  end.

Definition sorted_items {K A} (leb : K -> K -> bool) (l : list (K * A))
  : list (K * A) :=
  fold_right (insert_by leb) [] l.

(** ** The description of the resources *)

(** [resources.get(key, default)] and [resources[key]] on the three
    known keys. *)
Definition has_key (r : Resources) (k : string) : bool :=
  str_in k (res_keys r).

Definition get_index_buffer (r : Resources) : option Buffer :=
  if has_key r "index_buffer" then index_buffer r else None.

Definition get_vertex_buffers (r : Resources) : list (Z * Buffer) :=
  if has_key r "vertex_buffers" then vertex_buffers r else [].

Definition get_bindings (r : Resources)
  : list (nat * list (Z * Binding.t)) :=
  if has_key r "bindings" then bindings r else [].

Definition item {A} (r : Resources) (k : string) (field : Resources -> A)
  : exn + A :=
  if has_key r k then inr (field r) else inl (KeyError k).

Definition self_resources (c : Container) (k : string) : exn + Resources :=
  match resources c with
  | Some r => inr r
  | None => inl (TypeError "'NoneType' object is not subscriptable" k "")
  end.

(** Single-attribute assignments. *)
Definition set_resources (r : Resources) (c : Container) : Container :=
  set_shader_data (stored_hash c) (Some r) (pipeline_info c) (render_info c)
    (flat_resources c) c.

Definition set_flat_resources (fl : list (string * positive))
  (c : Container) : Container :=
  set_shader_data (stored_hash c) (resources c) (pipeline_info c)
    (render_info c) fl c.

Definition set_stored_hash (h : string) (c : Container) : Container :=
  set_shader_data (Some h) (resources c) (pipeline_info c) (render_info c)
    (flat_resources c) c.

Definition set_pipeline_info (p : pyval) (c : Container) : Container :=
  set_shader_data (stored_hash c) (resources c) (Some p) (render_info c)
    (flat_resources c) c.

Definition set_render_info (i : pyval) (c : Container) : Container :=
  set_shader_data (stored_hash c) (resources c) (pipeline_info c) (Some i)
    (flat_resources c) c.

(** ** [collect_flat_resources] *)

(** The resources of one binding, after tagging their usage. *)
Definition binding_flat_resources (b : Binding.t)
  : M (list (string * positive)) :=
  let ty := Binding.type b in
  if PyStr.startswith ty "buffer/" then
    match Binding.resource b with
    | RBuffer r =>
        (if PyStr.contains "uniform" ty then
           emit (tag_usage (buf_id r) ["UNIFORM"])
         else if PyStr.contains "storage" ty then
           emit (tag_usage (buf_id r) ["STORAGE"]) ;;;
           (if PyStr.contains "indices" (Binding.name b) then
              emit (tag_usage (buf_id r) ["INDEX"])
            else emit (tag_usage (buf_id r) ["VERTEX"]))
         else ret tt) ;;;
        ret [("buffer", buf_id r)]
    | _ => raise (AssertionError "isinstance(resource, Buffer)")
    end
  else if PyStr.startswith ty "sampler/" then
    match Binding.resource b with
    | RTextureView v => ret [("sampler", tv_id v)]
    | _ => raise (AssertionError "isinstance(resource, TextureView)")
    end
  else if PyStr.startswith ty "texture/" then
    match Binding.resource b with
    | RTextureView v =>
        emit (tag_usage (tv_texture v) ["TEXTURE_BINDING"]) ;;;
        ret [("texture", tv_texture v); ("texture_view", tv_id v)]
    | _ => raise (AssertionError "isinstance(resource, TextureView)")
    end
  else if PyStr.startswith ty "storage_texture/" then
    match Binding.resource b with
    | RTextureView v =>
        emit (tag_usage (tv_texture v) ["STORAGE_BINDING"]) ;;;
        ret [("texture", tv_texture v); ("texture_view", tv_id v)]
    | _ => raise (AssertionError "isinstance(resource, TextureView)")
    end
  else raise (RuntimeError "Unknown resource binding").

(** [for x in l: acc.extend(body(x))]. *)
Fixpoint collect {A B} (l : list A) (body : A -> M (list B)) : M (list B) :=
  match l with
  | [] => ret []
  | x :: rest =>
      here <- body x ;;
      there <- collect rest body ;;
      ret (here ++ there)
  end.

Definition collect_flat_resources (r : Resources)
  : M (list (string * positive)) :=
  index <- match get_index_buffer r with
           | Some b =>
               emit (tag_usage (buf_id b) ["INDEX"; "STORAGE"]) ;;;
               ret [("buffer", buf_id b)]
           | None => ret []
           end ;;
  vertex <- collect (get_vertex_buffers r)
              (fun sb =>
                 emit (tag_usage (buf_id (snd sb)) ["VERTEX"; "STORAGE"]) ;;;
                 ret [("buffer", buf_id (snd sb))]) ;;
  bound <- collect (get_bindings r)
             (fun g => collect (snd g)
                         (fun sb => binding_flat_resources (snd sb))) ;;
  ret (index ++ vertex ++ bound).

(** ** [update_shader_hash] *)

Definition update_shader_hash (X : Externals) : M unit :=
  c <- get_self ;;
  w <- get_world ;;
  if bool_decide (Some (shader_hash X w) = stored_hash c) then ret tt
  else
    modify_self (set_stored_hash (shader_hash X w)) ;;;
    modify_self (set_wgpu_shaders ∅).

(** ** [update_bind_groups] *)

(** The descriptors of the bindings of one group, in slot order. *)
Fixpoint slots_descriptors (w : WgpuEnums) (u : Utils)
  (slots : list (Z * Binding.t))
  : exn + (list bind_entry * list layout_entry) :=
  match slots with
  | [] => inr ([], [])
  | (slot, b) :: rest =>
      match Binding.get_bind_group_descriptors w u b slot with
      | inl e => inl e
      | inr (d, l) =>
          match slots_descriptors w u rest with
          | inl e => inl e
          | inr (ds, ls) => inr (d :: ds, l :: ls)
          end
      end
  end.

(** [while len(l) <= group_id: l.append([])]. *)
Definition pad {A} (group_id : nat) (l : list (list A)) : list (list A) :=
  l ++ repeat [] (S group_id - length l).

(** [l[group_id].extend(more)]. *)
Fixpoint extend_at {A} (group_id : nat) (more : list A) (l : list (list A))
  : list (list A) :=
  match l, group_id with
  | [], _ => []
  | x :: l', O => (x ++ more) :: l'
  | x :: l', S n => x :: extend_at n more l'
  end.

Fixpoint groups_descriptors (w : WgpuEnums) (u : Utils)
  (groups : list (nat * list (Z * Binding.t)))
  (bg : list (list bind_entry)) (bgl : list (list layout_entry))
  : exn + (list (list bind_entry) * list (list layout_entry)) :=
  match groups with
  | [] => inr (bg, bgl)
  | (group_id, slots) :: rest =>
      let bg := pad group_id bg in
      let bgl := pad group_id bgl in
      match slots_descriptors w u (sorted_items Z.leb slots) with
      | inl e => inl e
      | inr (ds, ls) =>
          groups_descriptors w u rest (extend_at group_id ds bg)
            (extend_at group_id ls bgl)
      end
  end.

(** The clean-up of trailing empty descriptors, on the reversed lists. *)
Fixpoint drop_empty {A B} (bg : list (list A)) (bgl : list B)
  : list (list A) * list B :=
  match bg with
  | [] :: bg' => drop_empty bg' (tl bgl)
  | _ => (bg, bgl)
  end.

Definition strip_trailing {A B} (bg : list (list A)) (bgl : list B)
  : list (list A) * list B :=
  let (a, b) := drop_empty (rev bg) (rev bgl) in (rev a, rev b).

(** [zip(a, b)]. *)
Definition zip {A B} (a : list A) (b : list B) : list (A * B) := combine a b.

Definition update_bind_groups (X : Externals) : M unit :=
  c <- get_self ;;
  r <- lift (self_resources c "bindings") ;;
  binding_groups <- lift (item r "bindings" bindings) ;;
  descriptors <-
    lift (groups_descriptors (wgpu X) (utils X)
            (sorted_items Nat.leb binding_groups) [] []) ;;
  let (bg_descriptors, bg_layout_descriptors) :=
    strip_trailing (fst descriptors) (snd descriptors) in
  (if bool_decide (bind_group_layout_descriptors c = bg_layout_descriptors)
   then ret tt
   else
     modify_self (set_bind_groups bg_layout_descriptors [] (wgpu_bind_groups c)) ;;;
     modify_self (set_wgpu_pipelines ∅) ;;;
     for_each bg_layout_descriptors
       (fun d =>
          layout <- gpu_call X (create_bind_group_layout d) ;;
          modify_self (fun c =>
            set_bind_groups (bind_group_layout_descriptors c)
              (wgpu_bind_group_layouts c ++ [layout]) (wgpu_bind_groups c) c))) ;;;
  modify_self (fun c =>
    set_bind_groups (bind_group_layout_descriptors c)
      (wgpu_bind_group_layouts c) [] c) ;;;
  c <- get_self ;;
  for_each (zip bg_descriptors (wgpu_bind_group_layouts c))
    (fun dl =>
       bind_group <- gpu_call X (create_bind_group (snd dl) (fst dl)) ;;
       modify_self (fun c =>
         set_bind_groups (bind_group_layout_descriptors c)
           (wgpu_bind_group_layouts c) (wgpu_bind_groups c ++ [bind_group]) c)).

(** ** The shader module cache *)

Module Cache.

Definition get (key : string) : M (option handle) :=
  w <- get_world ;; ret (cache w !! key).

Definition set (key : string) (value : handle) : M unit :=
  modify_world (fun w => {| trace := trace w; next_handle := next_handle w;
                            cache := <[key := value]> (cache w) |}).

Definition get_shader_module (X : Externals) (source : string) : M handle :=
  m <- get source ;;
  match m with
  | Some m => ret m
  | None =>
      m <- gpu_call X (create_shader_module source) ;;
      set source m ;;;
      ret m
  end.

End Cache.

(** ** Attribute lookup on a container *)

(** What [self.attr] evaluates to. *)
Inductive attr_value : Type :=
  | AShader
  | AHash (h : option string)
  | AResources (r : option Resources)
  | AInfo (i : option pyval)
  | AObjects (m : gmap string (gmap nat handle))
  | ALayoutDescriptors (d : list (list layout_entry))
  | AHandles (l : list handle)
  | AFlatResources (l : list (string * positive))
  | ABroken (v : pyval)
  | AStripIndexFormat (f : option string)
  | AVertexBufferDescriptors (d : list vbo_descriptor)
  | AMethod (name : string).

(** The methods of the two classes and of their base class. *)
Definition methods (k : container_kind) : list string :=
  ["remove_env_hash"; "update"; "update_shader_data"; "update_wgpu_data";
   "update_shader_hash"; "update_bind_groups"; "collect_flat_resources";
   "_check_pipeline_info"; "_check_render_info"; "_check_resources";
   "_compile_shaders"; "_compose_pipelines"]
  ++ match k with
     | Compute => ["dispatch"]
     | Render => ["update_index_buffer_format";
                  "update_vertex_buffer_descriptors"; "draw"]
     end.

(** [getattr(self, attr)]: the instance attributes that [__init__] sets,
    then the methods of the class. *)
Definition getattr_self (c : Container) (attr : string) : exn + attr_value :=
  if String.eqb attr "shader" then inr AShader
  else if String.eqb attr "shader_hash" then inr (AHash (stored_hash c))
  else if String.eqb attr "resources" then inr (AResources (resources c))
  else if String.eqb attr "pipeline_info" then inr (AInfo (pipeline_info c))
  else if String.eqb attr "render_info" then inr (AInfo (render_info c))
  else if String.eqb attr "wgpu_shaders" then inr (AObjects (wgpu_shaders c))
  else if String.eqb attr "wgpu_pipelines" then
    inr (AObjects (wgpu_pipelines c))
  else if String.eqb attr "bind_group_layout_descriptors" then
    inr (ALayoutDescriptors (bind_group_layout_descriptors c))
  else if String.eqb attr "wgpu_bind_group_layouts" then
    inr (AHandles (wgpu_bind_group_layouts c))
  else if String.eqb attr "wgpu_bind_groups" then
    inr (AHandles (wgpu_bind_groups c))
  else if String.eqb attr "flat_resources" then
    inr (AFlatResources (flat_resources c))
  else if String.eqb attr "broken" then inr (ABroken (broken c))
  else
    match kind c with
    | Render =>
        if String.eqb attr "strip_index_format" then
          inr (AStripIndexFormat (strip_index_format c))
        else if String.eqb attr "vertex_buffer_descriptors" then
          inr (AVertexBufferDescriptors (vertex_buffer_descriptors c))
        else if str_in attr (methods Render) then inr (AMethod attr)
        else inl (AttributeError attr)
    | Compute =>
        if str_in attr (methods Compute) then inr (AMethod attr)
        else inl (AttributeError attr)
    end.

(** The object a pass is given as the pipeline. *)
Definition as_pipeline (v : attr_value) : exn + handle :=
  match v with
  | AHandles [h] => inr h
  | _ => inl (ExternalError "not a pipeline object")
  end.

(** [for i, x in enumerate(l): body(i, x)]. *)
Definition enumerate {A} (l : list A) : list (nat * A) :=
  combine (seq 0 (length l)) l.

(** ** [ComputePipelineContainer] *)

Module ComputePipelineContainer.

Definition _check_pipeline_info : M unit :=
  c <- get_self ;;
  match pipeline_info c with
  | Some (PyDict d) => assert (keys_equal d []) "pipeline_info.keys()"
  | _ => raise (AssertionError "isinstance(pipeline_info, dict)")
  end.

Definition _check_render_info : M unit :=
  c <- get_self ;;
  match render_info c with
  | Some (PyDict d) =>
      assert (keys_equal d ["indices"]) "render_info.keys()" ;;;
      indices <- lift (subscript (PyDict d) "indices") ;;
      match sequence_items indices with
      | Some l =>
          assert (forallb is_int l) "all(isinstance(i, int) for i in indices)" ;;;
          assert (Nat.eqb (length l) 3) "len(indices) == 3"
      | None => raise (AssertionError "isinstance(indices, (tuple, list))")
      end
  | _ => raise (AssertionError "isinstance(render_info, dict)")
  end.

Definition _check_resources : M unit :=
  c <- get_self ;;
  match resources c with
  | Some r =>
      assert (forallb (fun k => str_in k ["bindings"]) (res_keys r)
              && has_key r "bindings") "resources.keys()"
  | None => raise (AssertionError "isinstance(resources, dict)")
  end.

Definition _compile_shaders (X : Externals) : M (gmap nat handle) :=
  w <- get_world ;;
  wgsl <- lift (shader_generate_wgsl X None w) ;;
  shader_module <- Cache.get_shader_module X wgsl ;;
  ret {[ 0%nat := shader_module ]}.

Definition _compose_pipelines (X : Externals)
  (shader_modules : gmap nat handle) : M (gmap nat handle) :=
  c <- get_self ;;
  pipeline_layout <-
    gpu_call X (create_pipeline_layout (wgpu_bind_group_layouts c)) ;;
  match shader_modules !! 0%nat with
  | None => raise (KeyError "0")
  | Some module =>
      pipeline <- gpu_call X (create_compute_pipeline pipeline_layout module) ;;
      ret {[ 0%nat := pipeline ]}
  end.

Definition dispatch (X : Externals) : M unit :=
  c <- get_self ;;
  if truthy (broken c) then ret tt
  else
    pipeline <- lift (getattr_self c "wgpu_pipeline") ;;
    indices <- lift (subscript_opt (render_info c) "indices") ;;
    let bind_groups := wgpu_bind_groups c in
    pipeline <- lift (as_pipeline pipeline) ;;
    gpu_call X (set_pipeline pipeline) ;;;
    for_each (enumerate bind_groups)
      (fun ig =>
         gpu_call X (set_bind_group (fst ig) (snd ig) 0 999999) ;;; ret tt) ;;;
    indices <- lift (unpack indices) ;;
    gpu_call X (dispatch_workgroups indices) ;;;
    ret tt.

End ComputePipelineContainer.

(** ** [RenderPipelineContainer] *)

Module RenderPipelineContainer.

Definition update_index_buffer_format (X : Externals) : M unit :=
  c <- get_self ;;
  let resources_true :=
    match resources c with
    | Some r => match res_keys r with [] => false | _ => true end
    | None => false
    end in
  let info_true :=
    match pipeline_info c with Some p => truthy p | None => false end in
  if negb resources_true || negb info_true then ret tt
  else
    r <- lift (self_resources c "index_buffer") ;;
    index_buffer <- lift (item r "index_buffer" index_buffer) ;;
    index_format <-
      match index_buffer with
      | Some b =>
          f <- lift (to_vertex_format (utils X) (buf_format b)) ;;
          ret (replace_char "s" "u" (PyStr.split_head "x" f))
      | None => ret (IndexFormat_uint32 X)
      end ;;
    topology <- lift (subscript_opt (pipeline_info c) "primitive_topology") ;;
    strip <- lift (contains_strip topology) ;;
    let strip_index_format' := if strip then Some index_format else None in
    if bool_decide (strip_index_format c = strip_index_format') then ret tt
    else
      modify_self (fun c =>
        set_render_formats strip_index_format' (vertex_buffer_descriptors c) c) ;;;
      modify_self (set_wgpu_pipelines ∅).

Fixpoint vbo_descriptors (X : Externals) (buffers : list (Z * Buffer))
  : exn + list vbo_descriptor :=
  match buffers with
  | [] => inr []
  | (slot, buffer) :: rest =>
      if Z.eqb (buf_nitems buffer) 0 then inl ZeroDivisionError
      else
        match to_vertex_format (utils X) (buf_format buffer) with
        | inl e => inl e
        | inr f =>
            match vbo_descriptors X rest with
            | inl e => inl e
            | inr ds =>
                inr ({| array_stride :=
                          Z.div (buf_nbytes buffer) (buf_nitems buffer);
                        step_mode := VertexStepMode_vertex X;
                        attr_format := f;
                        attr_offset := 0;
                        shader_location := slot |} :: ds)
            end
        end
  end.

Definition update_vertex_buffer_descriptors (X : Externals) : M unit :=
  c <- get_self ;;
  r <- lift (self_resources c "vertex_buffers") ;;
  buffers <- lift (item r "vertex_buffers" vertex_buffers) ;;
  descriptors <- lift (vbo_descriptors X buffers) ;;
  if bool_decide (descriptors = vertex_buffer_descriptors c) then ret tt
  else
    modify_self (fun c =>
      set_render_formats (strip_index_format c) descriptors c) ;;;
    modify_self (set_wgpu_pipelines ∅).

Definition _check_pipeline_info (X : Externals) : M unit :=
  c <- get_self ;;
  match pipeline_info c with
  | Some (PyDict d) =>
      assert (keys_equal d ["cull_mode"; "primitive_topology"])
        "pipeline_info.keys()" ;;;
      update_index_buffer_format X
  | _ => raise (AssertionError "isinstance(pipeline_info, dict)")
  end.

(** [render_mask in (1, 2, 3)] for an [int]. *)
Definition valid_render_mask (v : pyval) : bool :=
  is_int v
  && (Z.eqb (int_value v) 1 || Z.eqb (int_value v) 2
      || Z.eqb (int_value v) 3).

Definition _check_render_info : M unit :=
  c <- get_self ;;
  match render_info c with
  | Some (PyDict d) =>
      assert (keys_equal d ["indices"; "render_mask"]) "render_info.keys()" ;;;
      indices <- lift (subscript (PyDict d) "indices") ;;
      match sequence_items indices with
      | Some l =>
          assert (forallb is_int l) "all(isinstance(i, int) for i in indices)" ;;;
          assert (existsb (Nat.eqb (length l)) [2; 4; 5]%nat)
            "len(indices) in (2, 4, 5)" ;;;
          match l with
          | [a; b] =>
              modify_self
                (set_render_info
                   (PyDict (Dict.set "indices"
                              (PyTuple [a; b; PyInt 0; PyInt 0]) d)))
          | _ => ret tt
          end ;;;
          c <- get_self ;;
          render_mask <- lift (subscript_opt (render_info c) "render_mask") ;;
          assert (valid_render_mask render_mask)
            "isinstance(render_mask, int) and render_mask in (1, 2, 3)"
      | None => raise (AssertionError "isinstance(indices, (tuple, list))")
      end
  | _ => raise (AssertionError "isinstance(render_info, dict)")
  end.

Definition _check_resources (X : Externals) : M unit :=
  c <- get_self ;;
  match resources c with
  | Some r =>
      let expected := ["index_buffer"; "vertex_buffers"; "bindings"] in
      assert (forallb (fun k => str_in k expected) (res_keys r)
              && forallb (has_key r) expected) "resources.keys()" ;;;
      update_index_buffer_format X ;;;
      update_vertex_buffer_descriptors X
  | None => raise (AssertionError "isinstance(resources, dict)")
  end.

Fixpoint compile_passes (X : Externals) (passes : list nat)
  (shader_modules : gmap nat handle) : M (gmap nat handle) :=
  match passes with
  | [] => ret shader_modules
  | pass_index :: rest =>
      match get_color_descriptors X pass_index with
      | [] => compile_passes X rest shader_modules
      | _ =>
          w <- get_world ;;
          wgsl <- lift (shader_generate_wgsl X (Some pass_index) w) ;;
          m <- Cache.get_shader_module X wgsl ;;
          compile_passes X rest (<[pass_index := m]> shader_modules)
      end
  end.

Definition _compile_shaders (X : Externals) : M (gmap nat handle) :=
  compile_passes X (range (get_pass_count X)) ∅.

Fixpoint compose_passes (X : Externals) (c : Container)
  (primitive_topology cull_mode : pyval) (pipeline_layout : handle)
  (shader_modules : gmap nat handle) (passes : list nat)
  (pipelines : gmap nat handle) : M (gmap nat handle) :=
  match passes with
  | [] => ret pipelines
  | pass_index :: rest =>
      match get_color_descriptors X pass_index with
      | [] =>
          compose_passes X c primitive_topology cull_mode pipeline_layout
            shader_modules rest pipelines
      | color_descriptors =>
          match shader_modules !! pass_index with
          | None => raise (KeyError (PyStr.of_nat pass_index))
          | Some shader_module =>
              p <- gpu_call X
                     (create_render_pipeline pipeline_layout shader_module
                        (vertex_buffer_descriptors c) primitive_topology
                        cull_mode (strip_index_format c)
                        (get_depth_descriptor X pass_index)
                        color_descriptors) ;;
              compose_passes X c primitive_topology cull_mode pipeline_layout
                shader_modules rest (<[pass_index := p]> pipelines)
          end
      end
  end.

Definition _compose_pipelines (X : Externals)
  (shader_modules : gmap nat handle) : M (gmap nat handle) :=
  c <- get_self ;;
  primitive_topology <-
    lift (subscript_opt (pipeline_info c) "primitive_topology") ;;
  cull_mode <- lift (subscript_opt (pipeline_info c) "cull_mode") ;;
  pipeline_layout <-
    gpu_call X (create_pipeline_layout (wgpu_bind_group_layouts c)) ;;
  compose_passes X c primitive_topology cull_mode pipeline_layout
    shader_modules (range (get_pass_count X)) ∅.

(** [l.insert(-1, x)]. *)
Definition insert_before_last {A} (x : A) (l : list A) : list A :=
  match l with
  | [] => [x]
  | _ => List.removelast l ++ [x] ++ [List.last l x]
  end.

Definition draw (X : Externals) (env_hash : string) (pass_index : nat)
  (render_mask : Z) : M unit :=
  c <- get_self ;;
  if truthy (broken c) then ret tt
  else
    mask <- lift (subscript_opt (render_info c) "render_mask") ;;
    if negb (is_int mask) then
      raise (TypeError "unsupported operand type(s) for &" "" "")
    else if Z.eqb (Z.land render_mask (int_value mask)) 0 then ret tt
    else
      passes <- match wgpu_pipelines c !! env_hash with
                | Some passes => ret passes
                | None => raise (KeyError env_hash)
                end ;;
      pipeline <- match passes !! pass_index with
                  | Some p => ret p
                  | None => raise (KeyError (PyStr.of_nat pass_index))
                  end ;;
      indices <- lift (subscript_opt (render_info c) "indices") ;;
      r <- lift (self_resources c "index_buffer") ;;
      index_buffer <- lift (item r "index_buffer" index_buffer) ;;
      buffers <- lift (item r "vertex_buffers" vertex_buffers) ;;
      let bind_groups := wgpu_bind_groups c in
      gpu_call X (set_pipeline pipeline) ;;;
      for_each buffers
        (fun sb =>
           match buf_wgpu_buffer (snd sb) with
           | None => raise (AttributeError "_wgpu_buffer")
           | Some (_, native) =>
               gpu_call X
                 (set_vertex_buffer (fst sb) native
                    (fst (buf_vertex_byte_range (snd sb)))
                    (snd (buf_vertex_byte_range (snd sb)))) ;;;
               ret tt
           end) ;;;
      for_each (enumerate bind_groups)
        (fun ig =>
           gpu_call X (set_bind_group (fst ig) (snd ig) 0 99) ;;; ret tt) ;;;
      match index_buffer with
      | Some b =>
          size <- lift (buf_size b) ;;
          gpu_call X (set_index_buffer (buf_id b) 0 size) ;;;
          n <- lift (len indices) ;;
          items <- lift (unpack indices) ;;
          let items :=
            if Nat.eqb n 4 then insert_before_last (PyInt 0) items
            else items in
          gpu_call X (pass_draw_indexed items) ;;;
          ret tt
      | None =>
          items <- lift (unpack indices) ;;
          gpu_call X (pass_draw items) ;;;
          ret tt
      end.

End RenderPipelineContainer.

(** ** [PipelineContainer]: the update *)

Module PipelineContainer.

(** The methods the two subclasses override, by the class of [self]. *)
Definition _check_resources (X : Externals) : M unit :=
  c <- get_self ;;
  match kind c with
  | Compute => ComputePipelineContainer._check_resources
  | Render => RenderPipelineContainer._check_resources X
  end.

Definition _check_pipeline_info (X : Externals) : M unit :=
  c <- get_self ;;
  match kind c with
  | Compute => ComputePipelineContainer._check_pipeline_info
  | Render => RenderPipelineContainer._check_pipeline_info X
  end.

Definition _check_render_info : M unit :=
  c <- get_self ;;
  match kind c with
  | Compute => ComputePipelineContainer._check_render_info
  | Render => RenderPipelineContainer._check_render_info
  end.

Definition _compile_shaders (X : Externals) : M (gmap nat handle) :=
  c <- get_self ;;
  match kind c with
  | Compute => ComputePipelineContainer._compile_shaders X
  | Render => RenderPipelineContainer._compile_shaders X
  end.

Definition _compose_pipelines (X : Externals)
  (shader_modules : gmap nat handle) : M (gmap nat handle) :=
  c <- get_self ;;
  match kind c with
  | Compute => ComputePipelineContainer._compose_pipelines X shader_modules
  | Render => RenderPipelineContainer._compose_pipelines X shader_modules
  end.

(** [remove_env_hash]: [pop(env_hash, None)] on both dicts. *)
Definition remove_env_hash (env_hash : string) : M unit :=
  modify_self (fun c =>
    set_wgpu_shaders (delete env_hash (wgpu_shaders c)) c) ;;;
  modify_self (fun c =>
    set_wgpu_pipelines (delete env_hash (wgpu_pipelines c)) c).

(** [if label in changed: body]. *)
Definition when_changed (label : string) (body : M unit) : M unit :=
  ch <- get_changed ;;
  if bool_decide (label ∈ ch) then body else ret tt.

(** A call of a method of the shader. *)
Definition ask {A} (method : World -> exn + A) : M A :=
  w <- get_world ;; lift (method w).

Definition update_shader_data (X : Externals) : M unit :=
  when_changed "create"
    (changed_add "resources" ;;; changed_add "pipeline_info" ;;;
     changed_add "render_info") ;;;
  when_changed "resources"
    (r <- ask (get_resources X) ;;
     modify_self (set_resources r) ;;;
     fl <- collect_flat_resources r ;;
     modify_self (set_flat_resources fl) ;;;
     for_each fl (fun kr => call X (update_resource (fst kr) (snd kr))) ;;;
     _check_resources X ;;;
     update_shader_hash X ;;;
     update_bind_groups X) ;;;
  when_changed "pipeline_info"
    (p <- ask (get_pipeline_info X) ;;
     modify_self (set_pipeline_info p) ;;;
     _check_pipeline_info X ;;;
     changed_add "render_info" ;;;
     modify_self (set_wgpu_pipelines ∅)) ;;;
  when_changed "render_info"
    (i <- ask (get_render_info X) ;;
     modify_self (set_render_info i) ;;;
     _check_render_info).

Definition update_wgpu_data (X : Externals) (env_hash : string) : M unit :=
  c <- get_self ;;
  match wgpu_shaders c !! env_hash with
  | None =>
      emit (register_pipeline_container env_hash) ;;;
      changed_add "compile_shader" ;;;
      shader_modules <- _compile_shaders X ;;
      modify_self (fun c =>
        set_wgpu_shaders (<[env_hash := shader_modules]> (wgpu_shaders c)) c)
  | Some _ => ret tt
  end ;;;
  c <- get_self ;;
  match wgpu_pipelines c !! env_hash with
  | None =>
      changed_add "compose_pipeline" ;;;
      c <- get_self ;;
      shader_modules <- match wgpu_shaders c !! env_hash with
                        | Some m => ret m
                        | None => raise (KeyError env_hash)
                        end ;;
      pipelines <- _compose_pipelines X shader_modules ;;
      modify_self (fun c =>
        set_wgpu_pipelines (<[env_hash := pipelines]> (wgpu_pipelines c)) c)
  | Some _ => ret tt
  end.

(** [if changed: body]: a set is true when it has an element. *)
Definition when_any_changed (body : M unit) : M unit :=
  ch <- get_changed ;;
  if bool_decide (ch = ∅) then ret tt else body.

(** [sorted(changed)]. *)
Definition sorted_labels (ch : gset string) : list string :=
  PyStr.sorted (elements ch).

Definition update (X : Externals) (environment_hash : string) : M unit :=
  c <- get_self ;;
  let env_hash :=
    match kind c with Render => environment_hash | Compute => "" end in
  when_any_changed
    (try_except_else (update_shader_data X)
       (modify_self (set_broken (PyInt 1)))
       (modify_self (set_broken (PyInt 0)))) ;;;
  c <- get_self ;;
  (if truthy (broken c) then ret tt
   else
     try_except_else (update_wgpu_data X env_hash)
       (modify_self (set_broken (PyInt 2)))
       (modify_self (set_broken (PyBool false)))) ;;;
  when_any_changed
    (ch <- get_changed ;; emit (logger_info (sorted_labels ch))).

End PipelineContainer.

(** ** [BaseShader]: template variables and binding definitions *)

(** [str(i)] for an [int]. *)
Definition str_int (i : Z) : string :=
  DecimalString.NilZero.string_of_int (Z.to_int i).

Section ShaderItems.
Context {V : Type}.

(** The names for which [hasattr(self.__class__, key)] holds. *)
Variable class_attributes : list string.

(** [self[key] = value]. *)
Definition __setitem__ (key : string) (value : V) (h : heap V)
  (s : BaseShader) : exn + heap V :=
  if str_in key class_attributes then inl (KeyError key)
  else inr (<[kwargs s := Dict.set key value (h !!! kwargs s)]> h).

(** [self[key]]. *)
Definition __getitem__ (key : string) (h : heap V) (s : BaseShader)
  : exn + V :=
  match Dict.get key (h !!! kwargs s) with
  | Some v => inr v
  | None => inl (KeyError key)
  end.

End ShaderItems.

(** The definitions that read the resource of the binding: they depend on
    numpy dtypes and on the format tables, and are taken as given. *)
Record DefineHooks : Type := {
  _define_uniform : Z -> Z -> Binding.t -> BaseShader -> exn + BaseShader;
  _define_buffer : Z -> Z -> Binding.t -> BaseShader -> exn + BaseShader;
  _define_texture : Z -> Z -> Binding.t -> BaseShader -> exn + BaseShader
}.

(** [self._binding_codes[name] = code]. *)
Definition set_binding_code (name code : string) (s : BaseShader)
  : BaseShader :=
  {| kwargs := kwargs s; _typedefs := _typedefs s;
     _binding_codes := Dict.set name code (_binding_codes s) |}.

(** The text of a sampler declaration: the lines of the template, with the
    trailing blank line stripped. *)
Definition sampler_code (bindgroup index : Z) (name : string) : string :=
  PyStr.nl +:+ "        @group(" +:+ str_int bindgroup +:+ ") @binding("
  +:+ str_int index +:+ ")" +:+ PyStr.nl
  +:+ "        var " +:+ name +:+ ": sampler;".

Definition _define_sampler (bindgroup index : Z) (binding : Binding.t)
  (s : BaseShader) : exn + BaseShader :=
  inr (set_binding_code (Binding.name binding)
         (PyStr.rstrip
            (sampler_code bindgroup index (Binding.name binding)
             +:+ PyStr.nl +:+ "        "))
         s).

Definition define_binding (hooks : DefineHooks) (bindgroup index : Z)
  (binding : Binding.t) (s : BaseShader) : exn + BaseShader :=
  if String.eqb (Binding.type binding) "buffer/uniform" then
    _define_uniform hooks bindgroup index binding s
  else if PyStr.startswith (Binding.type binding) "buffer" then
    _define_buffer hooks bindgroup index binding s
  else if PyStr.startswith (Binding.type binding) "sampler" then
    _define_sampler bindgroup index binding s
  else if PyStr.startswith (Binding.type binding) "texture" then
    _define_texture hooks bindgroup index binding s
  else inl (RuntimeError "Unknown binding").

(** [define_bindings]: the bindings of one group, in the order of the
    dict. *)
Fixpoint define_bindings (hooks : DefineHooks) (bindgroup : Z)
  (bindings_dict : list (Z * Binding.t)) (s : BaseShader)
  : exn * BaseShader + BaseShader :=
  match bindings_dict with
  | [] => inr s
  | (index, binding) :: rest =>
      match define_binding hooks bindgroup index binding s with
      | inl e => inl (e, s)
      | inr s' => define_bindings hooks bindgroup rest s'
      end
  end.

(** ** Sample sources *)

Definition src_of_lines (ls : list string) : string := PyStr.join PyStr.nl ls.

(** The shader of [examples/custom_object2.py]: the builtin [position]
    is assigned and never read. *)
Definition triangle_src : string := src_of_lines [
  "@stage(vertex)";
  "fn vs_main(@builtin(vertex_index) index: u32) -> Varyings {";
  "    var varyings: Varyings;";
  "    varyings.position = vec4<f32>(screen_pos_ndc, ndc_pos.zw);";
  "    return varyings;";
  "}";
  "";
  "@stage(fragment)";
  "fn fs_main(varyings: Varyings) -> FragmentOutput {";
  "    var out: FragmentOutput;";
  "    out.color = vec4<f32>(u_material.color.rgb, u_material.opacity);";
  "    return out;";
  "}"].






(** A fragment shader that writes the depth. *)
Definition depth_src : string := src_of_lines [
  "struct FragmentOutput {";
  "    @location(0) color: vec4<f32>,";
  "};";
  "fn fs_main() -> FragmentOutput {";
  "    var out: FragmentOutput;";
  "    out.depth = 0.5;";
  "    return out;";
  "}"].

(** A fragment shader that writes the depth and declares the field for
    it itself. *)
Definition depth_declared_src : string := src_of_lines [
  "struct FragmentOutput {";
  "    @builtin(frag_depth) depth : f32,";
  "    @location(0) color: vec4<f32>,";
  "};";
  "fn fs_main() -> FragmentOutput {";
  "    var out: FragmentOutput;";
  "    out.depth = 0.5;";
  "    return out;";
  "}"].

Definition depth_no_struct_src : string := src_of_lines [
  "fn fs_main() -> FragmentOutput {";
  "    out.depth = 0.5;";
  "}"].

Definition no_depth_src : string := src_of_lines [
  "";
  "struct FragmentOutput {";
  "    @location(0) color: vec4<f32>,";
  "};";
  ""].

Definition out_of (r : exn + string) : string :=
  match r with inr s => s | inl _ => EmptyString end.

Definition depth_declared_out : string :=
  Eval vm_compute in out_of (resolve_depth_output depth_declared_src).



(** Two shaders with the same type definitions, registered as one
    fragment and as two. *)
Definition joined_shader : BaseShader :=
  {| kwargs := 1%positive;
     _typedefs :=
       [("Struct_u_a", "struct A { x: f32, };" +:+ PyStr.nl
                       +:+ "struct B { y: f32, };")];
     _binding_codes := [] |}.

Definition split_shader : BaseShader :=
  {| kwargs := 1%positive;
     _typedefs := [("Struct_u_a", "struct A { x: f32, };");
                   ("Struct_u_b", "struct B { y: f32, };")];
     _binding_codes := [] |}.

(** The first of the two again, as another object: its template
    variables are another dict with the same items, and the fragment is
    registered under another name. *)
Definition renamed_shader : BaseShader :=
  {| kwargs := 2%positive;
     _typedefs :=
       [("Struct_u_b", "struct A { x: f32, };" +:+ PyStr.nl
                       +:+ "struct B { y: f32, };")];
     _binding_codes := [] |}.

(** Template variables that are texts; [repr] puts them in quotes. *)
Definition text_python : Python string :=
  {| repr := fun s => "'" +:+ s +:+ "'"; str_obj := fun s => s |}.

Definition sample_shader : BaseShader :=
  {| kwargs := 1%positive; _typedefs := []; _binding_codes := [] |}.

Definition sample_heap : gmap positive (list (string * string)) :=
  {[ 1%positive := [("write_pick", "True"); ("blending_code", "")] ]}.

Definition second_heap : gmap positive (list (string * string)) :=
  {[ 2%positive := [("write_pick", "True"); ("blending_code", "")] ]}.

Definition changed_heap : gmap positive (list (string * string)) :=
  {[ 1%positive := [("write_pick", "False"); ("blending_code", "")] ]}.

(** ** Sample bindings, shaders and containers *)

Definition sample_wgpu : WgpuEnums :=
  {| BufferBindingType :=
       [("uniform", "uniform"); ("storage", "storage");
        ("read_only_storage", "read-only-storage")];
     SamplerBindingType :=
       [("filtering", "filtering"); ("non_filtering", "non-filtering");
        ("comparison", "comparison")];
     TextureSampleType :=
       [("float", "float"); ("unfilterable_float", "unfilterable-float");
        ("depth", "depth"); ("sint", "sint"); ("uint", "uint")];
     StorageTextureAccess := [("write_only", "write-only")];
     TextureViewDimension :=
       [("d1", "1d"); ("d2", "2d"); ("d2_array", "2d-array");
        ("cube", "cube"); ("cube_array", "cube-array"); ("d3", "3d")] |}.

Definition sample_utils : Utils :=
  {| to_texture_format := fun s => inr s;
     to_vertex_format := fun s => inr s;
     ALTTEXFORMAT := [("rgb8unorm", ["rgba8unorm"])] |}.

Definition sample_view (format : string) : TextureView :=
  {| tv_id := 7; tv_texture := 8; tv_format := format; tv_view_dim := "2d";
     tv_wgpu_texture_view := Some (1%Z, 41%nat);
     tv_wgpu_sampler := Some (1%Z, 42%nat) |}.

Definition t_colormap (format : string) : Binding.t :=
  {| Binding.name := "t_colormap"; Binding.type := "texture/auto";
     Binding.resource := RTextureView (sample_view format);
     Binding.visibility := 2 |}.

(** The sample type in the layout of a texture binding. *)
Definition layout_sample_type (r : exn + (bind_entry * layout_entry))
  : option string :=
  match r with
  | inr (_, l) =>
      match le_kind l with
      | LTexture sample_type _ _ => Some sample_type
      | _ => None
      end
  | inl _ => None
  end.

(** A compute shader with one empty bind group. *)
Definition sample_externals : Externals :=
  {| wgpu := sample_wgpu;
     utils := sample_utils;
     get_resources := fun _ =>
       inr {| res_keys := ["bindings"]; index_buffer := None;
              vertex_buffers := []; bindings := [(0%nat, [])] |};
     get_pipeline_info := fun _ => inr (PyDict []);
     get_render_info := fun _ =>
       inr (PyDict [("indices", PyTuple [PyInt 8; PyInt 1; PyInt 1])]);
     shader_hash := fun _ => "2fd4e1c6";
     shader_generate_wgsl := fun _ _ => inr "fn main() { }";
     call_raises := fun _ _ => None;
     IndexFormat_uint32 := "uint32";
     VertexStepMode_vertex := "vertex";
     get_pass_count := 2;
     get_color_descriptors := fun _ => ["rgba8unorm"];
     get_depth_descriptor := fun _ => "depth32float" |}.

(** The same shader on a device that refuses to compile. *)
Definition failing_device : Externals :=
  {| wgpu := sample_wgpu;
     utils := sample_utils;
     get_resources := get_resources sample_externals;
     get_pipeline_info := get_pipeline_info sample_externals;
     get_render_info := get_render_info sample_externals;
     shader_hash := shader_hash sample_externals;
     shader_generate_wgsl := shader_generate_wgsl sample_externals;
     call_raises := fun ev _ =>
       match ev with
       | create_shader_module _ => Some (ExternalError "validation failed")
       | _ => None
       end;
     IndexFormat_uint32 := "uint32";
     VertexStepMode_vertex := "vertex";
     get_pass_count := 2;
     get_color_descriptors := get_color_descriptors sample_externals;
     get_depth_descriptor := get_depth_descriptor sample_externals |}.

(** The same device with a shader that cannot describe its resources. *)
Definition failing_shader : Externals :=
  {| wgpu := sample_wgpu;
     utils := sample_utils;
     get_resources := fun _ => inl (ValueError "no geometry");
     get_pipeline_info := get_pipeline_info sample_externals;
     get_render_info := get_render_info sample_externals;
     shader_hash := shader_hash sample_externals;
     shader_generate_wgsl := shader_generate_wgsl sample_externals;
     call_raises := fun _ _ => None;
     IndexFormat_uint32 := "uint32";
     VertexStepMode_vertex := "vertex";
     get_pass_count := 2;
     get_color_descriptors := get_color_descriptors sample_externals;
     get_depth_descriptor := get_depth_descriptor sample_externals |}.

Definition empty_world : World :=
  {| trace := []; next_handle := 0%nat; cache := ∅ |}.

(** A container right after its construction, with the labels of a
    caller. *)
Definition fresh_state (k : container_kind) (labels : gset string) : State :=
  {| self := new_container k; world := empty_world; changed := labels |}.

(** A container with the given [broken] flag. *)
Definition broken_state (k : container_kind) (flag : pyval)
  (labels : gset string) : State :=
  {| self := set_broken flag (new_container k); world := empty_world;
     changed := labels |}.

(** A container holding the given render info. *)
Definition state_with_render_info (k : container_kind) (info : pyval)
  : State :=
  {| self := set_render_info info (new_container k); world := empty_world;
     changed := ∅ |}.

(** The state a method leaves, and whether it raised. *)
Definition state_after {A} (r : (exn + A) * State) : State := snd r.
Definition raised {A} (r : (exn + A) * State) : option exn :=
  match fst r with inl e => Some e | inr _ => None end.

(** The calls on the device and on passes among the events of a trace. *)
Definition gpu_calls (w : World) : list event :=
  List.filter is_gpu_call (trace w).

(** A render shader drawing three vertices from one vertex buffer. *)
Definition sample_positions : Buffer :=
  {| buf_id := 3; buf_format := "float32x3"; buf_nbytes := 36;
     buf_nitems := 3; buf_vertex_byte_range := (0, 36)%Z;
     buf_wgpu_buffer := Some (1%Z, 40%nat) |}.

Definition sample_render_externals : Externals :=
  {| wgpu := sample_wgpu;
     utils := sample_utils;
     get_resources := fun _ =>
       inr {| res_keys := ["index_buffer"; "vertex_buffers"; "bindings"];
              index_buffer := None;
              vertex_buffers := [(0%Z, sample_positions)];
              bindings := [(0%nat, [])] |};
     get_pipeline_info := fun _ =>
       inr (PyDict [("primitive_topology", PyStr "triangle-list");
                    ("cull_mode", PyStr "none")]);
     get_render_info := fun _ =>
       inr (PyDict [("indices", PyTuple [PyInt 3; PyInt 1]);
                    ("render_mask", PyInt 3)]);
     shader_hash := fun _ => "2fd4e1c6";
     shader_generate_wgsl := fun _ _ => inr "fn vs_main() { }";
     call_raises := fun _ _ => None;
     IndexFormat_uint32 := "uint32";
     VertexStepMode_vertex := "vertex";
     get_pass_count := 1;
     get_color_descriptors := fun _ => ["rgba8unorm"];
     get_depth_descriptor := fun _ => "depth32float" |}.

(** The labels of the caller replaced. *)
Definition with_changed (labels : gset string) (st : State) : State :=
  {| self := self st; world := world st; changed := labels |}.

(** A render container brought up to date for the environment "A". *)
Definition updated_for_A : State :=
  Eval vm_compute in
  with_changed ∅
    (snd (PipelineContainer.update sample_render_externals "A"
            (fresh_state Render {["create"]}))).

(** A compute container brought up to date. *)
Definition updated_compute : State :=
  Eval vm_compute in
  snd (PipelineContainer.update sample_externals ""
         (fresh_state Compute {["create"]})).

(** The compute container after the shader-data phase of its first
    update. *)
Definition updated_compute_data : State :=
  Eval vm_compute in
  snd (PipelineContainer.update_shader_data failing_device
         (fresh_state Compute {["create"]})).

(** The same container after the shader-data phase failed. *)
Definition failed_shader_data : State :=
  Eval vm_compute in
  snd (PipelineContainer.update_shader_data failing_shader
         (fresh_state Compute {["create"]})).

(** ** Notions the properties are stated with *)


(** What an assignment to [name] does to the record of uses: a builtin
    counts as used. *)
Definition step_used (name : string) (used : Dict.t (list nat))
  : Dict.t (list nat) :=
  match Dict.get name builtin_varyings with
  | Some _ => Dict.set name [] used
  | None => used
  end.

(** What an assignment to [name] does to the types: a builtin gets its
    own type. *)
Definition step_types (name : string) (tys : Dict.t string) : Dict.t string :=
  match Dict.get name builtin_varyings with
  | Some bt => Dict.set name bt tys
  | None => tys
  end.

(** Line [n + j] of the whole source, [j] in [lines], assigns [name]. *)
Definition assigns_at (n : nat) (lines : list string) (name : string)
  (i : nat) : Prop :=
  exists j line, i = n + j /\ nth_error lines j = Some line
                 /\ setter_name line = Some name.


(** Whether a line is in the vertex function, given whether the line
    before it was. *)
Definition line_in_vs (l : string) (cur : bool) : bool :=
  if PyStr.startswith (PyStr.strip l) "fn "
  then PyStr.startswith (PyStr.strip l) "fn vs_main" else cur.




(** The state the second loop starts in. *)
Definition getter_init (st : varyings_state) : getter_state :=
  {| in_vertex_shader := false; current_func_linenr := 0;
     struct_insert_pos := None; used := used_varyings st |}.



(** The container of a state replaced. *)
Definition with_self (c : Container) (st : State) : State :=
  {| self := c; world := world st; changed := changed st |}.

(** The attributes that [update_shader_data] maintains. *)
Definition shader_data (c : Container) :=
  (kind c, stored_hash c, resources c, pipeline_info c, render_info c,
   bind_group_layout_descriptors c, wgpu_bind_group_layouts c,
   wgpu_bind_groups c, flat_resources c, strip_index_format c,
   vertex_buffer_descriptors c).

(** A step that leaves them as they are, however it ends. *)
Definition keeps_shader_data {A} (m : M A) : Prop :=
  forall st, shader_data (self (snd (m st))) = shader_data (self st).

(** The environment hash [update] works with. *)
Definition env_hash_of (st : State) (environment_hash : string) : string :=
  match kind (self st) with Render => environment_hash | Compute => "" end.

(** The state with the [broken] flag assigned. *)
Definition mark (flag : pyval) (st : State) : State :=
  with_self (set_broken flag (self st)) st.

(** The final log line of [update]. *)
Definition log_changes (st : State) : State :=
  snd (PipelineContainer.when_any_changed
         (ch <- get_changed ;;
          emit (logger_info (PipelineContainer.sorted_labels ch))) st).

(** The events a call added to the trace. *)
Definition new_events (before : State) (after : State) : list event :=
  skipn (length (trace (world before))) (trace (world after)).

(** ** Notions for the further properties *)

(** A step that leaves a given view of the container as it is, however
    it ends. *)
Definition keeps {A T} (view : Container -> T) (m : M A) : Prop :=
  forall st, view (self (snd (m st))) = view (self st).

(** The state after the calls [evs] on a device that raises nothing: the
    calls are in the trace and each one has used up a handle. *)
Definition after_calls (evs : list event) (st : State) : State :=
  {| self := self st;
     world := {| trace := trace (world st) ++ evs;
                 next_handle := length evs + next_handle (world st);
                 cache := cache (world st) |};
     changed := changed st |}.

(** A device and passes that raise nothing. *)
Definition never_raises (X : Externals) : Prop :=
  forall ev w, call_raises X ev w = None.

(** The calls of [draw] for its vertex buffers and bind groups. *)
Definition vertex_buffer_calls (buffers : list (Z * Buffer)) : list event :=
  flat_map
    (fun sb =>
       match buf_wgpu_buffer (snd sb) with
       | Some (_, native) =>
           [set_vertex_buffer (fst sb) native
              (fst (buf_vertex_byte_range (snd sb)))
              (snd (buf_vertex_byte_range (snd sb)))]
       | None => []
       end) buffers.

Definition bind_group_calls (limit : Z) (bind_groups : list handle)
  : list event :=
  map (fun ig => set_bind_group (fst ig) (snd ig) 0 limit)
    (enumerate bind_groups).

(** What a step may do to the surroundings of a container: labels are
    added to [changed], calls are added to the trace, handles are used
    up, modules are added to the cache; nothing of these is taken away,
    and the class of the container stays. *)
Definition grows (st st' : State) : Prop :=
  changed st ⊆ changed st'
  /\ (exists evs, trace (world st') = trace (world st) ++ evs)
  /\ next_handle (world st) <= next_handle (world st')
  /\ (forall k m, cache (world st) !! k = Some m ->
                  cache (world st') !! k = Some m)
  /\ kind (self st') = kind (self st).

Definition only_grows {A} (m : M A) : Prop :=
  forall st, grows st (snd (m st)).

(** Line [i] reads [name] in the vertex shader without assigning it. *)
Definition reads_in_vertex (lines : list string) (name : string) (i : nat)
  : Prop :=
  exists line, nth_error lines i = Some line
    /\ In name (getters_of_line line)
    /\ ~ assigns lines name i
    /\ in_vs_at lines i false = true.

(** A source without varyings: no line assigns or reads one, and none
    mentions the struct. *)
Definition no_varyings (lines : list string) : bool :=
  forallb (fun l =>
             match re_varying_setter l with Some _ => false | None => true end
             && match getters_of_line l with [] => true | _ => false end
             && negb (PyStr.contains "Varyings"
                        (PyStr.split_head "//" (PyStr.strip l)))) lines.

(** A render info as [RenderPipelineContainer._check_render_info] leaves
    it: a dict with a valid render mask and four or five integer
    indices. *)
Definition render_info_ok (c : Container) : Prop :=
  exists d mask indices items,
    render_info c = Some (PyDict d)
    /\ Dict.get "render_mask" d = Some mask
    /\ RenderPipelineContainer.valid_render_mask mask = true
    /\ Dict.get "indices" d = Some indices
    /\ sequence_items indices = Some items
    /\ (length items = 4 \/ length items = 5)%nat.

(** Resources as [RenderPipelineContainer._check_resources] accepts
    them. *)
Definition resources_ok (c : Container) : Prop :=
  exists r, resources c = Some r
            /\ has_key r "index_buffer" = true
            /\ has_key r "vertex_buffers" = true
            /\ has_key r "bindings" = true.

(** All vertex buffers of the container are uploaded. *)
Definition vertex_buffers_uploaded (c : Container) : Prop :=
  forall r, resources c = Some r ->
    Forall (fun sb => is_Some (buf_wgpu_buffer (snd sb))) (vertex_buffers r).

(** ** Further samples *)

(** A vertex shader that reads a varying. *)
Definition vertex_read_src : string := src_of_lines [
  "fn vs_main() -> Varyings {";
  "    var varyings: Varyings;";
  "    varyings.uv = vec2<f32>(0.0, 0.0);";
  "    let u = varyings.uv.x;";
  "    return varyings;";
  "}"].

(** A compute shader: it has no varyings. *)
Definition compute_src : string := src_of_lines [
  "";
  "@stage(compute)";
  "fn main(@builtin(global_invocation_id) index: vec3<u32>) {";
  "    let i = i32(index.x); // the item";
  "    s_out[i] = s_in[i] * 2.0;";
  "}";
  ""].

(** Bindings on an uploaded buffer and on the sample texture view. *)
Definition s_positions : Binding.t :=
  {| Binding.name := "s_positions";
     Binding.type := "buffer/read_only_storage";
     Binding.resource := RBuffer sample_positions;
     Binding.visibility := 1 |}.

Definition s_colormap : Binding.t :=
  {| Binding.name := "s_colormap"; Binding.type := "sampler/filtering";
     Binding.resource := RTextureView (sample_view "rgba8unorm");
     Binding.visibility := 2 |}.

(** A uniform binding that was given a texture view. *)
Definition u_wrong : Binding.t :=
  {| Binding.name := "u_material"; Binding.type := "buffer/uniform";
     Binding.resource := RTextureView (sample_view "rgba8unorm");
     Binding.visibility := 3 |}.

(** A storage texture binding. *)
Definition t_target : Binding.t :=
  {| Binding.name := "t_target";
     Binding.type := "storage_texture/write_only";
     Binding.resource := RTextureView (sample_view "rgba8unorm");
     Binding.visibility := 4 |}.

(** Definitions that read the resource, for a shader that needs none. *)
Definition sample_define_hooks : DefineHooks :=
  {| _define_uniform := fun _ _ _ _ => inl (TypeError "no dtype" "" "");
     _define_buffer := fun _ _ _ _ => inl (ValueError "no format");
     _define_texture := fun _ _ _ _ => inl (ValueError "no format") |}.

(** Some attribute names of a shader class. *)
Definition sample_class_attributes : list string :=
  ["hash"; "code_definitions"; "get_code"; "generate_wgsl";
   "define_bindings"; "define_binding"; "type"].

(** The state after the first module was compiled on a new device. *)
Definition module_cached : State :=
  Eval vm_compute in
  snd (Cache.get_shader_module sample_externals "fn main() { }"
         (fresh_state Compute ∅)).

(** The state after the device refused the module. *)
Definition module_refused : State :=
  Eval vm_compute in
  snd (Cache.get_shader_module failing_device "fn main() { }"
         (fresh_state Compute ∅)).

(** The compute container after a GPU phase that worked, and after one
    that failed. *)
Definition gpu_phase_done : State :=
  Eval vm_compute in
  snd (PipelineContainer.update_wgpu_data sample_externals ""
         (mark (PyInt 0) updated_compute_data)).

Definition gpu_phase_failed : State :=
  Eval vm_compute in
  snd (PipelineContainer.update_wgpu_data failing_device ""
         (mark (PyInt 0) updated_compute_data)).

(** The render container after its bind groups were made again. *)
Definition bind_groups_again : State :=
  Eval vm_compute in
  snd (update_bind_groups sample_render_externals updated_for_A).

(** The resources, the indices and the pipeline of the render
    container. *)
Definition sample_resources : Resources :=
  {| res_keys := ["index_buffer"; "vertex_buffers"; "bindings"];
     index_buffer := None;
     vertex_buffers := [(0%Z, sample_positions)];
     bindings := [(0%nat, [])] |}.

Definition sample_indices : list pyval :=
  [PyInt 3; PyInt 1; PyInt 0; PyInt 0].

(** A container whose resources bind a sampler and a texture in group 1;
    group 0 stays empty. *)
Definition bound_state : State :=
  {| self :=
       set_resources
         {| res_keys := ["bindings"]; index_buffer := None;
            vertex_buffers := [];
            bindings :=
              [(1%nat, [(1%Z, t_colormap "rgba8unorm"); (0%Z, s_colormap)])] |}
         (new_container Compute);
     world := empty_world;
     changed := ∅ |}.

Definition bound_state_updated : State :=
  Eval vm_compute in snd (update_bind_groups sample_externals bound_state).

(** A blender with two passes of which the second has no colour
    target. *)
Definition two_pass_externals : Externals :=
  {| wgpu := sample_wgpu;
     utils := sample_utils;
     get_resources := get_resources sample_render_externals;
     get_pipeline_info := get_pipeline_info sample_render_externals;
     get_render_info := get_render_info sample_render_externals;
     shader_hash := shader_hash sample_render_externals;
     shader_generate_wgsl := shader_generate_wgsl sample_render_externals;
     call_raises := fun _ _ => None;
     IndexFormat_uint32 := "uint32";
     VertexStepMode_vertex := "vertex";
     get_pass_count := 2;
     get_color_descriptors := fun p =>
       match p with O => ["rgba8unorm"] | _ => [] end;
     get_depth_descriptor := fun _ => "depth32float" |}.

Definition two_pass_modules : gmap nat handle := {[ 0%nat := 0%nat ]}.

Definition two_pass_compiled : State :=
  Eval vm_compute in
  snd (RenderPipelineContainer._compile_shaders two_pass_externals
         (fresh_state Render ∅)).

(** The render container after its first update, for the environment
    "A". *)
Definition first_update_A : State :=
  Eval vm_compute in
  snd (PipelineContainer.update sample_render_externals "A"
         (fresh_state Render {["create"]})).

(** A render shader that draws with an index buffer. *)
Definition sample_index_buffer : Buffer :=
  {| buf_id := 4; buf_format := "uint32"; buf_nbytes := 12;
     buf_nitems := 3; buf_vertex_byte_range := (0, 12)%Z;
     buf_wgpu_buffer := Some (1%Z, 41%nat) |}.

Definition indexed_resources : Resources :=
  {| res_keys := ["index_buffer"; "vertex_buffers"; "bindings"];
     index_buffer := Some sample_index_buffer;
     vertex_buffers := [(0%Z, sample_positions)];
     bindings := [(0%nat, [])] |}.

Definition indexed_externals : Externals :=
  {| wgpu := sample_wgpu;
     utils := sample_utils;
     get_resources := fun _ => inr indexed_resources;
     get_pipeline_info := get_pipeline_info sample_render_externals;
     get_render_info := get_render_info sample_render_externals;
     shader_hash := shader_hash sample_render_externals;
     shader_generate_wgsl := shader_generate_wgsl sample_render_externals;
     call_raises := fun _ _ => None;
     IndexFormat_uint32 := "uint32";
     VertexStepMode_vertex := "vertex";
     get_pass_count := 1;
     get_color_descriptors := fun _ => ["rgba8unorm"];
     get_depth_descriptor := fun _ => "depth32float" |}.

(** The container with the index buffer after its first update. *)
Definition first_update_indexed : State :=
  Eval vm_compute in
  snd (PipelineContainer.update indexed_externals "A"
         (fresh_state Render {["create"]})).

(** *** Shaders and the code they compose *)

(** A shader that assigns a template variable while it composes its code,
    as [code_common] does, and a renderer that returns the template. *)
Definition sample_hooks : ShaderHooks string unit :=
  {| get_code := fun w =>
       match __setitem__ sample_class_attributes "colormap_coord_type" "f32"
               (dicts w) (shader w) with
       | inl e => (inl e, w)
       | inr h => (inr triangle_src, set_dicts h w)
       end;
     jinja_render := fun code _ w => (Rendered code, w) |}.

Definition sample_shader_world : ShaderWorld string unit :=
  {| dicts := sample_heap; objects := tt; shader := sample_shader |}.

(** A shader whose [get_code] registers its sampler with
    [define_binding] and returns the definitions. *)
Definition registering_hooks : ShaderHooks string unit :=
  {| get_code := fun w =>
       match define_binding sample_define_hooks 0 0 s_colormap (shader w) with
       | inl e => (inl e, w)
       | inr s => (inr (code_definitions s), set_shader s w)
       end;
     jinja_render := fun code _ w => (Rendered code, w) |}.

Definition registering_after : ShaderWorld string unit :=
  Eval vm_compute in
  snd (generate_wgsl registering_hooks [] sample_shader_world).

(** Template variables that are texts or lists of integers; a list is
    an object that can change, known by a reference. *)
Inductive tvalue : Type :=
  | TText (s : string)
  | TList (r : positive).

Definition tvalue_python (o : gmap positive (list Z)) : Python tvalue :=
  {| repr := fun v =>
       match v with
       | TText s => "'" +:+ s +:+ "'"
       | TList r =>
           "[" +:+ PyStr.join ", " (map str_int (o !!! r)) +:+ "]"
       end;
     str_obj := TText |}.

(** A shader whose template holds the expression [colors.append(1)]:
    rendering it appends to the list the variable [colors] refers to,
    and puts [None] in its place. *)
Definition appending_hooks : ShaderHooks tvalue (gmap positive (list Z)) :=
  {| get_code := fun w => (inr "// {{ colors.append(1) }}", w);
     jinja_render := fun code variables w =>
       if String.eqb code "// {{ colors.append(1) }}" then
         match Dict.get "colors" variables with
         | Some (TList r) =>
             (Rendered "// None",
              {| dicts := dicts w;
                 objects := <[r := (objects w !!! r) ++ [1%Z]]> (objects w);
                 shader := shader w |})
         | Some (TText _) =>
             (UndefinedError "'str object' has no attribute 'append'", w)
         | None => (UndefinedError "'colors' is undefined", w)
         end
       else (Rendered code, w) |}.

Definition appending_world : ShaderWorld tvalue (gmap positive (list Z)) :=
  {| dicts := {[ 1%positive := [("colors", TList 7)] ]};
     objects := {[ 7%positive := [0%Z] ]};
     shader := sample_shader |}.

Definition appending_after : ShaderWorld tvalue (gmap positive (list Z)) :=
  Eval vm_compute in
  snd (generate_wgsl appending_hooks [] appending_world).
Example splitlines_ex :
  PyStr.splitlines ("a" +:+ String PyStr.CR PyStr.nl +:+ "b" +:+ PyStr.nl +:+ PyStr.nl +:+ "c" +:+ PyStr.nl)
  = ["a"; "b"; ""; "c"].
Proof. reflexivity. Qed.

Example strip_ex : PyStr.strip "   fn vs_main() {  " = "fn vs_main() {".
Proof. reflexivity. Qed.

Example endswith_ex :
  PyStr.endswith "x = 1;" ";" = true /\ PyStr.endswith "" ";" = false.
Proof. split; reflexivity. Qed.

Example split_head_ex :
  PyStr.split_head "//" "let a = 1; // set a" = "let a = 1; "
  /\ PyStr.split_head "(" " vec4<f32>(1.0)" = " vec4<f32>".
Proof. split; reflexivity. Qed.

Example sorted_ex : PyStr.sorted ["uv"; "color"; "Z"] = ["Z"; "color"; "uv"].
Proof. reflexivity. Qed.

Example of_nat_ex : PyStr.of_nat 0 = "0" /\ PyStr.of_nat 12 = "12".
Proof. split; reflexivity. Qed.

(** * Facts about the string operations *)

Lemma append_cons c (a b : string) : String c a +:+ b = String c (a +:+ b).
Proof. reflexivity. Qed.

Lemma append_nil_r (s : string) : s +:+ "" = s.
Proof.
  induction s as [|c s IH]; [reflexivity|now rewrite append_cons, IH].
Qed.

Lemma append_assoc (a b c : string) : (a +:+ b) +:+ c = a +:+ (b +:+ c).
Proof.
  induction a as [|x a IH]; [reflexivity|now rewrite !append_cons, IH].
Qed.

Lemma append_eq_nil (a b : string) : a +:+ b = "" -> a = "" /\ b = "".
Proof. destruct a; [auto|rewrite append_cons; discriminate]. Qed.

Lemma rstrip_cons c r :
  PyStr.isspace c = false \/ PyStr.rstrip r <> "" ->
  PyStr.rstrip (String c r) = String c (PyStr.rstrip r).
Proof.
  intros H. change (PyStr.rstrip (String c r)) with
    (match PyStr.rstrip r with
     | EmptyString => if PyStr.isspace c then EmptyString else String c EmptyString
     | x => String c x
     end).
  destruct (PyStr.rstrip r) eqn:E; [|reflexivity].
  destruct H as [->|H]; [reflexivity|congruence].
Qed.


Lemma rstrip_app_nonblank a b :
  PyStr.rstrip b <> "" -> PyStr.rstrip (a +:+ b) = a +:+ PyStr.rstrip b.
Proof.
  intros Hb. induction a as [|c a IH]; [reflexivity|].
  change (String c a +:+ b) with (String c (a +:+ b)).
  rewrite rstrip_cons; [now rewrite IH|].
  right. rewrite IH. intros E. apply append_eq_nil in E as [_ E]. auto.
Qed.








Lemma indent_lstrip s : PyStr.indent_of s +:+ PyStr.lstrip s = s.
Proof.
  induction s as [|c s IH]; [reflexivity|].
  simpl. destruct (PyStr.isspace c); [now rewrite append_cons, IH|reflexivity].
Qed.



(** * Commenting out an assignment *)















Section Continuation.
Variables (name line l0 : string).





End Continuation.



Section Assignment.
Variable name : string.









End Assignment.












(** * Facts about dicts *)

Section DictFacts.
Context {V : Type}.
Implicit Types (d : Dict.t V) (k n : string) (v : V).

Lemma get_set d k n v :
  Dict.get n (Dict.set k v d)
  = if String.eqb n k then Some v else Dict.get n d.
Proof.
  induction d as [|[k' v'] d IH]; simpl.
  - reflexivity.
  - destruct (String.eqb_spec k k') as [->|Hk]; simpl.
    + destruct (String.eqb n k'); reflexivity.
    + destruct (String.eqb_spec n k') as [->|Hn].
      * destruct (String.eqb_spec k' k); [congruence|reflexivity].
      * exact IH.
Qed.

Lemma get_app_last d k n v :
  Dict.get k d = None ->
  Dict.get n (d ++ [(k, v)])
  = if String.eqb n k then Some v else Dict.get n d.
Proof.
  induction d as [|[k' v'] d IH]; simpl; intros Hk.
  - reflexivity.
  - destruct (String.eqb_spec k k') as [->|Hkk']; [discriminate|].
    destruct (String.eqb_spec n k') as [->|Hn].
    + destruct (String.eqb_spec k' k); [congruence|reflexivity].
    + auto.
Qed.





End DictFacts.

Section AppendTo.
Context {A : Type}.
Implicit Types (d : Dict.t (list A)) (k n : string).

Lemma get_append_to d k x n :
  Dict.get n (Dict.append_to k x d)
  = if String.eqb n k
    then Some (match Dict.get k d with Some l => l ++ [x] | None => [x] end)
    else Dict.get n d.
Proof.
  unfold Dict.append_to. destruct (Dict.get k d) as [l|] eqn:E.
  - apply get_set.
  - now apply get_app_last.
Qed.

Lemma mem_append_to d k x n :
  Dict.mem n (Dict.append_to k x d) = String.eqb n k || Dict.mem n d.
Proof.
  unfold Dict.mem. rewrite get_append_to. now destruct (String.eqb n k).
Qed.


End AppendTo.

Lemma set_on_line_append_to (a : Dict.t (list nat)) k x n i :
  set_on_line (Dict.append_to k x a) n i
  = set_on_line a n i || (String.eqb n k && Nat.eqb i x).
Proof.
  unfold set_on_line. rewrite get_append_to.
  destruct (String.eqb_spec n k) as [->|Hn]; simpl.
  - destruct (Dict.get k a) as [l|]; simpl.
    + rewrite existsb_app. simpl. now rewrite orb_false_r.
    + now rewrite orb_false_r.
  - now rewrite orb_false_r.
Qed.

(** * The first loop: assignments and their types *)

Lemma setter_step_inr n line st st' :
  setter_step n line st = inr st' ->
  match re_varying_setter line with
  | None => st' = st
  | Some (name, attr, rest) =>
      assigned_varyings st' = Dict.append_to name n (assigned_varyings st)
      /\ used_varyings st' = step_used name (used_varyings st)
      /\ match attr with
         | Some _ => types st' = step_types name (types st)
         | None =>
             cast_type rest <> ""
             /\ (forall t, Dict.get name (step_types name (types st)) = Some t
                           -> t = cast_type rest)
             /\ types st'
                = Dict.set name (cast_type rest) (step_types name (types st))
         end
  end.
Proof.
  unfold setter_step, step_used, step_types.
  destruct (re_varying_setter line) as [[[name attr] rest]|];
    [|intros H; now injection H as <-].
  destruct (Dict.get name builtin_varyings) as [bt|];
    (destruct attr as [a|];
     [intros H; injection H as <-; simpl; auto|]);
    (destruct (cast_type rest) as [|c ty] eqn:Hty; [discriminate|]).
  - destruct (Dict.get name (Dict.set name bt (types st))) as [t|] eqn:Ht.
    + destruct (String.eqb_spec (String c ty) t) as [<-|Hne]; [|discriminate].
      intros H. injection H as <-. simpl.
      repeat split; first [reflexivity|discriminate|intros; congruence].
    + intros H. injection H as <-. simpl.
      repeat split; first [reflexivity|discriminate|intros; congruence].
  - destruct (Dict.get name (types st)) as [t|] eqn:Ht.
    + destruct (String.eqb_spec (String c ty) t) as [<-|Hne]; [|discriminate].
      intros H. injection H as <-. simpl.
      repeat split; first [reflexivity|discriminate|intros; congruence].
    + intros H. injection H as <-. simpl.
      repeat split; first [reflexivity|discriminate|intros; congruence].
Qed.

Lemma setter_step_inl n line st e :
  setter_step n line st = inl e -> is_TypeError e = true.
Proof.
  unfold setter_step.
  destruct (re_varying_setter line) as [[[name attr] rest]|]; [|discriminate].
  destruct (Dict.get name builtin_varyings) as [bt|];
    (destruct attr as [a|]; [discriminate|]);
    (destruct (cast_type rest) as [|c ty];
     [intros H; injection H as <-; reflexivity|]).
  - destruct (Dict.get name (Dict.set name bt (types st))) as [t|];
      [|discriminate].
    destruct (String.eqb (String c ty) t); [discriminate|].
    intros H; injection H as <-; reflexivity.
  - destruct (Dict.get name (types st)) as [t|]; [|discriminate].
    destruct (String.eqb (String c ty) t); [discriminate|].
    intros H; injection H as <-; reflexivity.
Qed.

Lemma setter_step_assigned n line st st' :
  setter_step n line st = inr st' ->
  assigned_varyings st'
  = match setter_name line with
    | Some name => Dict.append_to name n (assigned_varyings st)
    | None => assigned_varyings st
    end.
Proof.
  intros H. apply setter_step_inr in H. unfold setter_name.
  destruct (re_varying_setter line) as [[[name attr] rest]|].
  - tauto.
  - now subst.
Qed.


Lemma scan_setters_inl lines : forall n st e,
  scan_setters n lines st = inl e -> is_TypeError e = true.
Proof.
  induction lines as [|l lines IH]; intros n st e H; simpl in H;
    [discriminate|].
  destruct (setter_step n l st) as [e'|st1] eqn:H1.
  - injection H as <-. eapply setter_step_inl; eassumption.
  - eauto.
Qed.

Lemma assigns_at_cons n l lines name i :
  assigns_at n (l :: lines) name i
  <-> (i = n /\ setter_name l = Some name) \/ assigns_at (S n) lines name i.
Proof.
  split.
  - intros ([|j] & line & -> & Hn & Hs); simpl in Hn.
    + injection Hn as ->. left. split; [lia|assumption].
    + right. exists j, line. split; [lia|auto].
  - intros [[-> Hs]|(j & line & -> & Hn & Hs)].
    + exists 0, l. split; [lia|auto].
    + exists (S j), line. split; [lia|auto].
Qed.

Lemma assigns_at_0 lines name i :
  assigns_at 0 lines name i <-> assigns lines name i.
Proof.
  unfold assigns_at, assigns. split.
  - intros (j & line & -> & H). exists line. exact H.
  - intros (line & H). exists i, line. split; [reflexivity|exact H].
Qed.

Lemma scan_setters_set_on_line lines : forall n st st',
  scan_setters n lines st = inr st' ->
  forall name i,
    set_on_line (assigned_varyings st') name i = true
    <-> set_on_line (assigned_varyings st) name i = true
        \/ assigns_at n lines name i.
Proof.
  induction lines as [|l lines IH]; intros n st st' H name i; simpl in H.
  - injection H as <-. split; [auto|]. intros [H|(j & line & _ & Hn & _)];
      [assumption|]. destruct j; discriminate.
  - destruct (setter_step n l st) as [e|st1] eqn:H1; [discriminate|].
    rewrite (IH _ _ _ H), assigns_at_cons.
    rewrite (setter_step_assigned _ _ _ _ H1).
    destruct (setter_name l) as [nm|].
    + rewrite set_on_line_append_to, orb_true_iff, andb_true_iff.
      rewrite String.eqb_eq, Nat.eqb_eq.
      split.
      * intros [[Hs|[-> ->]]|Ha]; auto.
      * intros [Hs|[[-> Hs]|Ha]]; auto. injection Hs as ->. auto.
    + split.
      * intros [Hs|Ha]; auto.
      * intros [Hs|[[_ Hs]|Ha]]; auto. discriminate.
Qed.









(** * The second loop: reads *)

Lemma getter_step_inr a n l gs gs' :
  getter_step a n l gs = inr gs' ->
  in_vertex_shader gs' = line_in_vs l (in_vertex_shader gs)
  /\ record_getters a (line_in_vs l (in_vertex_shader gs)) n
       (PyStr.split_head "//" (PyStr.strip l)) (getters_of_line l) (used gs)
     = inr (used gs').
Proof.
  unfold getter_step, line_in_vs, getters_of_line.
  destruct (record_getters _ _ _ _ _ _) as [e|u] eqn:E; [discriminate|].
  intros H. injection H as <-. simpl. auto.
Qed.

Lemma getter_step_inl a n l gs e :
  getter_step a n l gs = inl e ->
  record_getters a (line_in_vs l (in_vertex_shader gs)) n
    (PyStr.split_head "//" (PyStr.strip l)) (getters_of_line l) (used gs)
  = inl e.
Proof.
  unfold getter_step, line_in_vs, getters_of_line.
  destruct (record_getters _ _ _ _ _ _) as [e'|u] eqn:E; [|discriminate].
  intros H. now injection H as <-.
Qed.


Section RecordGetters.
Variables (a : Dict.t (list nat)) (n : nat) (line : string).

Lemma record_getters_inl in_vs names : forall u e,
  record_getters a in_vs n line names u = inl e -> is_TypeError e = true.
Proof.
  induction names as [|nm names IH]; intros u e H; simpl in H; [discriminate|].
  destruct (set_on_line a nm n); [eauto|].
  destruct in_vs; [|eauto]. now injection H as <-.
Qed.

Lemma record_getters_mono in_vs names : forall u u' name,
  record_getters a in_vs n line names u = inr u' ->
  Dict.mem name u = true -> Dict.mem name u' = true.
Proof.
  induction names as [|nm names IH]; intros u u' name H Hm; simpl in H.
  - now injection H as <-.
  - destruct (set_on_line a nm n); [eauto|].
    destruct in_vs; [discriminate|].
    eapply IH; [exact H|]. rewrite mem_append_to, Hm. apply orb_true_r.
Qed.

Lemma record_getters_complete in_vs names : forall u u' name,
  record_getters a in_vs n line names u = inr u' ->
  In name names -> set_on_line a name n = false ->
  in_vs = false /\ Dict.mem name u' = true.
Proof.
  induction names as [|nm names IH]; intros u u' name H Hin Hs; simpl in H;
    [destruct Hin|].
  destruct Hin as [->|Hin].
  - rewrite Hs in H. destruct in_vs; [discriminate|].
    split; [reflexivity|]. eapply record_getters_mono; [exact H|].
    now rewrite mem_append_to, String.eqb_refl.
  - destruct (set_on_line a nm n); [eauto|].
    destruct in_vs; [discriminate|]. eauto.
Qed.



End RecordGetters.

Lemma in_vs_at_cons l lines i cur :
  in_vs_at (l :: lines) i cur
  = match i with
    | O => line_in_vs l cur
    | S j => in_vs_at lines j (line_in_vs l cur)
    end.
Proof. reflexivity. Qed.

Section ScanGetters.
Variable a : Dict.t (list nat).

Lemma scan_getters_inl lines : forall n gs e,
  scan_getters a n lines gs = inl e -> is_TypeError e = true.
Proof.
  induction lines as [|l lines IH]; intros n gs e H; simpl in H;
    [discriminate|].
  destruct (getter_step a n l gs) as [e'|gs1] eqn:H1; [|eauto].
  injection H as <-. apply getter_step_inl in H1.
  eapply record_getters_inl; eassumption.
Qed.





End ScanGetters.

(** * The check that every used varying is assigned *)



(** * The synthesized struct *)












(** * Properties *)

(** ** Depth output *)

Lemma has_prefix_head a p c s :
  PyStr.has_prefix (String a p) (String c s) = true -> c = a.
Proof.
  change (PyStr.has_prefix (String a p) (String c s))
    with (Ascii.eqb a c && PyStr.has_prefix p s).
  intros H. apply andb_true_iff in H as [H _].
  symmetry. now apply Ascii.eqb_eq.
Qed.

Lemma struct_open_not_depth line :
  is_struct_open line = true -> re_depth_setter line = false.
Proof.
  unfold is_struct_open, re_depth_setter, PyStr.startswith.
  destruct (PyStr.lstrip line) as [|c s]; [discriminate|].
  intros H. apply has_prefix_head in H. subst c. reflexivity.
Qed.

Lemma scan_depth_keeps_struct lines :
  forall n d k, exists k', snd (scan_depth n lines d (Some k)) = Some k'.
Proof.
  induction lines as [|l lines IH]; intros n d k; simpl; [eauto|].
  destruct (is_struct_open l); [apply IH|].
  destruct (re_depth_setter l); [simpl; eauto|apply IH].
Qed.

Lemma scan_depth_flag lines :
  forall n d s,
    fst (scan_depth n lines d s) = d || existsb re_depth_setter lines.
Proof.
  induction lines as [|l lines IH]; intros n d s; simpl.
  - now rewrite orb_false_r.
  - destruct (is_struct_open l) eqn:Hs.
    + rewrite (struct_open_not_depth _ Hs). simpl. apply IH.
    + destruct (re_depth_setter l); simpl.
      * destruct s; simpl; [now rewrite orb_true_r|].
        rewrite IH. now rewrite orb_true_r.
      * apply IH.
Qed.

Lemma scan_depth_no_struct lines :
  forall n d s,
    existsb is_struct_open lines = false ->
    snd (scan_depth n lines d s) = s.
Proof.
  induction lines as [|l lines IH]; intros n d s H; simpl in *; [reflexivity|].
  apply orb_false_iff in H as [H1 H2]. rewrite H1.
  destruct (re_depth_setter l); [destruct s; simpl; auto|auto].
Qed.

Lemma scan_depth_struct_found lines :
  forall n d s,
    existsb is_struct_open lines = true ->
    exists k, snd (scan_depth n lines d s) = Some k.
Proof.
  induction lines as [|l lines IH]; intros n d s H; simpl in *; [discriminate|].
  destruct (is_struct_open l) eqn:Hs.
  - apply scan_depth_keeps_struct.
  - simpl in H. destruct (re_depth_setter l); [|auto].
    destruct s; simpl; eauto.
Qed.

(** The struct line the scan reports is an opening line of the source. *)
Lemma scan_depth_struct_line lines :
  forall n d s k,
    snd (scan_depth n lines d s) = Some k ->
    s = Some k \/
    (n <= k /\ exists l, nth_error lines (k - n) = Some l
                         /\ is_struct_open l = true).
Proof.
  induction lines as [|l lines IH]; intros n d s k H; simpl in *; [auto|].
  destruct (is_struct_open l) eqn:Hs.
  - apply IH in H as [H|[Hle [l' [Hn Ho]]]].
    + injection H as <-. right. split; [lia|].
      exists l. now rewrite Nat.sub_diag.
    + right. split; [lia|]. exists l'. split; [|assumption].
      replace (k - n) with (S (k - S n)) by lia. exact Hn.
  - assert (Hrec : forall d',
               snd (scan_depth (S n) lines d' s) = Some k ->
               s = Some k \/
               (n <= k /\ exists l0, nth_error (l :: lines) (k - n) = Some l0
                                     /\ is_struct_open l0 = true)).
    { intros d' H'. apply IH in H' as [H'|[Hle [l' [Hn Ho]]]]; [auto|].
      right. split; [lia|]. exists l'. split; [|assumption].
      replace (k - n) with (S (k - S n)) by lia. exact Hn. }
    destruct (re_depth_setter l); [|eauto].
    destruct s; simpl in H; [auto|eauto].
Qed.

Lemma opens_struct_at_S l lines j :
  opens_struct_at (l :: lines) (S j) <-> opens_struct_at lines j.
Proof. reflexivity. Qed.

Lemma sets_depth_at_S l lines j :
  sets_depth_at (l :: lines) (S j) <-> sets_depth_at lines j.
Proof. reflexivity. Qed.

Lemma opens_struct_at_0 l lines :
  opens_struct_at (l :: lines) 0 <-> is_struct_open l = true.
Proof.
  split.
  - intros (x & Hx & H). now injection Hx as <-.
  - intros H. exists l. auto.
Qed.

Lemma sets_depth_at_0 l lines :
  sets_depth_at (l :: lines) 0 <-> re_depth_setter l = true.
Proof.
  split.
  - intros (x & Hx & H). now injection Hx as <-.
  - intros H. exists l. auto.
Qed.

(** Which opening line the scan settles on. *)
Lemma scan_depth_choice lines :
  forall n d s k,
    snd (scan_depth n lines d s) = Some k ->
    (s = Some k
     /\ forall j, opens_struct_at lines j ->
          exists i, i < j /\ sets_depth_at lines i)
    \/ exists p,
         k = n + p
         /\ opens_struct_at lines p
         /\ (forall j, p < j -> opens_struct_at lines j ->
               exists i, p < i < j /\ sets_depth_at lines i)
         /\ (forall i, i < p -> sets_depth_at lines i ->
               s = None /\ forall j, j < i -> ~ opens_struct_at lines j).
Proof.
  induction lines as [|l lines IH]; intros n d s k H; simpl in H.
  - left. split; [exact H|]. intros j (x & Hx & _). destruct j; discriminate.
  - destruct (is_struct_open l) eqn:Hs.
    + pose proof (struct_open_not_depth _ Hs) as Hnd.
      right. destruct (IH _ _ _ _ H) as [[E Hall]|(p & -> & Hp & Hlater & Hbefore)].
      * injection E as <-. exists 0. split; [lia|].
        split; [now apply opens_struct_at_0|]. split.
        -- intros [|j] Hj Hopen; [lia|]. apply opens_struct_at_S in Hopen.
           destruct (Hall _ Hopen) as (i & Hi & Hset).
           exists (S i). split; [lia|]. now apply sets_depth_at_S.
        -- intros i Hi. lia.
      * exists (S p). split; [lia|]. split; [now apply opens_struct_at_S|].
        split.
        -- intros [|j] Hj Hopen; [lia|]. apply opens_struct_at_S in Hopen.
           destruct (Hlater j ltac:(lia) Hopen) as (i & Hi & Hset).
           exists (S i). split; [lia|]. now apply sets_depth_at_S.
        -- intros [|i] Hi Hset.
           ++ apply sets_depth_at_0 in Hset. congruence.
           ++ apply sets_depth_at_S in Hset.
              destruct (Hbefore i ltac:(lia) Hset) as [E _]. discriminate.
    + assert (Hrec : forall d' s',
                 snd (scan_depth (S n) lines d' s') = Some k ->
                 (s' = None -> s = None) ->
                 (re_depth_setter l = true -> s = None) ->
                 (s' = Some k -> s = Some k /\ re_depth_setter l = false) ->
                 (s = Some k
                  /\ forall j, opens_struct_at (l :: lines) j ->
                       exists i, i < j /\ sets_depth_at (l :: lines) i)
                 \/ exists p,
                      k = n + p
                      /\ opens_struct_at (l :: lines) p
                      /\ (forall j, p < j -> opens_struct_at (l :: lines) j ->
                            exists i, p < i < j /\ sets_depth_at (l :: lines) i)
                      /\ (forall i, i < p -> sets_depth_at (l :: lines) i ->
                            s = None
                            /\ forall j, j < i ->
                                 ~ opens_struct_at (l :: lines) j)).
      { intros d' s' H' Hnone Hset0 Hsome.
        destruct (IH _ _ _ _ H') as [[E Hall]|(p & -> & Hp & Hlater & Hbefore)].
        - left. destruct (Hsome E) as [Es Hl]. split; [exact Es|].
          intros [|j] Hopen.
          + apply opens_struct_at_0 in Hopen. congruence.
          + apply opens_struct_at_S in Hopen.
            destruct (Hall _ Hopen) as (i & Hi & Hset).
            exists (S i). split; [lia|]. now apply sets_depth_at_S.
        - right. exists (S p). split; [lia|].
          split; [now apply opens_struct_at_S|]. split.
          + intros [|j] Hj Hopen; [lia|]. apply opens_struct_at_S in Hopen.
            destruct (Hlater j ltac:(lia) Hopen) as (i & Hi & Hset).
            exists (S i). split; [lia|]. now apply sets_depth_at_S.
          + intros [|i] Hi Hset.
            * apply sets_depth_at_0 in Hset. split; [auto|]. intros j Hj. lia.
            * apply sets_depth_at_S in Hset.
              destruct (Hbefore i ltac:(lia) Hset) as [E Hno].
              split; [auto|]. intros [|j] Hj Hopen.
              -- apply opens_struct_at_0 in Hopen. congruence.
              -- apply opens_struct_at_S in Hopen. now apply (Hno j ltac:(lia)). }
      destruct (re_depth_setter l) eqn:Hd.
      * destruct s as [x|].
        -- simpl in H. injection H as <-. left. split; [reflexivity|].
           intros [|j] Hopen.
           ++ apply opens_struct_at_0 in Hopen. congruence.
           ++ exists 0. split; [lia|]. now apply sets_depth_at_0.
        -- apply (Hrec _ _ H); auto. discriminate.
      * apply (Hrec _ _ H); auto. discriminate.
Qed.

Lemma contains_app sub (a b : string) :
  PyStr.contains sub b = true -> PyStr.contains sub (a +:+ b) = true.
Proof.
  intros H. induction a as [|c a IH]; [exact H|].
  rewrite append_cons. simpl. rewrite IH. apply orb_true_r.
Qed.

Lemma count_depth_fields_insert k indent lines :
  count_depth_fields
    (list_insert_at k (indent +:+ "    @builtin(frag_depth) depth : f32,")
       lines)
  = S (count_depth_fields lines).
Proof.
  unfold count_depth_fields, list_insert_at.
  rewrite <- (firstn_skipn k lines) at 3.
  rewrite !List.filter_app, !length_app.
  cbn [List.filter]. unfold is_depth_field at 2.
  rewrite contains_app by reflexivity.
  simpl length. lia.
Qed.

(** C9 (as amended).  Depth-output resolution, for every source: when a
    line assigns [out.depth] and no line opens the [FragmentOutput]
    struct, it raises the [TypeError]; when a line assigns [out.depth]
    and the struct is there, the output is the prepared source with
    exactly one line more, the text [@builtin(frag_depth) depth : f32,]
    behind the indentation of an opening line of the struct and directly
    after that line, so it holds one depth field more than the source,
    and exactly one when the source declares none; of several opening
    lines it is the last before the first assignment of [out.depth] that
    comes after an opening line; when no line assigns [out.depth], the
    output is the prepared source itself. *)
Theorem resolve_depth_output_spec (wgsl : string) :
  let lines := prepare_lines wgsl in
  (existsb re_depth_setter lines = true ->
   existsb is_struct_open lines = false ->
   exists e, resolve_depth_output wgsl = inl e /\ is_TypeError e = true)
  /\ (existsb re_depth_setter lines = true ->
      existsb is_struct_open lines = true ->
      exists k line,
        let lines' :=
          firstn (S k) lines
          ++ (PyStr.indent_of line +:+ "    @builtin(frag_depth) depth : f32,")
             :: skipn (S k) lines in
        nth_error lines k = Some line
        /\ is_struct_open line = true
        /\ resolve_depth_output wgsl = inr (PyStr.join PyStr.nl lines')
        /\ count_depth_fields lines' = S (count_depth_fields lines)
        /\ (count_depth_fields lines = 0 -> count_depth_fields lines' = 1)
        /\ (forall j, k < j -> opens_struct_at lines j ->
               exists i, k < i < j /\ sets_depth_at lines i)
        /\ (forall i j, i < k -> sets_depth_at lines i -> j < i ->
               ~ opens_struct_at lines j))
  /\ (existsb re_depth_setter lines = false ->
      resolve_depth_output wgsl = inr (PyStr.join PyStr.nl lines)).
Proof.
  intros lines. unfold resolve_depth_output, resolve_depth_output_lines.
  fold lines.
  pose proof (scan_depth_flag lines 0 false None) as Hflag.
  destruct (scan_depth 0 lines false None) as [d s] eqn:Hscan.
  simpl in Hflag. subst d.
  repeat split.
  - intros Hd Hs. rewrite Hd.
    pose proof (scan_depth_no_struct lines 0 false None Hs) as Hn.
    rewrite Hscan in Hn. simpl in Hn. subst s. eexists. split; reflexivity.
  - intros Hd Hs. rewrite Hd.
    destruct (scan_depth_struct_found lines 0 false None Hs) as [k Hk].
    rewrite Hscan in Hk. simpl in Hk. subst s.
    pose proof (scan_depth_choice lines 0 false None k) as Hl.
    rewrite Hscan in Hl.
    destruct (Hl eq_refl)
      as [[Hl' _]|(p & Hp & (l & Hn & Ho) & Hlater & Hbefore)];
      [discriminate|].
    simpl in Hp. subst p. exists k, l. cbv zeta. rewrite Hn.
    pose proof (count_depth_fields_insert (S k) (PyStr.indent_of l) lines)
      as Hcount.
    unfold list_insert_at in Hcount.
    split; [reflexivity|]. split; [exact Ho|]. split; [reflexivity|].
    split; [exact Hcount|]. split; [|split].
    + intros H0. rewrite Hcount, H0. reflexivity.
    + exact Hlater.
    + intros i j Hi Hset Hj. exact (proj2 (Hbefore i Hi Hset) j Hj).
  - intros Hd. now rewrite Hd.
Qed.

(** * What the two scanning loops establish *)


Section Phases.
Variables (lines : list string) (st : varyings_state) (gs : getter_state).
Hypothesis Hset : scan_setters 0 lines varyings_init = inr st.
Hypothesis Hget :
  scan_getters (assigned_varyings st) 0 lines (getter_init st) = inr gs.







End Phases.

(** ** Varyings *)






(** ** Checks that decide the hypotheses on a given source *)





(** ** The sample sources *)





(** C9, the claim as stated fails: the struct of this source declares
    the depth field itself and a line assigns [out.depth]; resolution
    inserts the field all the same, and the output holds two depth
    fields. *)
Lemma resolve_depth_output_second_field :
  existsb re_depth_setter (prepare_lines depth_declared_src) = true
  /\ resolve_depth_output depth_declared_src = inr depth_declared_out
  /\ firstn 3 (PyStr.splitlines depth_declared_out)
     = ["struct FragmentOutput {";
        "    @builtin(frag_depth) depth : f32,";
        "    @builtin(frag_depth) depth : f32,"]
  /\ count_depth_fields (PyStr.splitlines depth_declared_out) = 2.
Proof. repeat split; vm_compute; reflexivity. Qed.

Lemma resolve_depth_output_witness :
  (exists e, resolve_depth_output depth_no_struct_src = inl e
             /\ is_TypeError e = true)
  /\ (exists k line,
        let lines := prepare_lines depth_src in
        let lines' :=
          firstn (S k) lines
          ++ (PyStr.indent_of line +:+ "    @builtin(frag_depth) depth : f32,")
             :: skipn (S k) lines in
        nth_error lines k = Some line
        /\ is_struct_open line = true
        /\ resolve_depth_output depth_src = inr (PyStr.join PyStr.nl lines')
        /\ count_depth_fields lines' = S (count_depth_fields lines)
        /\ (count_depth_fields lines = 0 -> count_depth_fields lines' = 1)
        /\ (forall j, k < j -> opens_struct_at lines j ->
               exists i, k < i < j /\ sets_depth_at lines i)
        /\ (forall i j, i < k -> sets_depth_at lines i -> j < i ->
               ~ opens_struct_at lines j))
  /\ resolve_depth_output no_depth_src
     = inr (PyStr.join PyStr.nl (prepare_lines no_depth_src)).
Proof.
  split; [|split].
  - apply (proj1 (resolve_depth_output_spec depth_no_struct_src));
      vm_compute; reflexivity.
  - apply (proj1 (proj2 (resolve_depth_output_spec depth_src)));
      vm_compute; reflexivity.
  - apply (proj2 (proj2 (resolve_depth_output_spec no_depth_src)));
      vm_compute; reflexivity.
Defined.

(** ** The shader object *)

Lemma append_cancel_l (a x y : string) : a +:+ x = a +:+ y -> x = y.
Proof.
  induction a as [|c a IH]; [auto|]. rewrite !append_cons.
  intros E. injection E as E. auto.
Qed.

Lemma length_append (a b : string) :
  String.length (a +:+ b) = String.length a + String.length b.
Proof.
  induction a as [|c a IH]; [reflexivity|]. rewrite append_cons. simpl.
  now rewrite IH.
Qed.

Lemma append_cancel_r (b x : string) : forall y, x +:+ b = y +:+ b -> x = y.
Proof.
  induction x as [|c x IH]; intros [|d y] E.
  - reflexivity.
  - apply (f_equal String.length) in E.
    rewrite !length_append in E. simpl in E. lia.
  - apply (f_equal String.length) in E.
    rewrite !length_append in E. simpl in E. lia.
  - rewrite !append_cons in E. injection E as -> E. f_equal. auto.
Qed.

(** [sep.join] around one element: what stands before and after it does
    not depend on the element. *)
Lemma join_cons_cons sep (x y : string) (l : list string) :
  PyStr.join sep (x :: y :: l) = x +:+ sep +:+ PyStr.join sep (y :: l).
Proof. reflexivity. Qed.

Lemma join_middle sep (l1 l2 : list string) :
  exists a b, forall x,
    PyStr.join sep (l1 ++ x :: l2) = a +:+ x +:+ b.
Proof.
  induction l1 as [|y l1 (a & b & IH)].
  - destruct l2 as [|z l2].
    + exists "", "". intros x. simpl. now rewrite append_nil_r.
    + exists "", (sep +:+ PyStr.join sep (z :: l2)). intros x. reflexivity.
  - exists (y +:+ sep +:+ a), b. intros x.
    change ((y :: l1) ++ x :: l2) with (y :: (l1 ++ x :: l2)).
    destruct (l1 ++ x :: l2) as [|z l] eqn:E; [destruct l1; discriminate|].
    rewrite join_cons_cons, <- E, IH. now rewrite !append_assoc.
Qed.

Section ShaderFacts.
Context {V : Type} {PV : Python V}.

Lemma repr_dict_middle (pre post : Dict.t V) k :
  exists a b, forall v,
    repr_dict (pre ++ (k, v) :: post) = a +:+ repr v +:+ b.
Proof.
  destruct (join_middle ", " (map repr_item pre) (map repr_item post))
    as (a & b & Hj).
  exists ("{" +:+ a +:+ repr (str_obj k) +:+ ": "), (b +:+ "}").
  intros v. unfold repr_dict. rewrite map_app. simpl map.
  rewrite Hj. unfold repr_item. simpl. now rewrite !append_assoc.
Qed.

(** C6 (as amended).  [hash()] is the digest of the [repr] of the
    template-variable dict followed by the fragment texts, joined by
    newlines (1).  So (2) two shaders with the same variables (in the
    same insertion order) and the same fragment texts in the same order
    hash identically; (3) for a digest without collisions, changing the
    value of one variable to a value with another [repr] changes the
    hash; (4) for a digest without collisions and dicts with the same
    [repr], two shaders hash identically exactly when the joined texts of
    their fragments are the same; (5) and for the same joined texts,
    exactly when the [repr]s of their dicts are the same. *)
Theorem hash_spec (sha1 : string -> string) :
  (forall (h : heap V) s,
      hash sha1 h s
      = sha1 (repr_dict (h !!! kwargs s)
              +:+ (PyStr.join PyStr.nl (Dict.values (_typedefs s))
                   +:+ PyStr.nl
                   +:+ PyStr.join PyStr.nl (Dict.values (_binding_codes s)))))
  /\ (forall (h1 h2 : heap V) s1 s2,
        h1 !!! kwargs s1 = h2 !!! kwargs s2 ->
        Dict.values (_typedefs s1) = Dict.values (_typedefs s2) ->
        Dict.values (_binding_codes s1) = Dict.values (_binding_codes s2) ->
        hash sha1 h1 s1 = hash sha1 h2 s2)
  /\ (forall (h1 h2 : heap V) s1 s2 pre post k v v',
        (forall x y, sha1 x = sha1 y -> x = y) ->
        h1 !!! kwargs s1 = pre ++ (k, v) :: post ->
        h2 !!! kwargs s2 = pre ++ (k, v') :: post ->
        _typedefs s1 = _typedefs s2 ->
        _binding_codes s1 = _binding_codes s2 ->
        repr v <> repr v' ->
        hash sha1 h1 s1 <> hash sha1 h2 s2)
  /\ (forall (h1 h2 : heap V) s1 s2,
        (forall x y, sha1 x = sha1 y -> x = y) ->
        repr_dict (h1 !!! kwargs s1) = repr_dict (h2 !!! kwargs s2) ->
        (hash sha1 h1 s1 = hash sha1 h2 s2
         <-> PyStr.join PyStr.nl (Dict.values (_typedefs s1))
             +:+ PyStr.nl
             +:+ PyStr.join PyStr.nl (Dict.values (_binding_codes s1))
             = PyStr.join PyStr.nl (Dict.values (_typedefs s2))
               +:+ PyStr.nl
               +:+ PyStr.join PyStr.nl (Dict.values (_binding_codes s2))))
  /\ (forall (h1 h2 : heap V) s1 s2,
        (forall x y, sha1 x = sha1 y -> x = y) ->
        PyStr.join PyStr.nl (Dict.values (_typedefs s1))
        +:+ PyStr.nl
        +:+ PyStr.join PyStr.nl (Dict.values (_binding_codes s1))
        = PyStr.join PyStr.nl (Dict.values (_typedefs s2))
          +:+ PyStr.nl
          +:+ PyStr.join PyStr.nl (Dict.values (_binding_codes s2)) ->
        (hash sha1 h1 s1 = hash sha1 h2 s2
         <-> repr_dict (h1 !!! kwargs s1) = repr_dict (h2 !!! kwargs s2))).
Proof.
  split; [reflexivity|]. split; [|split; [|split]].
  - intros h1 h2 s1 s2 Hk Ht Hb. unfold hash, hash_input, code_definitions.
    unfold Dict.t in *. now rewrite Hk, Ht, Hb.
  - intros h1 h2 s1 s2 pre post k v v' Hinj Hk1 Hk2 Ht Hb Hne E.
    apply Hinj in E. unfold hash_input, code_definitions in E.
    unfold Dict.t in *. rewrite Hk1, Hk2, Ht, Hb in E.
    apply append_cancel_r in E.
    destruct (repr_dict_middle pre post k) as (a & b & Hr).
    rewrite !Hr in E. apply append_cancel_l, append_cancel_r in E. auto.
  - intros h1 h2 s1 s2 Hinj Hr. unfold hash, hash_input, code_definitions.
    unfold Dict.t in *. rewrite Hr. split.
    + intros E. apply Hinj in E. now apply append_cancel_l in E.
    + intros E. now rewrite E.
  - intros h1 h2 s1 s2 Hinj Hc. unfold hash, hash_input, code_definitions.
    unfold Dict.t in *. rewrite Hc. split.
    + intros E. apply Hinj in E. now apply append_cancel_r in E.
    + intros E. now rewrite E.
Qed.

End ShaderFacts.

Section GenerateFacts.
Context {V O : Type} (py : O -> Python V).

(** C10 (as amended).  [generate_wgsl] puts back the dict object
    [self.kwargs] referred to before the call, whatever [get_code] and
    the rendering do and whatever the call returns or raises.  When the
    two do no more than assign template variables, the shader is as it
    was: that dict object holds the same items, the objects and the
    fragments are the same, and [hash()] gives the same value. *)
Theorem generate_wgsl_restores_kwargs (hooks : ShaderHooks V O)
  (sha1 : string -> string) (extra : Dict.t V) (w : ShaderWorld V O) :
  forall res w',
    generate_wgsl hooks extra w = (res, w') ->
    kwargs (shader w') = kwargs (shader w)
    /\ (is_Some (dicts w !! kwargs (shader w)) ->
        only_assigns_variables (get_code hooks) ->
        (forall code variables,
            only_assigns_variables (jinja_render hooks code variables)) ->
        shader w' = shader w
        /\ dicts w' !! kwargs (shader w) = dicts w !! kwargs (shader w)
        /\ objects w' = objects w
        /\ world_hash py sha1 w' = world_hash py sha1 w).
Proof.
  intros res w'. unfold generate_wgsl.
  set (r := fresh (dom (dicts w))).
  set (w1 := {| dicts := _; objects := objects w;
                shader := set_kwargs r (shader w) |}).
  assert (Hframe :
    forall w3,
      shader w3 = shader w1 -> objects w3 = objects w1 ->
      (forall q, q <> r -> dicts w3 !! q = dicts w1 !! q) ->
      is_Some (dicts w !! kwargs (shader w)) ->
      let w4 := set_shader (set_kwargs (kwargs (shader w)) (shader w3)) w3 in
      shader w4 = shader w
      /\ dicts w4 !! kwargs (shader w) = dicts w !! kwargs (shader w)
      /\ objects w4 = objects w
      /\ world_hash py sha1 w4 = world_hash py sha1 w).
  { intros w3 Hs Ho Hd Hlive w4.
    assert (Hr : kwargs (shader w) <> r).
    { intros E. apply (is_fresh (dom (dicts w))). fold r. rewrite <- E.
      now apply elem_of_dom. }
    assert (E1 : shader w4 = shader w).
    { subst w4. cbn [set_shader shader]. rewrite Hs. subst w1.
      cbn [shader]. now destruct (shader w). }
    assert (E2 : dicts w4 !! kwargs (shader w)
                 = dicts w !! kwargs (shader w)).
    { subst w4. cbn [set_shader dicts]. rewrite Hd by exact Hr.
      subst w1. cbn [dicts]. now rewrite lookup_insert_ne. }
    assert (E3 : objects w4 = objects w)
      by (subst w4; cbn [set_shader objects]; now rewrite Ho).
    repeat split; try assumption.
    unfold world_hash, hash, hash_input. rewrite E1, E3.
    do 3 f_equal. unfold lookup_total, map_lookup_total. now rewrite E2. }
  destruct (get_code hooks w1) as [code1 w2] eqn:Hget.
  assert (Hget' :
    only_assigns_variables (get_code hooks) ->
    shader w2 = shader w1 /\ objects w2 = objects w1
    /\ forall q, q <> r -> dicts w2 !! q = dicts w1 !! q).
  { intros H. specialize (H w1). rewrite Hget in H. exact H. }
  destruct code1 as [e|code1].
  - intros E. injection E as <- <-. split; [reflexivity|].
    intros Hlive Hg _. destruct (Hget' Hg) as (Hs & Ho & Hd).
    now apply Hframe.
  - destruct (jinja_render hooks code1 (dicts w2 !!! kwargs (shader w2)) w2)
      as [t w3] eqn:Hrender.
    intros E. injection E as <- <-. split; [reflexivity|].
    intros Hlive Hg Hj. destruct (Hget' Hg) as (Hs & Ho & Hd).
    specialize (Hj code1 (dicts w2 !!! kwargs (shader w2)) w2).
    rewrite Hrender in Hj. cbn [snd] in Hj. destruct Hj as (Hs3 & Ho3 & Hd3).
    apply Hframe; [congruence|congruence| |exact Hlive].
    intros q Hq. rewrite Hd3, Hd; [reflexivity|exact Hq|].
    rewrite Hs. exact Hq.
Qed.

End GenerateFacts.

(** C6, the claim as stated fails: the two shaders register different
    fragments, and for every digest function and every store of template
    variables they have the same hash. *)
Lemma hash_equal_for_different_fragments :
  Dict.values (_typedefs joined_shader) <> Dict.values (_typedefs split_shader)
  /\ forall (V : Type) (P : Python V) (sha1 : string -> string) (h : heap V),
       hash sha1 h joined_shader = hash sha1 h split_shader.
Proof.
  split; [discriminate|]. intros V P sha1 h. reflexivity.
Qed.

Lemma hash_witness :
  @hash string text_python (fun x => x) sample_heap joined_shader
  = @hash string text_python (fun x => x) second_heap renamed_shader
  /\ @hash string text_python (fun x => x) sample_heap sample_shader
     <> @hash string text_python (fun x => x) changed_heap sample_shader
  /\ @hash string text_python (fun x => x) sample_heap sample_shader
     <> @hash string text_python (fun x => x) sample_heap joined_shader.
Proof.
  split; [|split].
  - apply (proj1 (proj2 (@hash_spec string text_python (fun x => x))));
      reflexivity.
  - apply (proj1 (proj2 (proj2 (@hash_spec string text_python (fun x => x))))
             sample_heap changed_heap sample_shader sample_shader
             [] [("blending_code", "")] "write_pick" "True" "False").
    + auto.
    + reflexivity.
    + reflexivity.
    + reflexivity.
    + reflexivity.
    + discriminate.
  - intros E.
    apply (proj1 (proj2 (proj2 (proj2 (@hash_spec string text_python
                                          (fun x => x)))))
             sample_heap sample_heap sample_shader joined_shader) in E.
    + discriminate.
    + auto.
    + reflexivity.
Defined.

(** C10, the claim as stated fails.  The copy [generate_wgsl] works on
    holds the same objects as the dict of the shader, and [get_code] and
    the template are code of any kind: (1) a shader whose [get_code]
    registers a binding has one fragment more after the call; (2) a
    template that appends to a list changes the list the shader's own
    variable refers to.  In both cases [self.kwargs] is the dict object
    it was and a later [hash()] differs, for every digest without
    collisions. *)
Lemma generate_wgsl_changes_hash :
  (generate_wgsl registering_hooks [] sample_shader_world
   = (inr ("        @group(0) @binding(0)" +:+ PyStr.nl
           +:+ "        var s_colormap: sampler;" +:+ PyStr.nl),
      registering_after)
   /\ kwargs (shader registering_after) = kwargs (shader sample_shader_world)
   /\ _binding_codes (shader sample_shader_world) = []
   /\ _binding_codes (shader registering_after)
      = [("s_colormap", sampler_code 0 0 "s_colormap")]
   /\ forall sha1 : string -> string,
        (forall x y, sha1 x = sha1 y -> x = y) ->
        world_hash (fun _ => text_python) sha1 registering_after
        <> world_hash (fun _ => text_python) sha1 sample_shader_world)
  /\ (generate_wgsl appending_hooks [] appending_world
      = (inr ("// None" +:+ PyStr.nl), appending_after)
      /\ kwargs (shader appending_after) = kwargs (shader appending_world)
      /\ dicts appending_after !! 1%positive
         = dicts appending_world !! 1%positive
      /\ objects appending_world !! 7%positive = Some [0%Z]
      /\ objects appending_after !! 7%positive = Some [0%Z; 1%Z]
      /\ forall sha1 : string -> string,
           (forall x y, sha1 x = sha1 y -> x = y) ->
           world_hash tvalue_python sha1 appending_after
           <> world_hash tvalue_python sha1 appending_world).
Proof.
  split.
  - repeat split; try (vm_compute; reflexivity).
    intros sha1 Hinj E. apply Hinj in E. vm_compute in E. discriminate.
  - repeat split; try (vm_compute; reflexivity).
    intros sha1 Hinj E. apply Hinj in E. vm_compute in E. discriminate.
Qed.

Lemma sample_get_code_assigns : only_assigns_variables (get_code sample_hooks).
Proof.
  intros w. cbn [sample_hooks get_code]. unfold __setitem__.
  destruct (str_in "colormap_coord_type" sample_class_attributes);
    [repeat split; reflexivity|].
  cbn [snd set_dicts shader objects dicts]. repeat split.
  intros r Hr. now rewrite lookup_insert_ne.
Qed.

Lemma sample_render_assigns code variables :
  only_assigns_variables (jinja_render sample_hooks code variables).
Proof. intros w. repeat split; reflexivity. Qed.

Lemma generate_wgsl_witness :
  exists res w',
    generate_wgsl sample_hooks [("write_pick", "False")] sample_shader_world
    = (res, w')
    /\ kwargs (shader w') = kwargs (shader sample_shader_world)
    /\ shader w' = shader sample_shader_world
    /\ dicts w' !! kwargs (shader sample_shader_world)
       = dicts sample_shader_world !! kwargs (shader sample_shader_world)
    /\ objects w' = objects sample_shader_world
    /\ world_hash (fun _ => text_python) (fun x => x) w'
       = world_hash (fun _ => text_python) (fun x => x) sample_shader_world.
Proof.
  destruct (generate_wgsl sample_hooks [("write_pick", "False")]
              sample_shader_world) as [res w'] eqn:E.
  exists res, w'. split; [reflexivity|].
  destruct (generate_wgsl_restores_kwargs (fun _ => text_python) sample_hooks
              (fun x => x) [("write_pick", "False")] sample_shader_world
              res w' E) as [Hk Hrest].
  split; [exact Hk|]. apply Hrest.
  - eexists. reflexivity.
  - exact sample_get_code_assigns.
  - exact sample_render_assigns.
Defined.

(** ** The sample type of a [texture/auto] binding *)

(** C5.  For a binding of type [texture/auto] on an uploaded texture view,
    where [wgpu.TextureSampleType] has the members [float], [uint],
    [sint] and [depth] and no member [auto], the layout entry that
    [get_bind_group_descriptors] derives has the sample type chosen from
    the texture format [fmt] of the view (the result of
    [to_texture_format] on the format of the resource, replaced by its
    first alternative in [ALTTEXFORMAT] when it has one): [float] when
    [fmt] contains "float" or "norm"; otherwise [uint] when it contains
    "uint"; otherwise [sint] when it contains "sint"; otherwise [depth]
    when it contains "depth"; and for any other format the call raises
    [ValueError]. *)
Theorem texture_auto_sample_type_spec (w : WgpuEnums) (u : Utils)
  (b : Binding.t) (slot : Z) (v : TextureView) (version : Z)
  (native : handle) (fmt0 fmt float uint sint depth : string) :
  Binding.type b = "texture/auto" ->
  Binding.resource b = RTextureView v ->
  tv_wgpu_texture_view v = Some (version, native) ->
  Dict.get "auto" (TextureSampleType w) = None ->
  Dict.get "float" (TextureSampleType w) = Some float ->
  Dict.get "uint" (TextureSampleType w) = Some uint ->
  Dict.get "sint" (TextureSampleType w) = Some sint ->
  Dict.get "depth" (TextureSampleType w) = Some depth ->
  to_texture_format u (tv_format v) = inr fmt0 ->
  alt_format u fmt0 = inr fmt ->
  let r := Binding.get_bind_group_descriptors w u b slot in
  (PyStr.contains "float" fmt || PyStr.contains "norm" fmt = true ->
   layout_sample_type r = Some float)
  /\ (PyStr.contains "float" fmt || PyStr.contains "norm" fmt = false ->
      PyStr.contains "uint" fmt = true ->
      layout_sample_type r = Some uint)
  /\ (PyStr.contains "float" fmt || PyStr.contains "norm" fmt = false ->
      PyStr.contains "uint" fmt = false ->
      PyStr.contains "sint" fmt = true ->
      layout_sample_type r = Some sint)
  /\ (PyStr.contains "float" fmt || PyStr.contains "norm" fmt = false ->
      PyStr.contains "uint" fmt = false ->
      PyStr.contains "sint" fmt = false ->
      PyStr.contains "depth" fmt = true ->
      layout_sample_type r = Some depth)
  /\ (PyStr.contains "float" fmt || PyStr.contains "norm" fmt = false ->
      PyStr.contains "uint" fmt = false ->
      PyStr.contains "sint" fmt = false ->
      PyStr.contains "depth" fmt = false ->
      r = inl (ValueError "Could not determine texture sample type.")).
Proof.
  intros Hty Hres Hview Hauto Hfloat Huint Hsint Hdepth Hfmt0 Hfmt r.
  assert (Hr : r =
    match Binding.auto_sample_type w u v with
    | inl e => inl e
    | inr st =>
        inr ({| be_binding := slot; be_resource := NativeObject native |},
             {| le_binding := slot; le_visibility := Binding.visibility b;
                le_kind :=
                  LTexture st
                    (getattr_default (TextureViewDimension w) (tv_view_dim v)
                       (tv_view_dim v)) false |})
    end).
  { subst r. unfold Binding.get_bind_group_descriptors.
    rewrite Hty, Hres, Hview.
    change (PyStr.startswith "texture/auto" "buffer/") with false.
    change (PyStr.startswith "texture/auto" "sampler/") with false.
    change (PyStr.startswith "texture/auto" "texture/") with true.
    change (after_slash "texture/auto") with "auto".
    cbv iota zeta.
    replace (getattr_default (TextureSampleType w) "auto" "auto")
      with "auto" by (unfold getattr_default; now rewrite Hauto).
    change (String.eqb "auto" "auto") with true. cbv iota. reflexivity. }
  assert (Ha : Binding.auto_sample_type w u v =
    if PyStr.contains "float" fmt || PyStr.contains "norm" fmt then inr float
    else if PyStr.contains "uint" fmt then inr uint
    else if PyStr.contains "sint" fmt then inr sint
    else if PyStr.contains "depth" fmt then inr depth
    else inl (ValueError "Could not determine texture sample type.")).
  { unfold Binding.auto_sample_type, getattr.
    rewrite Hfmt0, Hfmt, Hfloat, Huint, Hsint, Hdepth. reflexivity. }
  rewrite Hr, Ha. clear Hr Ha r.
  repeat split; intros;
    repeat match goal with H : _ = _ :> bool |- _ => rewrite H end;
    reflexivity.
Qed.

(** ** The validation of the render info *)

Lemma with_self_same st : with_self (self st) st = st.
Proof. now destruct st. Qed.

Lemma render_mask_check (st : State) (d : Dict.t pyval) (mask : pyval) :
  render_info (self st) = Some (PyDict d) ->
  Dict.get "render_mask" d = Some mask ->
  (c <- get_self ;;
   render_mask <- lift (subscript_opt (render_info c) "render_mask") ;;
   assert (RenderPipelineContainer.valid_render_mask render_mask)
     "isinstance(render_mask, int) and render_mask in (1, 2, 3)") st
  = (if RenderPipelineContainer.valid_render_mask mask then inr tt
     else inl (AssertionError
                 "isinstance(render_mask, int) and render_mask in (1, 2, 3)"),
     st).
Proof.
  intros Hinfo Hmask. unfold bind, get_self. rewrite Hinfo.
  unfold subscript_opt, subscript. rewrite Hmask. unfold lift, ret.
  now destruct (RenderPipelineContainer.valid_render_mask mask).
Qed.

(** C4 (as amended).  A render container validates a render info with the
    keys [indices] and [render_mask] whose indices are a tuple or list of
    integers as follows: two indices [(a, b)] are replaced in the stored
    render info by [(a, b, 0, 0)]; four or five indices are left as they
    are; in these cases the validation succeeds exactly when the render
    mask is an integer among 1, 2 and 3, and raises [AssertionError]
    otherwise; any other number of indices raises [AssertionError].  A
    compute container validates a render info with the one key [indices]
    holding a tuple or list of integers exactly when there are three of
    them, whatever their sign, and raises [AssertionError] otherwise; it
    never changes the container. *)
Theorem check_render_info_spec :
  (forall (st : State) (d : Dict.t pyval) (indices mask : pyval)
          (l : list pyval),
     render_info (self st) = Some (PyDict d) ->
     keys_equal d ["indices"; "render_mask"] = true ->
     Dict.get "indices" d = Some indices ->
     sequence_items indices = Some l ->
     forallb is_int l = true ->
     Dict.get "render_mask" d = Some mask ->
     let verdict :=
       if RenderPipelineContainer.valid_render_mask mask then inr tt
       else inl (AssertionError
                   "isinstance(render_mask, int) and render_mask in (1, 2, 3)")
     in
     (forall a b, l = [a; b] ->
        RenderPipelineContainer._check_render_info st
        = (verdict,
           with_self
             (set_render_info
                (PyDict (Dict.set "indices"
                           (PyTuple [a; b; PyInt 0; PyInt 0]) d))
                (self st)) st))
     /\ (length l = 4%nat \/ length l = 5%nat ->
         RenderPipelineContainer._check_render_info st = (verdict, st))
     /\ (length l <> 2%nat -> length l <> 4%nat -> length l <> 5%nat ->
         RenderPipelineContainer._check_render_info st
         = (inl (AssertionError "len(indices) in (2, 4, 5)"), st)))
  /\ (forall (st : State) (d : Dict.t pyval) (indices : pyval)
             (l : list pyval),
        render_info (self st) = Some (PyDict d) ->
        keys_equal d ["indices"] = true ->
        Dict.get "indices" d = Some indices ->
        sequence_items indices = Some l ->
        forallb is_int l = true ->
        ComputePipelineContainer._check_render_info st
        = (if Nat.eqb (length l) 3 then inr tt
           else inl (AssertionError "len(indices) == 3"), st)).
Proof.
  split.
  - intros st d indices mask l Hinfo Hkeys Hind Hseq Hint Hmask verdict.
    assert (Hhead : RenderPipelineContainer._check_render_info st
      = (assert (existsb (Nat.eqb (length l)) [2; 4; 5]%nat)
           "len(indices) in (2, 4, 5)" ;;;
         match l with
         | [a; b] =>
             modify_self
               (set_render_info
                  (PyDict (Dict.set "indices"
                             (PyTuple [a; b; PyInt 0; PyInt 0]) d)))
         | _ => ret tt
         end ;;;
         c <- get_self ;;
         render_mask <- lift (subscript_opt (render_info c) "render_mask") ;;
         assert (RenderPipelineContainer.valid_render_mask render_mask)
           "isinstance(render_mask, int) and render_mask in (1, 2, 3)") st).
    { unfold RenderPipelineContainer._check_render_info.
      unfold bind at 1. unfold get_self at 1. rewrite Hinfo.
      unfold bind at 1. rewrite Hkeys. unfold assert at 1, ret at 1.
      unfold bind at 1. unfold subscript. rewrite Hind.
      unfold lift at 1, ret at 1. rewrite Hseq.
      unfold bind at 1. rewrite Hint. unfold assert at 1, ret at 1.
      reflexivity. }
    split; [|split].
    + intros a b ->. rewrite Hhead. unfold bind at 1. simpl existsb.
      unfold assert at 1, ret at 1. unfold bind at 1.
      unfold modify_self at 1.
      apply (render_mask_check
               (with_self
                  (set_render_info
                     (PyDict (Dict.set "indices"
                                (PyTuple [a; b; PyInt 0; PyInt 0]) d))
                     (self st)) st)
               (Dict.set "indices" (PyTuple [a; b; PyInt 0; PyInt 0]) d)).
      * reflexivity.
      * rewrite get_set. exact Hmask.
    + intros Hlen. rewrite Hhead. unfold bind at 1.
      assert (Hin : existsb (Nat.eqb (length l)) [2; 4; 5]%nat = true)
        by (destruct Hlen as [-> | ->]; reflexivity).
      rewrite Hin. unfold assert at 1, ret at 1. unfold bind at 1.
      assert (Hsame :
        match l with
        | [a; b] =>
            modify_self
              (set_render_info
                 (PyDict (Dict.set "indices"
                            (PyTuple [a; b; PyInt 0; PyInt 0]) d)))
        | _ => ret tt
        end st = (inr tt, st)).
      { destruct l as [|a [|b [|c l']]]; try reflexivity.
        simpl in Hlen. destruct Hlen; discriminate. }
      rewrite Hsame. now apply render_mask_check with (d := d).
    + intros H2 H4 H5. rewrite Hhead. unfold bind at 1.
      assert (Hin : existsb (Nat.eqb (length l)) [2; 4; 5]%nat = false).
      { simpl. rewrite !orb_false_r.
        destruct (Nat.eqb_spec (length l) 2); [contradiction|].
        destruct (Nat.eqb_spec (length l) 4); [contradiction|].
        destruct (Nat.eqb_spec (length l) 5); [contradiction|].
        reflexivity. }
      rewrite Hin. reflexivity.
  - intros st d indices l Hinfo Hkeys Hind Hseq Hint.
    unfold ComputePipelineContainer._check_render_info.
    unfold bind at 1. unfold get_self at 1. rewrite Hinfo.
    unfold bind at 1. rewrite Hkeys. unfold assert at 1, ret at 1.
    unfold bind at 1. unfold subscript. rewrite Hind.
    unfold lift at 1, ret at 1. rewrite Hseq.
    unfold bind at 1. rewrite Hint. unfold assert at 1, ret at 1.
    unfold assert. now destruct (Nat.eqb (length l) 3).
Qed.

(** ** What the GPU phase leaves alone *)

Section Frame.

Variable X : Externals.

Lemma keeps_ret A (a : A) : keeps_shader_data (ret a).
Proof. intros st. reflexivity. Qed.

Lemma keeps_raise A (e : exn) : keeps_shader_data (@raise A e).
Proof. intros st. reflexivity. Qed.

Lemma keeps_lift A (r : exn + A) : keeps_shader_data (lift r).
Proof. destruct r; intros st; reflexivity. Qed.

Lemma keeps_bind A B (m : M A) (k : A -> M B) :
  keeps_shader_data m -> (forall a, keeps_shader_data (k a)) ->
  keeps_shader_data (bind m k).
Proof.
  intros Hm Hk st. unfold bind. specialize (Hm st).
  destruct (m st) as [[e|a] st1]; simpl in *; [exact Hm|].
  rewrite Hk. exact Hm.
Qed.

Lemma keeps_get_self : keeps_shader_data get_self.
Proof. intros st. reflexivity. Qed.

Lemma keeps_get_world : keeps_shader_data get_world.
Proof. intros st. reflexivity. Qed.

Lemma keeps_get_changed : keeps_shader_data get_changed.
Proof. intros st. reflexivity. Qed.

Lemma keeps_modify_world f : keeps_shader_data (modify_world f).
Proof. intros st. reflexivity. Qed.

Lemma keeps_changed_add label : keeps_shader_data (changed_add label).
Proof. intros st. reflexivity. Qed.

Lemma keeps_modify_self f :
  (forall c, shader_data (f c) = shader_data c) ->
  keeps_shader_data (modify_self f).
Proof. intros Hf st. apply Hf. Qed.

Lemma keeps_emit ev : keeps_shader_data (emit ev).
Proof. apply keeps_modify_world. Qed.

Lemma keeps_call ev : keeps_shader_data (call X ev).
Proof.
  unfold call. apply keeps_bind; [apply keeps_get_world|]. intros w.
  apply keeps_bind; [apply keeps_emit|]. intros _.
  destruct (call_raises X ev w); [apply keeps_raise|apply keeps_ret].
Qed.

Lemma keeps_gpu_call ev : keeps_shader_data (gpu_call X ev).
Proof.
  unfold gpu_call. apply keeps_bind; [apply keeps_call|]. intros _.
  apply keeps_bind; [apply keeps_get_world|]. intros w.
  apply keeps_bind; [apply keeps_modify_world|]. intros _. apply keeps_ret.
Qed.

Lemma keeps_try_except_else A (m : M A) (handler otherwise : M unit) :
  keeps_shader_data m -> keeps_shader_data handler ->
  keeps_shader_data otherwise ->
  keeps_shader_data (try_except_else m handler otherwise).
Proof.
  intros Hm Hh Ho st. unfold try_except_else. specialize (Hm st).
  destruct (m st) as [[e|a] st1]; simpl in *.
  - rewrite Hh. exact Hm.
  - rewrite Ho. exact Hm.
Qed.

Lemma keeps_get_shader_module source :
  keeps_shader_data (Cache.get_shader_module X source).
Proof.
  unfold Cache.get_shader_module, Cache.get, Cache.set.
  apply keeps_bind.
  - apply keeps_bind; [apply keeps_get_world|]. intros w. apply keeps_ret.
  - intros [m|]; [apply keeps_ret|].
    apply keeps_bind; [apply keeps_gpu_call|]. intros m.
    apply keeps_bind; [apply keeps_modify_world|]. intros _. apply keeps_ret.
Qed.

Lemma keeps_compile_passes passes modules :
  keeps_shader_data (RenderPipelineContainer.compile_passes X passes modules).
Proof.
  revert modules. induction passes as [|p passes IH]; intros modules; simpl.
  - apply keeps_ret.
  - destruct (get_color_descriptors X p); [apply IH|].
    apply keeps_bind; [apply keeps_get_world|]. intros w.
    apply keeps_bind; [apply keeps_lift|]. intros wgsl.
    apply keeps_bind; [apply keeps_get_shader_module|]. intros m. apply IH.
Qed.

Lemma keeps_compose_passes c topology cull layout modules passes pipelines :
  keeps_shader_data
    (RenderPipelineContainer.compose_passes X c topology cull layout modules
       passes pipelines).
Proof.
  revert pipelines. induction passes as [|p passes IH]; intros pipelines;
    simpl.
  - apply keeps_ret.
  - destruct (get_color_descriptors X p); [apply IH|].
    destruct (modules !! p); [|apply keeps_raise].
    apply keeps_bind; [apply keeps_gpu_call|]. intros pipeline. apply IH.
Qed.

Lemma keeps_compile_shaders :
  keeps_shader_data (PipelineContainer._compile_shaders X).
Proof.
  unfold PipelineContainer._compile_shaders.
  apply keeps_bind; [apply keeps_get_self|]. intros c.
  destruct (kind c).
  - unfold ComputePipelineContainer._compile_shaders.
    apply keeps_bind; [apply keeps_get_world|]. intros w.
    apply keeps_bind; [apply keeps_lift|]. intros wgsl.
    apply keeps_bind; [apply keeps_get_shader_module|]. intros m.
    apply keeps_ret.
  - apply keeps_compile_passes.
Qed.

Lemma keeps_compose_pipelines modules :
  keeps_shader_data (PipelineContainer._compose_pipelines X modules).
Proof.
  unfold PipelineContainer._compose_pipelines.
  apply keeps_bind; [apply keeps_get_self|]. intros c.
  destruct (kind c).
  - unfold ComputePipelineContainer._compose_pipelines.
    apply keeps_bind; [apply keeps_get_self|]. intros c'.
    apply keeps_bind; [apply keeps_gpu_call|]. intros layout.
    destruct (modules !! 0%nat); [|apply keeps_raise].
    apply keeps_bind; [apply keeps_gpu_call|]. intros p. apply keeps_ret.
  - unfold RenderPipelineContainer._compose_pipelines.
    apply keeps_bind; [apply keeps_get_self|]. intros c'.
    apply keeps_bind; [apply keeps_lift|]. intros topology.
    apply keeps_bind; [apply keeps_lift|]. intros cull.
    apply keeps_bind; [apply keeps_gpu_call|]. intros layout.
    apply keeps_compose_passes.
Qed.

Lemma keeps_update_wgpu_data env_hash :
  keeps_shader_data (PipelineContainer.update_wgpu_data X env_hash).
Proof.
  unfold PipelineContainer.update_wgpu_data.
  apply keeps_bind; [apply keeps_get_self|]. intros c.
  apply keeps_bind.
  - destruct (wgpu_shaders c !! env_hash); [apply keeps_ret|].
    apply keeps_bind; [apply keeps_emit|]. intros _.
    apply keeps_bind; [apply keeps_changed_add|]. intros _.
    apply keeps_bind; [apply keeps_compile_shaders|]. intros modules.
    apply keeps_modify_self. reflexivity.
  - intros _. apply keeps_bind; [apply keeps_get_self|]. intros c'.
    destruct (wgpu_pipelines c' !! env_hash); [apply keeps_ret|].
    apply keeps_bind; [apply keeps_changed_add|]. intros _.
    apply keeps_bind; [apply keeps_get_self|]. intros c''.
    apply keeps_bind.
    + destruct (wgpu_shaders c'' !! env_hash);
        [apply keeps_ret|apply keeps_raise].
    + intros modules.
      apply keeps_bind; [apply keeps_compose_pipelines|]. intros pipelines.
      apply keeps_modify_self. reflexivity.
Qed.

End Frame.

(** ** The two phases of [update] *)

Section UpdateFacts.

Variable X : Externals.
Variable environment_hash : string.

Lemma log_changes_self st : self (log_changes st) = self st.
Proof.
  unfold log_changes, PipelineContainer.when_any_changed, bind, get_changed.
  destruct (bool_decide (changed st = ∅)); reflexivity.
Qed.

Lemma log_changes_nothing st : changed st = ∅ -> log_changes st = st.
Proof.
  intros H.
  unfold log_changes, PipelineContainer.when_any_changed, bind, get_changed.
  rewrite bool_decide_eq_true_2 by exact H. reflexivity.
Qed.

Lemma log_changes_ok st :
  PipelineContainer.when_any_changed
    (ch <- get_changed ;;
     emit (logger_info (PipelineContainer.sorted_labels ch))) st
  = (inr tt, log_changes st).
Proof.
  unfold log_changes, PipelineContainer.when_any_changed, bind, get_changed.
  destruct (bool_decide (changed st = ∅)); reflexivity.
Qed.

(** The GPU phase, from the state the shader-data phase leaves. *)
Lemma gpu_phase st s :
  (c <- get_self ;;
   (if truthy (broken c) then ret tt
    else
      try_except_else
        (PipelineContainer.update_wgpu_data X (env_hash_of st environment_hash))
        (modify_self (set_broken (PyInt 2)))
        (modify_self (set_broken (PyBool false)))) ;;;
   PipelineContainer.when_any_changed
     (ch <- get_changed ;;
      emit (logger_info (PipelineContainer.sorted_labels ch)))) s =
  if truthy (broken (self s)) then (inr tt, log_changes s)
  else
    match PipelineContainer.update_wgpu_data X
            (env_hash_of st environment_hash) s with
    | (inl e, s2) => (inl e, mark (PyInt 2) s2)
    | (inr _, s2) => (inr tt, log_changes (mark (PyBool false) s2))
    end.
Proof.
  unfold bind at 1. unfold get_self at 1.
  destruct (truthy (broken (self s))).
  - unfold bind, ret. apply log_changes_ok.
  - unfold bind at 1. unfold try_except_else.
    destruct (PipelineContainer.update_wgpu_data X
                (env_hash_of st environment_hash) s) as [[e|u] s2].
    + reflexivity.
    + apply log_changes_ok.
Qed.

Lemma update_unfold st :
  PipelineContainer.update X environment_hash st =
  let gpu s :=
    if truthy (broken (self s)) then (inr tt, log_changes s)
    else
      match PipelineContainer.update_wgpu_data X
              (env_hash_of st environment_hash) s with
      | (inl e, s2) => (inl e, mark (PyInt 2) s2)
      | (inr _, s2) => (inr tt, log_changes (mark (PyBool false) s2))
      end in
  if bool_decide (changed st = ∅) then gpu st
  else
    match PipelineContainer.update_shader_data X st with
    | (inl e, s1) => (inl e, mark (PyInt 1) s1)
    | (inr _, s1) => gpu (mark (PyInt 0) s1)
    end.
Proof.
  cbv zeta. unfold PipelineContainer.update.
  unfold bind at 1. unfold get_self at 1.
  fold (env_hash_of st environment_hash).
  unfold bind at 1.
  unfold PipelineContainer.when_any_changed at 1.
  unfold bind at 1. unfold get_changed at 1.
  destruct (bool_decide (changed st = ∅)).
  - apply (gpu_phase st st).
  - unfold try_except_else.
    destruct (PipelineContainer.update_shader_data X st) as [[e|u] s1].
    + reflexivity.
    + apply (gpu_phase st).
Qed.

End UpdateFacts.

(** ** Broken containers, empty updates and dispatch *)

Lemma shader_data_mark flag st :
  shader_data (self (mark flag st)) = shader_data (self st).
Proof. reflexivity. Qed.

Lemma update_wgpu_data_present X env_hash st :
  is_Some (wgpu_shaders (self st) !! env_hash) ->
  is_Some (wgpu_pipelines (self st) !! env_hash) ->
  PipelineContainer.update_wgpu_data X env_hash st = (inr tt, st).
Proof.
  intros [m Hm] [p Hp]. unfold PipelineContainer.update_wgpu_data.
  unfold bind, get_self. rewrite Hm. unfold ret. rewrite Hp. reflexivity.
Qed.

(** C1.  A container whose [broken] flag is true makes [draw] and
    [dispatch] return at once, with no call on the pass and the state as
    it was.  In [update], an exception of the shader-data phase sets
    [broken] to 1 and is raised to the caller; an exception of the
    GPU-object phase sets [broken] to 2 and is raised to the caller; the
    two values are different and both true.  An [update] of a broken
    container either changes nothing (no label was passed), or raises and
    leaves [broken] at 1 or 2, or completes both phases, and only then is
    [broken] cleared to [False]. *)
Theorem broken_container_spec (X : Externals) (environment_hash : string) :
  (forall st pass_index render_mask,
     truthy (broken (self st)) = true ->
     RenderPipelineContainer.draw X environment_hash pass_index render_mask st
     = (inr tt, st)
     /\ ComputePipelineContainer.dispatch X st = (inr tt, st))
  /\ (forall st e s1,
        changed st <> ∅ ->
        PipelineContainer.update_shader_data X st = (inl e, s1) ->
        PipelineContainer.update X environment_hash st
        = (inl e, mark (PyInt 1) s1))
  /\ (forall st e s1 s2,
        changed st <> ∅ ->
        PipelineContainer.update_shader_data X st = (inr tt, s1) ->
        PipelineContainer.update_wgpu_data X (env_hash_of st environment_hash)
          (mark (PyInt 0) s1) = (inl e, s2) ->
        PipelineContainer.update X environment_hash st
        = (inl e, mark (PyInt 2) s2))
  /\ (forall st e s2,
        changed st = ∅ ->
        truthy (broken (self st)) = false ->
        PipelineContainer.update_wgpu_data X (env_hash_of st environment_hash)
          st = (inl e, s2) ->
        PipelineContainer.update X environment_hash st
        = (inl e, mark (PyInt 2) s2))
  /\ (forall st r st',
        truthy (broken (self st)) = true ->
        PipelineContainer.update X environment_hash st = (r, st') ->
        (changed st = ∅ /\ r = inr tt /\ st' = st)
        \/ (exists e, r = inl e
                      /\ (broken (self st') = PyInt 1
                          \/ broken (self st') = PyInt 2))
        \/ (r = inr tt /\ broken (self st') = PyBool false
            /\ changed st <> ∅
            /\ exists s1 s2,
                 PipelineContainer.update_shader_data X st = (inr tt, s1)
                 /\ PipelineContainer.update_wgpu_data X
                      (env_hash_of st environment_hash) (mark (PyInt 0) s1)
                    = (inr tt, s2)
                 /\ st' = log_changes (mark (PyBool false) s2)))
  /\ truthy (PyInt 1) = true /\ truthy (PyInt 2) = true
  /\ PyInt 1 <> PyInt 2.
Proof.
  split; [|split; [|split; [|split; [|split]]]].
  - intros st pass_index render_mask Hb. split.
    + unfold RenderPipelineContainer.draw, bind, get_self. now rewrite Hb.
    + unfold ComputePipelineContainer.dispatch, bind, get_self.
      now rewrite Hb.
  - intros st e s1 Hch Hs. rewrite update_unfold. cbv zeta.
    rewrite bool_decide_eq_false_2 by exact Hch. now rewrite Hs.
  - intros st e s1 s2 Hch Hs Hg. rewrite update_unfold. cbv zeta.
    rewrite bool_decide_eq_false_2 by exact Hch. rewrite Hs.
    change (truthy (broken (self (mark (PyInt 0) s1)))) with false.
    cbv iota. now rewrite Hg.
  - intros st e s2 Hch Hb Hg. rewrite update_unfold. cbv zeta.
    rewrite bool_decide_eq_true_2 by exact Hch. rewrite Hb.
    now rewrite Hg.
  - intros st r st' Hb. rewrite update_unfold. cbv zeta.
    destruct (decide (changed st = ∅)) as [Hch|Hch].
    + rewrite bool_decide_eq_true_2 by exact Hch. rewrite Hb.
      rewrite log_changes_nothing by exact Hch.
      intros H. injection H as <- <-. left. auto.
    + rewrite bool_decide_eq_false_2 by exact Hch.
      destruct (PipelineContainer.update_shader_data X st) as [[e|[]] s1].
      * intros H. injection H as <- <-. right. left. exists e. auto.
      * change (truthy (broken (self (mark (PyInt 0) s1)))) with false.
        cbv iota.
        destruct (PipelineContainer.update_wgpu_data X
                    (env_hash_of st environment_hash) (mark (PyInt 0) s1))
          as [[e|[]] s2] eqn:Hg.
        -- intros H. injection H as <- <-. right. left. exists e. auto.
        -- intros H. injection H as <- <-. right. right.
           split; [reflexivity|]. split; [now rewrite log_changes_self|].
           split; [exact Hch|]. exists s1, s2. auto.
  - repeat split. discriminate.
Qed.

(** C2 (as amended).  An [update] with no label in [changed] skips the
    shader-data phase: whatever happens, the resources, the pipeline
    info, the render info, the shader hash, the bind group layouts and
    the bind groups of the container are as before.  When the container
    is broken, the call changes nothing and calls nothing.  When it is
    not broken and holds shader modules and pipelines for the
    environment, the call calls nothing and changes nothing but the
    [broken] flag, which becomes [False]. *)
Theorem update_nothing_changed_spec (X : Externals)
  (environment_hash : string) (st : State) :
  changed st = ∅ ->
  let r := PipelineContainer.update X environment_hash st in
  shader_data (self (snd r)) = shader_data (self st)
  /\ (truthy (broken (self st)) = true -> r = (inr tt, st))
  /\ (truthy (broken (self st)) = false ->
      is_Some (wgpu_shaders (self st) !! env_hash_of st environment_hash) ->
      is_Some (wgpu_pipelines (self st) !! env_hash_of st environment_hash) ->
      r = (inr tt, mark (PyBool false) st)).
Proof.
  intros Hch r. subst r. rewrite update_unfold. cbv zeta.
  rewrite bool_decide_eq_true_2 by exact Hch.
  split; [|split].
  - destruct (truthy (broken (self st))).
    + simpl. now rewrite log_changes_self.
    + pose proof (keeps_update_wgpu_data X
                    (env_hash_of st environment_hash) st) as Hk.
      destruct (PipelineContainer.update_wgpu_data X
                  (env_hash_of st environment_hash) st) as [[e|u] s2];
        simpl in *.
      * exact Hk.
      * rewrite log_changes_self. exact Hk.
  - intros ->. now rewrite log_changes_nothing.
  - intros -> Hs Hp. rewrite update_wgpu_data_present by assumption.
    now rewrite log_changes_nothing.
Qed.

(** C3, what the code does: on a container that is not broken,
    [dispatch] raises [AttributeError] when it reads the attribute
    [wgpu_pipeline], which no container has; nothing is called on the
    pass. *)
Theorem dispatch_raises_attribute_error (X : Externals) (st : State) :
  truthy (broken (self st)) = false ->
  ComputePipelineContainer.dispatch X st
  = (inl (AttributeError "wgpu_pipeline"), st).
Proof.
  intros Hb. unfold ComputePipelineContainer.dispatch.
  unfold bind at 1. unfold get_self at 1. rewrite Hb.
  unfold bind at 1.
  assert (Ha : getattr_self (self st) "wgpu_pipeline"
               = inl (AttributeError "wgpu_pipeline")).
  { unfold getattr_self. destruct (kind (self st)); reflexivity. }
  rewrite Ha. reflexivity.
Qed.

(** ** The pipeline properties on the samples *)

Lemma texture_auto_sample_type_witness :
  layout_sample_type
    (Binding.get_bind_group_descriptors sample_wgpu sample_utils
       (t_colormap "rgb8unorm") 1)
  = Some "float"
  /\ layout_sample_type
       (Binding.get_bind_group_descriptors sample_wgpu sample_utils
          (t_colormap "rg32uint") 1)
     = Some "uint"
  /\ Binding.get_bind_group_descriptors sample_wgpu sample_utils
       (t_colormap "stencil8") 1
     = inl (ValueError "Could not determine texture sample type.").
Proof.
  split; [|split].
  - apply (proj1 (texture_auto_sample_type_spec sample_wgpu sample_utils
                    (t_colormap "rgb8unorm") 1 (sample_view "rgb8unorm")
                    1 41%nat "rgb8unorm" "rgba8unorm"
                    "float" "uint" "sint" "depth"
                    eq_refl eq_refl eq_refl eq_refl eq_refl eq_refl eq_refl
                    eq_refl eq_refl eq_refl)).
    reflexivity.
  - apply (proj1 (proj2
             (texture_auto_sample_type_spec sample_wgpu sample_utils
                (t_colormap "rg32uint") 1 (sample_view "rg32uint")
                1 41%nat "rg32uint" "rg32uint"
                "float" "uint" "sint" "depth"
                eq_refl eq_refl eq_refl eq_refl eq_refl eq_refl eq_refl
                eq_refl eq_refl eq_refl))); reflexivity.
  - apply (proj2 (proj2 (proj2 (proj2
             (texture_auto_sample_type_spec sample_wgpu sample_utils
                (t_colormap "stencil8") 1 (sample_view "stencil8")
                1 41%nat "stencil8" "stencil8"
                "float" "uint" "sint" "depth"
                eq_refl eq_refl eq_refl eq_refl eq_refl eq_refl eq_refl
                eq_refl eq_refl eq_refl))))); reflexivity.
Defined.

(** C4, the claim as stated fails: a compute container accepts three
    indices of which one is negative. *)
Lemma compute_accepts_negative_indices :
  let st :=
    state_with_render_info Compute
      (PyDict [("indices", PyTuple [PyInt (-1); PyInt 1; PyInt 1])]) in
  ComputePipelineContainer._check_render_info st = (inr tt, st).
Proof. reflexivity. Qed.

Lemma check_render_info_witness :
  (let st :=
     state_with_render_info Render
       (PyDict [("indices", PyTuple [PyInt 3; PyInt 1]);
                ("render_mask", PyInt 3)]) in
   RenderPipelineContainer._check_render_info st
   = (inr tt,
      state_with_render_info Render
        (PyDict [("indices", PyTuple [PyInt 3; PyInt 1; PyInt 0; PyInt 0]);
                 ("render_mask", PyInt 3)])))
  /\ (let st :=
        state_with_render_info Render
          (PyDict [("indices", PyList [PyInt 3; PyInt 1; PyInt 0]);
                   ("render_mask", PyInt 3)]) in
      RenderPipelineContainer._check_render_info st
      = (inl (AssertionError "len(indices) in (2, 4, 5)"), st))
  /\ (let st :=
        state_with_render_info Compute
          (PyDict [("indices", PyTuple [PyInt 8; PyInt 8])]) in
      ComputePipelineContainer._check_render_info st
      = (inl (AssertionError "len(indices) == 3"), st)).
Proof.
  split; [|split]; cbv zeta.
  - apply (proj1 (proj1 check_render_info_spec
                    (state_with_render_info Render
                       (PyDict [("indices", PyTuple [PyInt 3; PyInt 1]);
                                ("render_mask", PyInt 3)]))
                    [("indices", PyTuple [PyInt 3; PyInt 1]);
                     ("render_mask", PyInt 3)]
                    (PyTuple [PyInt 3; PyInt 1]) (PyInt 3)
                    [PyInt 3; PyInt 1]
                    eq_refl eq_refl eq_refl eq_refl eq_refl eq_refl)
             (PyInt 3) (PyInt 1) eq_refl).
  - apply (proj2 (proj2 (proj1 check_render_info_spec
                    (state_with_render_info Render
                       (PyDict [("indices",
                                 PyList [PyInt 3; PyInt 1; PyInt 0]);
                                ("render_mask", PyInt 3)]))
                    [("indices", PyList [PyInt 3; PyInt 1; PyInt 0]);
                     ("render_mask", PyInt 3)]
                    (PyList [PyInt 3; PyInt 1; PyInt 0]) (PyInt 3)
                    [PyInt 3; PyInt 1; PyInt 0]
                    eq_refl eq_refl eq_refl eq_refl eq_refl eq_refl)));
      simpl; lia.
  - apply (proj2 check_render_info_spec
             (state_with_render_info Compute
                (PyDict [("indices", PyTuple [PyInt 8; PyInt 8])]))
             [("indices", PyTuple [PyInt 8; PyInt 8])]
             (PyTuple [PyInt 8; PyInt 8]) [PyInt 8; PyInt 8]
             eq_refl eq_refl eq_refl eq_refl eq_refl).
Defined.

(** C2, the claim as stated fails: a render container that is up to date
    for the environment "A" is updated with no label for the environment
    "B"; the call creates a pipeline layout and a render pipeline, stores
    them, adds two labels to the set of the caller, and logs. *)
Lemma update_for_new_environment_composes :
  let r := PipelineContainer.update sample_render_externals "B" updated_for_A in
  changed updated_for_A = ∅
  /\ broken (self updated_for_A) = PyBool false
  /\ fst r = inr tt
  /\ List.filter is_gpu_call (new_events updated_for_A (snd r))
     = [create_pipeline_layout [];
        create_render_pipeline 3 0
          [{| array_stride := 12; step_mode := "vertex";
              attr_format := "float32x3"; attr_offset := 0;
              shader_location := 0 |}]
          (PyStr "triangle-list") (PyStr "none") None "depth32float"
          ["rgba8unorm"]]
  /\ wgpu_pipelines (self updated_for_A) !! "B" = None
  /\ wgpu_pipelines (self (snd r)) !! "B" = Some {[ 0%nat := 4%nat ]}
  /\ elements (changed (snd r)) = ["compose_pipeline"; "compile_shader"].
Proof. vm_compute. repeat split. Qed.

Lemma updated_for_A_eq :
  updated_for_A
  = with_changed ∅
      (snd (PipelineContainer.update sample_render_externals "A"
              (fresh_state Render {["create"]}))).
Proof. vm_compute. reflexivity. Qed.

Lemma updated_compute_eq :
  PipelineContainer.update sample_externals ""
    (fresh_state Compute {["create"]})
  = (inr tt, updated_compute).
Proof. vm_compute. reflexivity. Qed.

Lemma update_nothing_changed_witness :
  PipelineContainer.update sample_render_externals "A" updated_for_A
  = (inr tt, mark (PyBool false) updated_for_A)
  /\ PipelineContainer.update sample_externals ""
       (broken_state Compute (PyInt 2) ∅)
     = (inr tt, broken_state Compute (PyInt 2) ∅).
Proof.
  split.
  - apply (proj2 (proj2
             (update_nothing_changed_spec sample_render_externals "A"
                updated_for_A eq_refl))).
    + vm_compute. reflexivity.
    + vm_compute. eexists. reflexivity.
    + vm_compute. eexists. reflexivity.
  - apply (proj1 (proj2
             (update_nothing_changed_spec sample_externals ""
                (broken_state Compute (PyInt 2) ∅) eq_refl))).
    vm_compute. reflexivity.
Defined.

Lemma create_changed : ({["create"]} : gset string) <> ∅.
Proof.
  intros H. apply (f_equal elements) in H. vm_compute in H. discriminate.
Qed.

Lemma broken_container_witness :
  RenderPipelineContainer.draw sample_render_externals "A" 0 3
    (broken_state Render (PyInt 1) ∅)
  = (inr tt, broken_state Render (PyInt 1) ∅)
  /\ PipelineContainer.update failing_shader ""
       (fresh_state Compute {["create"]})
     = (inl (ValueError "no geometry"), mark (PyInt 1) failed_shader_data)
  /\ PipelineContainer.update failing_device ""
       (fresh_state Compute {["create"]})
     = (inl (ExternalError "validation failed"),
        mark (PyInt 2)
          (snd (PipelineContainer.update_wgpu_data failing_device ""
                  (mark (PyInt 0) updated_compute_data)))).
Proof.
  split; [|split].
  - apply (proj1 (broken_container_spec sample_render_externals "A")).
    vm_compute. reflexivity.
  - apply (proj1 (proj2 (broken_container_spec failing_shader ""))
             (fresh_state Compute {["create"]}) (ValueError "no geometry")
             failed_shader_data).
    + exact create_changed.
    + vm_compute. reflexivity.
  - apply (proj1 (proj2 (proj2 (broken_container_spec failing_device "")))
             (fresh_state Compute {["create"]})
             (ExternalError "validation failed") updated_compute_data).
    + exact create_changed.
    + vm_compute. reflexivity.
    + vm_compute. reflexivity.
Defined.

Lemma dispatch_raises_attribute_error_witness :
  broken (self updated_compute) = PyBool false
  /\ ComputePipelineContainer.dispatch sample_externals updated_compute
     = (inl (AttributeError "wgpu_pipeline"), updated_compute).
Proof.
  split; [vm_compute; reflexivity|].
  apply dispatch_raises_attribute_error. vm_compute. reflexivity.
Defined.

(** * Further properties of the code *)

(** ** Bindings *)

Lemma has_prefix_cons a p s :
  PyStr.has_prefix (String a p) (String a s) = PyStr.has_prefix p s.
Proof.
  change (PyStr.has_prefix (String a p) (String a s))
    with (Ascii.eqb a a && PyStr.has_prefix p s).
  now rewrite Ascii.eqb_refl.
Qed.

Lemma has_prefix_other a p b q s :
  a <> b ->
  PyStr.has_prefix (String a p) s = true ->
  PyStr.has_prefix (String b q) s = false.
Proof.
  intros Hab. destruct s as [|c s]; [discriminate|].
  intros H. apply has_prefix_head in H. subst c.
  change (PyStr.has_prefix (String b q) (String a s))
    with (Ascii.eqb b a && PyStr.has_prefix q s).
  destruct (Ascii.eqb_spec b a) as [E|_]; [congruence|reflexivity].
Qed.

Lemma has_prefix_inv a p s :
  PyStr.has_prefix (String a p) s = true ->
  exists s', s = String a s' /\ PyStr.has_prefix p s' = true.
Proof.
  destruct s as [|c s]; [discriminate|]. intros H.
  pose proof (has_prefix_head _ _ _ _ H) as ->.
  rewrite has_prefix_cons in H. eauto.
Qed.

Lemma startswith_other a p b q s :
  a <> b ->
  PyStr.startswith s (String a p) = true ->
  PyStr.startswith s (String b q) = false.
Proof. apply has_prefix_other. Qed.

(** What [get_bind_group_descriptors] returns always belongs to the slot
    it was asked for: the entry and the layout carry the slot, the layout
    carries the visibility of the binding, and the kind of the layout is
    the one the prefix of the binding type names, on a resource of the
    class that prefix needs. *)
Theorem get_bind_group_descriptors_slot (w : WgpuEnums) (u : Utils)
  (b : Binding.t) (slot : Z) (entry : bind_entry) (layout : layout_entry) :
  Binding.get_bind_group_descriptors w u b slot = inr (entry, layout) ->
  be_binding entry = slot
  /\ le_binding layout = slot
  /\ le_visibility layout = Binding.visibility b
  /\ match le_kind layout, Binding.resource b, be_resource entry with
     | LBuffer _ false 0, RBuffer buf, BufferRange _ 0 size =>
         PyStr.startswith (Binding.type b) "buffer/" = true
         /\ size = buf_nbytes buf
     | LSampler _, RTextureView _, NativeObject _ =>
         PyStr.startswith (Binding.type b) "sampler/" = true
     | LTexture _ _ false, RTextureView _, NativeObject _ =>
         PyStr.startswith (Binding.type b) "texture/" = true
     | LStorageTexture _ _ _, RTextureView _, NativeObject _ =>
         PyStr.startswith (Binding.type b) "storage_texture/" = true
     | _, _, _ => False
     end.
Proof.
  unfold Binding.get_bind_group_descriptors.
  destruct (PyStr.startswith (Binding.type b) "buffer/") eqn:Hb.
  { destruct (Binding.resource b) as [buf|v|]; try discriminate.
    destruct (buf_wgpu_buffer buf) as [[rev native]|]; [|discriminate].
    destruct (getattr _ _); [discriminate|].
    intros H. injection H as <- <-. simpl. auto. }
  destruct (PyStr.startswith (Binding.type b) "sampler/") eqn:Hs.
  { destruct (Binding.resource b) as [buf|v|]; try discriminate.
    destruct (tv_wgpu_sampler v) as [[rev native]|]; [|discriminate].
    destruct (getattr _ _); [discriminate|].
    intros H. injection H as <- <-. simpl. auto. }
  destruct (PyStr.startswith (Binding.type b) "texture/") eqn:Ht.
  { destruct (Binding.resource b) as [buf|v|]; try discriminate.
    destruct (tv_wgpu_texture_view v) as [[rev native]|]; [|discriminate].
    match goal with
    | |- context [if ?c then _ else _] => destruct c
    end.
    - destruct (Binding.auto_sample_type w u v); [discriminate|].
      intros H. injection H as <- <-. simpl. auto.
    - intros H. injection H as <- <-. simpl. auto. }
  destruct (PyStr.startswith (Binding.type b) "storage_texture/") eqn:Hst.
  { destruct (Binding.resource b) as [buf|v|]; try discriminate.
    destruct (tv_wgpu_texture_view v) as [[rev native]|]; [|discriminate].
    destruct (to_texture_format u (tv_format v)); [discriminate|].
    destruct (alt_format u _); [discriminate|].
    destruct (getattr _ _); [discriminate|].
    intros H. injection H as <- <-. simpl. auto. }
  discriminate.
Qed.

(** The resource of a binding must be of the class its type names, and
    the type must name one: a [buffer/] binding on anything but a buffer,
    and a [sampler/], [texture/] or [storage_texture/] binding on
    anything but a texture view, raise [AssertionError]; a type with none
    of the four prefixes raises [UnboundLocalError]. *)
Theorem get_bind_group_descriptors_rejects (w : WgpuEnums) (u : Utils)
  (b : Binding.t) (slot : Z) :
  (PyStr.startswith (Binding.type b) "buffer/" = true ->
   (forall buf, Binding.resource b <> RBuffer buf) ->
   Binding.get_bind_group_descriptors w u b slot
   = inl (AssertionError "isinstance(resource, Buffer)"))
  /\ (PyStr.startswith (Binding.type b) "sampler/"
      || PyStr.startswith (Binding.type b) "texture/"
      || PyStr.startswith (Binding.type b) "storage_texture/" = true ->
      (forall v, Binding.resource b <> RTextureView v) ->
      Binding.get_bind_group_descriptors w u b slot
      = inl (AssertionError "isinstance(resource, TextureView)"))
  /\ (PyStr.startswith (Binding.type b) "buffer/" = false ->
      PyStr.startswith (Binding.type b) "sampler/" = false ->
      PyStr.startswith (Binding.type b) "texture/" = false ->
      PyStr.startswith (Binding.type b) "storage_texture/" = false ->
      Binding.get_bind_group_descriptors w u b slot
      = inl (UnboundLocalError "binding")).
Proof.
  unfold Binding.get_bind_group_descriptors.
  split; [|split].
  - intros -> Hr. destruct (Binding.resource b) as [buf|v|];
      [destruct (Hr buf); reflexivity|reflexivity|reflexivity].
  - intros H Hr.
    assert (Hb : PyStr.startswith (Binding.type b) "buffer/" = false).
    { apply orb_true_iff in H as [H|H];
        [apply orb_true_iff in H as [H|H]|];
        eapply startswith_other; try exact H; discriminate. }
    rewrite Hb.
    assert (Hres :
      match Binding.resource b with
      | RTextureView _ => False
      | _ => True
      end).
    { destruct (Binding.resource b) as [buf|v|]; auto.
      destruct (Hr v); reflexivity. }
    destruct (PyStr.startswith (Binding.type b) "sampler/") eqn:Hs;
      [destruct (Binding.resource b); [reflexivity|destruct Hres|reflexivity]|].
    destruct (PyStr.startswith (Binding.type b) "texture/") eqn:Ht;
      [destruct (Binding.resource b); [reflexivity|destruct Hres|reflexivity]|].
    rewrite !orb_false_l in H. rewrite H.
    destruct (Binding.resource b); [reflexivity|destruct Hres|reflexivity].
  - intros -> -> -> ->. reflexivity.
Qed.

(** ** The shader module cache and the GPU objects of an environment *)

Section Keeps.

Variable X : Externals.
Context {T : Type}.
Variable view : Container -> T.

Lemma keeps_view_ret A (a : A) : keeps view (ret a).
Proof. intros st. reflexivity. Qed.

Lemma keeps_view_raise A (e : exn) : keeps view (@raise A e).
Proof. intros st. reflexivity. Qed.

Lemma keeps_view_lift A (r : exn + A) : keeps view (lift r).
Proof. destruct r; intros st; reflexivity. Qed.

Lemma keeps_view_bind A B (m : M A) (k : A -> M B) :
  keeps view m -> (forall a, keeps view (k a)) -> keeps view (bind m k).
Proof.
  intros Hm Hk st. unfold bind. specialize (Hm st).
  destruct (m st) as [[e|a] st1]; simpl in *; [exact Hm|].
  rewrite Hk. exact Hm.
Qed.

Lemma keeps_view_get_self : keeps view get_self.
Proof. intros st. reflexivity. Qed.

Lemma keeps_view_get_world : keeps view get_world.
Proof. intros st. reflexivity. Qed.

Lemma keeps_view_modify_world f : keeps view (modify_world f).
Proof. intros st. reflexivity. Qed.

Lemma keeps_view_call ev : keeps view (call X ev).
Proof.
  unfold call. apply keeps_view_bind; [apply keeps_view_get_world|].
  intros w. apply keeps_view_bind; [apply keeps_view_modify_world|].
  intros _.
  destruct (call_raises X ev w); [apply keeps_view_raise|apply keeps_view_ret].
Qed.

Lemma keeps_view_gpu_call ev : keeps view (gpu_call X ev).
Proof.
  unfold gpu_call. apply keeps_view_bind; [apply keeps_view_call|].
  intros _. apply keeps_view_bind; [apply keeps_view_get_world|]. intros w.
  apply keeps_view_bind; [apply keeps_view_modify_world|]. intros _.
  apply keeps_view_ret.
Qed.

Lemma keeps_view_get_shader_module source :
  keeps view (Cache.get_shader_module X source).
Proof.
  unfold Cache.get_shader_module, Cache.get, Cache.set.
  apply keeps_view_bind.
  - apply keeps_view_bind; [apply keeps_view_get_world|]. intros w.
    apply keeps_view_ret.
  - intros [m|]; [apply keeps_view_ret|].
    apply keeps_view_bind; [apply keeps_view_gpu_call|]. intros m.
    apply keeps_view_bind; [apply keeps_view_modify_world|]. intros _.
    apply keeps_view_ret.
Qed.

Lemma keeps_view_compile_passes passes modules :
  keeps view (RenderPipelineContainer.compile_passes X passes modules).
Proof.
  revert modules. induction passes as [|p passes IH]; intros modules; simpl.
  - apply keeps_view_ret.
  - destruct (get_color_descriptors X p); [apply IH|].
    apply keeps_view_bind; [apply keeps_view_get_world|]. intros w.
    apply keeps_view_bind; [apply keeps_view_lift|]. intros wgsl.
    apply keeps_view_bind; [apply keeps_view_get_shader_module|]. intros m.
    apply IH.
Qed.

Lemma keeps_view_compose_passes c topology cull layout modules passes
  pipelines :
  keeps view
    (RenderPipelineContainer.compose_passes X c topology cull layout modules
       passes pipelines).
Proof.
  revert pipelines. induction passes as [|p passes IH]; intros pipelines;
    simpl.
  - apply keeps_view_ret.
  - destruct (get_color_descriptors X p); [apply IH|].
    destruct (modules !! p); [|apply keeps_view_raise].
    apply keeps_view_bind; [apply keeps_view_gpu_call|]. intros pipeline.
    apply IH.
Qed.

Lemma keeps_view_compile_shaders :
  keeps view (PipelineContainer._compile_shaders X).
Proof.
  unfold PipelineContainer._compile_shaders.
  apply keeps_view_bind; [apply keeps_view_get_self|]. intros c.
  destruct (kind c).
  - unfold ComputePipelineContainer._compile_shaders.
    apply keeps_view_bind; [apply keeps_view_get_world|]. intros w.
    apply keeps_view_bind; [apply keeps_view_lift|]. intros wgsl.
    apply keeps_view_bind; [apply keeps_view_get_shader_module|]. intros m.
    apply keeps_view_ret.
  - apply keeps_view_compile_passes.
Qed.

Lemma keeps_view_compose_pipelines modules :
  keeps view (PipelineContainer._compose_pipelines X modules).
Proof.
  unfold PipelineContainer._compose_pipelines.
  apply keeps_view_bind; [apply keeps_view_get_self|]. intros c.
  destruct (kind c).
  - unfold ComputePipelineContainer._compose_pipelines.
    apply keeps_view_bind; [apply keeps_view_get_self|]. intros c'.
    apply keeps_view_bind; [apply keeps_view_gpu_call|]. intros layout.
    destruct (modules !! 0%nat); [|apply keeps_view_raise].
    apply keeps_view_bind; [apply keeps_view_gpu_call|]. intros p.
    apply keeps_view_ret.
  - unfold RenderPipelineContainer._compose_pipelines.
    apply keeps_view_bind; [apply keeps_view_get_self|]. intros c'.
    apply keeps_view_bind; [apply keeps_view_lift|]. intros topology.
    apply keeps_view_bind; [apply keeps_view_lift|]. intros cull.
    apply keeps_view_bind; [apply keeps_view_gpu_call|]. intros layout.
    apply keeps_view_compose_passes.
Qed.

End Keeps.

Lemma compile_shaders_self X st :
  self (snd (PipelineContainer._compile_shaders X st)) = self st.
Proof. apply (keeps_view_compile_shaders X (fun c => c)). Qed.

Lemma compose_pipelines_self X modules st :
  self (snd (PipelineContainer._compose_pipelines X modules st)) = self st.
Proof. apply (keeps_view_compose_pipelines X (fun c => c)). Qed.

Lemma shaders_set_shaders v c : wgpu_shaders (set_wgpu_shaders v c) = v.
Proof. reflexivity. Qed.

Lemma pipelines_set_shaders v c :
  wgpu_pipelines (set_wgpu_shaders v c) = wgpu_pipelines c.
Proof. reflexivity. Qed.

Lemma shaders_set_pipelines v c :
  wgpu_shaders (set_wgpu_pipelines v c) = wgpu_shaders c.
Proof. reflexivity. Qed.

Lemma pipelines_set_pipelines v c :
  wgpu_pipelines (set_wgpu_pipelines v c) = v.
Proof. reflexivity. Qed.

Lemma shaders_set_broken v c : wgpu_shaders (set_broken v c) = wgpu_shaders c.
Proof. reflexivity. Qed.

Lemma pipelines_set_broken v c :
  wgpu_pipelines (set_broken v c) = wgpu_pipelines c.
Proof. reflexivity. Qed.

#[local] Ltac fields :=
  cbn [self snd fst];
  rewrite ?shaders_set_shaders, ?pipelines_set_shaders,
    ?shaders_set_pipelines, ?pipelines_set_pipelines.

(** The ways [update_wgpu_data] can end, by what it finds and by what
    the two steps answer. *)
Lemma update_wgpu_data_cases X env_hash st r st1 :
  PipelineContainer.update_wgpu_data X env_hash st = (r, st1) ->
  exists shaders,
    (shaders = wgpu_shaders (self st)
     \/ exists m, wgpu_shaders (self st) !! env_hash = None
                  /\ shaders = <[env_hash := m]> (wgpu_shaders (self st)))
    /\ wgpu_shaders (self st1) = shaders
    /\ ((exists e, r = inl e
                   /\ wgpu_pipelines (self st1) = wgpu_pipelines (self st))
        \/ (r = inr tt
            /\ is_Some (shaders !! env_hash)
            /\ (wgpu_pipelines (self st1) = wgpu_pipelines (self st)
                /\ is_Some (wgpu_pipelines (self st) !! env_hash)
                \/ exists p,
                     wgpu_pipelines (self st1)
                     = <[env_hash := p]> (wgpu_pipelines (self st))))).
Proof.
  unfold PipelineContainer.update_wgpu_data.
  unfold bind at 1. unfold get_self at 1.
  unfold bind at 1.
  destruct (wgpu_shaders (self st) !! env_hash) as [m0|] eqn:Hs.
  - (* the shader modules are there *)
    unfold ret at 1. unfold bind at 1. unfold get_self at 1.
    destruct (wgpu_pipelines (self st) !! env_hash) as [p0|] eqn:Hp.
    + intros H. injection H as <- <-. exists (wgpu_shaders (self st)).
      split; [now left|]. split; [reflexivity|]. right.
      split; [reflexivity|]. split; [try rewrite Hs; eauto|]. left.
      split; [reflexivity|try rewrite Hp; eauto].
    + unfold bind at 1. unfold changed_add at 1.
      unfold bind at 1. unfold get_self at 1. cbn [self].
      unfold bind at 1. rewrite Hs. unfold ret at 1.
      unfold bind at 1.
      match goal with
      | |- context [PipelineContainer._compose_pipelines X m0 ?s] =>
          pose proof (compose_pipelines_self X m0 s) as Hc;
          destruct (PipelineContainer._compose_pipelines X m0 s)
            as [[e|p] s2]
      end; cbn [snd self] in Hc.
      * intros H. injection H as <- <-. exists (wgpu_shaders (self st)).
        split; [now left|]. rewrite Hc. split; [reflexivity|]. left.
        exists e. auto.
      * unfold modify_self. intros H. injection H as <- <-.
        exists (wgpu_shaders (self st)). fields. rewrite ?Hc.
        split; [now left|]. split; [reflexivity|]. right.
        split; [reflexivity|]. split; [try rewrite Hs; eauto|]. right.
        exists p. reflexivity.
  - (* the shader modules are compiled *)
    unfold bind at 1. unfold emit at 1, modify_world at 1.
    unfold bind at 1. unfold changed_add at 1.
    unfold bind at 1.
    match goal with
    | |- context [PipelineContainer._compile_shaders X ?s] =>
        pose proof (compile_shaders_self X s) as Hc;
        destruct (PipelineContainer._compile_shaders X s) as [[e|m] s2]
    end; cbn [snd self] in Hc.
    + intros H. injection H as <- <-. exists (wgpu_shaders (self st)).
      split; [now left|]. rewrite Hc. split; [reflexivity|]. left.
      exists e. auto.
    + unfold modify_self at 1. unfold bind at 1. unfold get_self at 1.
      fields. rewrite ?Hc.
      destruct (wgpu_pipelines (self st) !! env_hash) as [p0|] eqn:Hp.
      * intros H. injection H as <- <-.
        exists (<[env_hash := m]> (wgpu_shaders (self st))). fields.
        split; [right; eauto|]. split; [reflexivity|]. right.
        split; [reflexivity|]. split; [rewrite lookup_insert_eq; eauto|].
        left. split; [reflexivity|try rewrite Hp; eauto].
      * unfold bind at 1. unfold changed_add at 1.
        unfold bind at 1. unfold get_self at 1. fields.
        unfold bind at 1.
        rewrite lookup_insert_eq. unfold ret at 1. unfold bind at 1.
        match goal with
        | |- context [PipelineContainer._compose_pipelines X m ?s] =>
            pose proof (compose_pipelines_self X m s) as Hc';
            destruct (PipelineContainer._compose_pipelines X m s)
              as [[e|p] s3]
        end; cbn [snd self] in Hc'.
        -- intros H. injection H as <- <-.
           exists (<[env_hash := m]> (wgpu_shaders (self st))).
           rewrite Hc'. fields. rewrite ?Hc.
           split; [right; eauto|]. split; [reflexivity|].
           left. exists e. auto.
        -- unfold modify_self. intros H. injection H as <- <-.
           exists (<[env_hash := m]> (wgpu_shaders (self st))).
           fields. rewrite Hc'. fields. rewrite ?Hc.
           split; [right; eauto|]. split; [reflexivity|]. right.
           split; [reflexivity|]. split; [rewrite lookup_insert_eq; eauto|].
           right. exists p. reflexivity.
Qed.

(** A shader module is compiled once per source text: when
    [get_shader_module] returns a module, the cache holds it under the
    source, and asking again for the same source returns the same module
    with no call on the device and no change of state. *)
Theorem get_shader_module_cached (X : Externals) (source : string)
  (st st1 : State) (m : handle) :
  Cache.get_shader_module X source st = (inr m, st1) ->
  cache (world st1) !! source = Some m
  /\ Cache.get_shader_module X source st1 = (inr m, st1).
Proof.
  unfold Cache.get_shader_module, Cache.get, Cache.set.
  unfold bind at 1. unfold bind at 1. unfold get_world at 1, ret at 1.
  destruct (cache (world st) !! source) as [m0|] eqn:Hc.
  - intros H. injection H as <- <-. split; [exact Hc|].
    unfold bind, get_world, ret. now rewrite Hc.
  - unfold bind at 1. unfold gpu_call, call.
    unfold bind at 1. unfold bind at 1. unfold get_world at 1.
    unfold bind at 1. unfold emit at 1, modify_world at 1. cbn [world].
    destruct (call_raises X (create_shader_module source) (world st));
      [discriminate|].
    unfold ret at 1. unfold bind at 1. unfold get_world at 1.
    unfold bind at 1. unfold modify_world at 1. unfold ret at 1.
    unfold bind at 1. unfold modify_world at 1. unfold ret at 1.
    cbn [world trace next_handle cache].
    intros H. injection H as <- <-. cbn [world cache].
    split; [apply lookup_insert_eq|].
    unfold bind, get_world, ret. cbn [world cache].
    now rewrite lookup_insert_eq.
Qed.

(** A module that could not be compiled is not cached: when
    [get_shader_module] raises, the cache is as before and the one call
    it made on the device is the failed [create_shader_module]. *)
Theorem get_shader_module_failure (X : Externals) (source : string)
  (st st1 : State) (e : exn) :
  Cache.get_shader_module X source st = (inl e, st1) ->
  cache (world st1) = cache (world st)
  /\ cache (world st) !! source = None
  /\ trace (world st1) = trace (world st) ++ [create_shader_module source]
  /\ self st1 = self st.
Proof.
  unfold Cache.get_shader_module, Cache.get, Cache.set.
  unfold bind at 1. unfold bind at 1. unfold get_world at 1, ret at 1.
  destruct (cache (world st) !! source) as [m0|] eqn:Hc; [discriminate|].
  unfold bind at 1. unfold gpu_call, call.
  unfold bind at 1. unfold bind at 1. unfold get_world at 1.
  unfold bind at 1. unfold emit at 1, modify_world at 1. cbn [world].
  destruct (call_raises X (create_shader_module source) (world st)).
  - unfold raise. intros H. injection H as <- <-. cbn. auto.
  - unfold ret at 1. unfold bind at 1. unfold get_world at 1.
    unfold bind at 1. unfold modify_world at 1. unfold ret at 1.
    unfold bind at 1. unfold modify_world at 1. unfold ret at 1.
    discriminate.
Qed.

(** After [update_wgpu_data] has returned, the container holds shader
    modules and pipelines for the environment, what it holds for other
    environments is as before, and a second call for the same environment
    returns at once: it calls nothing and changes nothing. *)
Theorem update_wgpu_data_settles (X : Externals) (env_hash : string)
  (st st1 : State) :
  PipelineContainer.update_wgpu_data X env_hash st = (inr tt, st1) ->
  is_Some (wgpu_shaders (self st1) !! env_hash)
  /\ is_Some (wgpu_pipelines (self st1) !! env_hash)
  /\ (forall other, other <> env_hash ->
        wgpu_shaders (self st1) !! other = wgpu_shaders (self st) !! other
        /\ wgpu_pipelines (self st1) !! other
           = wgpu_pipelines (self st) !! other)
  /\ PipelineContainer.update_wgpu_data X env_hash st1 = (inr tt, st1).
Proof.
  intros H.
  destruct (update_wgpu_data_cases _ _ _ _ _ H)
    as (shaders & Hsh & Hs1 & [(e & He & _)|(_ & Hsome & Hp)]);
    [discriminate|].
  assert (H1 : is_Some (wgpu_shaders (self st1) !! env_hash))
    by now rewrite Hs1.
  assert (H2 : is_Some (wgpu_pipelines (self st1) !! env_hash)).
  { destruct Hp as [[-> Hp]|[p ->]]; [exact Hp|].
    rewrite lookup_insert_eq. eauto. }
  split; [exact H1|]. split; [exact H2|]. split.
  - intros other Hne. split.
    + rewrite Hs1. destruct Hsh as [->|(m & _ & ->)]; [reflexivity|].
      now rewrite lookup_insert_ne.
    + destruct Hp as [[-> _]|[p ->]]; [reflexivity|].
      now rewrite lookup_insert_ne.
  - now apply update_wgpu_data_present.
Qed.

(** When [update_wgpu_data] raises, no pipeline has been stored: the
    pipelines of the container are as before, and its shader modules are
    as before or have gained the modules of the environment; and it can
    only raise when the modules or the pipelines of the environment were
    missing. *)
Theorem update_wgpu_data_failure (X : Externals) (env_hash : string)
  (st st1 : State) (e : exn) :
  PipelineContainer.update_wgpu_data X env_hash st = (inl e, st1) ->
  wgpu_pipelines (self st1) = wgpu_pipelines (self st)
  /\ (wgpu_shaders (self st1) = wgpu_shaders (self st)
      \/ exists m,
           wgpu_shaders (self st) !! env_hash = None
           /\ wgpu_shaders (self st1)
              = <[env_hash := m]> (wgpu_shaders (self st)))
  /\ (wgpu_shaders (self st) !! env_hash = None
      \/ wgpu_pipelines (self st) !! env_hash = None).
Proof.
  intros H.
  destruct (update_wgpu_data_cases _ _ _ _ _ H)
    as (shaders & Hsh & Hs1 & [(e' & _ & Hp)|(Hr & _)]); [|discriminate].
  split; [exact Hp|]. split; [rewrite Hs1; exact Hsh|].
  destruct (wgpu_shaders (self st) !! env_hash) as [m0|] eqn:Hs0;
    [|now left].
  destruct (wgpu_pipelines (self st) !! env_hash) as [p0|] eqn:Hp0;
    [|now right].
  rewrite update_wgpu_data_present in H by (rewrite ?Hs0, ?Hp0; eauto).
  discriminate.
Qed.

(** ** What an update never takes away *)

Lemma grows_refl st : grows st st.
Proof.
  repeat split; auto. exists []. now rewrite app_nil_r.
Qed.

Lemma grows_trans a b c : grows a b -> grows b c -> grows a c.
Proof.
  intros (H1 & [e1 H2] & H3 & H4 & H5) (G1 & [e2 G2] & G3 & G4 & G5).
  repeat split.
  - set_solver.
  - exists (e1 ++ e2). now rewrite G2, H2, app_assoc.
  - lia.
  - auto.
  - congruence.
Qed.

Section Grows.

Variable X : Externals.

Lemma only_grows_ret A (a : A) : only_grows (ret a).
Proof. intros st. apply grows_refl. Qed.

Lemma only_grows_raise A (e : exn) : only_grows (@raise A e).
Proof. intros st. apply grows_refl. Qed.

Lemma only_grows_lift A (r : exn + A) : only_grows (lift r).
Proof. destruct r; intros st; apply grows_refl. Qed.

Lemma only_grows_assert b msg : only_grows (assert b msg).
Proof. destruct b; intros st; apply grows_refl. Qed.

Lemma only_grows_bind A B (m : M A) (k : A -> M B) :
  only_grows m -> (forall a, only_grows (k a)) -> only_grows (bind m k).
Proof.
  intros Hm Hk st. unfold bind. specialize (Hm st).
  destruct (m st) as [[e|a] st1]; simpl in *; [exact Hm|].
  eapply grows_trans; [exact Hm|apply Hk].
Qed.

Lemma only_grows_get_self : only_grows get_self.
Proof. intros st. apply grows_refl. Qed.

Lemma only_grows_get_world : only_grows get_world.
Proof. intros st. apply grows_refl. Qed.

Lemma only_grows_get_changed : only_grows get_changed.
Proof. intros st. apply grows_refl. Qed.

Lemma only_grows_changed_add label : only_grows (changed_add label).
Proof.
  intros st. repeat split; simpl; auto; [set_solver|].
  exists []. now rewrite app_nil_r.
Qed.

Lemma only_grows_emit ev : only_grows (emit ev).
Proof. intros st. repeat split; simpl; auto. now exists [ev]. Qed.

Lemma only_grows_modify_self f :
  (forall c, kind (f c) = kind c) -> only_grows (modify_self f).
Proof.
  intros Hf st. repeat split; simpl; auto.
  exists []. now rewrite app_nil_r.
Qed.

Lemma only_grows_call ev : only_grows (call X ev).
Proof.
  unfold call. apply only_grows_bind; [apply only_grows_get_world|].
  intros w. apply only_grows_bind; [apply only_grows_emit|]. intros _.
  destruct (call_raises X ev w);
    [apply only_grows_raise|apply only_grows_ret].
Qed.

Lemma only_grows_gpu_call ev : only_grows (gpu_call X ev).
Proof.
  unfold gpu_call. apply only_grows_bind; [apply only_grows_call|].
  intros _. apply only_grows_bind; [apply only_grows_get_world|]. intros w.
  apply only_grows_bind; [|intros _; apply only_grows_ret].
  intros st. repeat split; simpl; auto.
  exists []. now rewrite app_nil_r.
Qed.

Lemma gpu_call_cache ev st :
  cache (world (snd (gpu_call X ev st))) = cache (world st).
Proof.
  unfold gpu_call, call, bind, get_world, emit, modify_world.
  cbn [world]. destruct (call_raises X ev (world st)); reflexivity.
Qed.

Lemma only_grows_get_shader_module source :
  only_grows (Cache.get_shader_module X source).
Proof.
  intros st. unfold Cache.get_shader_module, Cache.get, Cache.set.
  unfold bind at 1. unfold bind at 1. unfold get_world at 1, ret at 1.
  destruct (cache (world st) !! source) as [m0|] eqn:Hc;
    [apply grows_refl|].
  unfold bind at 1.
  pose proof (only_grows_gpu_call (create_shader_module source) st) as Hg.
  pose proof (gpu_call_cache (create_shader_module source) st) as Hk.
  destruct (gpu_call X (create_shader_module source) st) as [[e|m] s1];
    simpl in Hg, Hk |- *; [exact Hg|].
  destruct Hg as (H1 & H2 & H3 & _ & H5).
  repeat split; simpl; auto.
  intros k m' Hm. rewrite Hk.
  destruct (decide (k = source)) as [->|Hne]; [congruence|].
  now rewrite lookup_insert_ne.
Qed.

Lemma only_grows_for_each A (l : list A) (body : A -> M unit) :
  (forall x, only_grows (body x)) -> only_grows (for_each l body).
Proof.
  intros Hb. induction l as [|x l IH]; simpl.
  - apply only_grows_ret.
  - apply only_grows_bind; [apply Hb|]. intros _. exact IH.
Qed.

Lemma only_grows_collect A B (l : list A) (body : A -> M (list B)) :
  (forall x, only_grows (body x)) -> only_grows (collect l body).
Proof.
  intros Hb. induction l as [|x l IH]; simpl.
  - apply only_grows_ret.
  - apply only_grows_bind; [apply Hb|]. intros here.
    apply only_grows_bind; [exact IH|]. intros there. apply only_grows_ret.
Qed.

Lemma only_grows_try A (m : M A) (handler otherwise : M unit) :
  only_grows m -> only_grows handler -> only_grows otherwise ->
  only_grows (try_except_else m handler otherwise).
Proof.
  intros Hm Hh Ho st. unfold try_except_else. specialize (Hm st).
  destruct (m st) as [[e|a] st1]; simpl in *.
  - eapply grows_trans; [exact Hm|apply Hh].
  - eapply grows_trans; [exact Hm|apply Ho].
Qed.

#[local] Ltac grow :=
  repeat (intros;
    first
      [ apply only_grows_ret | apply only_grows_raise | apply only_grows_lift
      | apply only_grows_assert | apply only_grows_get_self
      | apply only_grows_get_world | apply only_grows_get_changed
      | apply only_grows_changed_add | apply only_grows_emit
      | apply only_grows_call | apply only_grows_gpu_call
      | apply only_grows_get_shader_module
      | apply only_grows_modify_self; intros; reflexivity
      | apply only_grows_bind
      | apply only_grows_for_each | apply only_grows_collect
      | apply only_grows_try
      | match goal with
        | |- only_grows (match ?x with _ => _ end) => destruct x
        end ]).

Lemma only_grows_compile_passes passes modules :
  only_grows (RenderPipelineContainer.compile_passes X passes modules).
Proof.
  revert modules. induction passes as [|p passes IH]; intros modules; simpl.
  - grow.
  - destruct (get_color_descriptors X p); [apply IH|].
    apply only_grows_bind; [grow|]. intros w.
    apply only_grows_bind; [grow|]. intros wgsl.
    apply only_grows_bind; [grow|]. intros m. apply IH.
Qed.

Lemma only_grows_compose_passes c topology cull layout modules passes
  pipelines :
  only_grows
    (RenderPipelineContainer.compose_passes X c topology cull layout modules
       passes pipelines).
Proof.
  revert pipelines. induction passes as [|p passes IH]; intros pipelines;
    simpl.
  - grow.
  - destruct (get_color_descriptors X p); [apply IH|].
    destruct (modules !! p); [|grow].
    apply only_grows_bind; [grow|]. intros pipeline. apply IH.
Qed.

Lemma only_grows_compile_shaders :
  only_grows (PipelineContainer._compile_shaders X).
Proof.
  unfold PipelineContainer._compile_shaders,
    ComputePipelineContainer._compile_shaders,
    RenderPipelineContainer._compile_shaders.
  apply only_grows_bind; [grow|]. intros c.
  destruct (kind c); [grow|apply only_grows_compile_passes].
Qed.

Lemma only_grows_compose_pipelines modules :
  only_grows (PipelineContainer._compose_pipelines X modules).
Proof.
  unfold PipelineContainer._compose_pipelines,
    ComputePipelineContainer._compose_pipelines,
    RenderPipelineContainer._compose_pipelines.
  apply only_grows_bind; [grow|]. intros c.
  destruct (kind c); [grow|].
  apply only_grows_bind; [grow|]. intros c'.
  apply only_grows_bind; [grow|]. intros topology.
  apply only_grows_bind; [grow|]. intros cull.
  apply only_grows_bind; [grow|]. intros layout.
  apply only_grows_compose_passes.
Qed.

Lemma only_grows_update_wgpu_data env_hash :
  only_grows (PipelineContainer.update_wgpu_data X env_hash).
Proof.
  unfold PipelineContainer.update_wgpu_data.
  apply only_grows_bind; [grow|]. intros c.
  apply only_grows_bind.
  - destruct (wgpu_shaders c !! env_hash); [grow|].
    apply only_grows_bind; [grow|]. intros _.
    apply only_grows_bind; [grow|]. intros _.
    apply only_grows_bind; [apply only_grows_compile_shaders|]. grow.
  - intros _. apply only_grows_bind; [grow|]. intros c'.
    destruct (wgpu_pipelines c' !! env_hash); [grow|].
    apply only_grows_bind; [grow|]. intros _.
    apply only_grows_bind; [grow|]. intros c''.
    apply only_grows_bind; [grow|]. intros modules.
    apply only_grows_bind; [apply only_grows_compose_pipelines|]. grow.
Qed.

Lemma only_grows_binding_flat_resources b :
  only_grows (binding_flat_resources b).
Proof.
  unfold binding_flat_resources.
  repeat match goal with
         | |- only_grows (if ?c then _ else _) => destruct c
         end; grow;
  repeat match goal with
         | |- only_grows (if ?c then _ else _) => destruct c
         end; grow.
Qed.

Lemma only_grows_collect_flat_resources r :
  only_grows (collect_flat_resources r).
Proof.
  unfold collect_flat_resources.
  apply only_grows_bind; [grow|]. intros index.
  apply only_grows_bind; [grow|]. intros vertex.
  apply only_grows_bind; [|grow].
  apply only_grows_collect. intros g. apply only_grows_collect. intros sb.
  apply only_grows_binding_flat_resources.
Qed.

#[local] Ltac grow_all :=
  repeat (grow;
          try match goal with
              | |- only_grows (if ?c then _ else _) => destruct c
              | |- only_grows (let (_, _) := ?x in _) => destruct x
              end).

Lemma only_grows_update_bind_groups : only_grows (update_bind_groups X).
Proof. unfold update_bind_groups. grow_all. Qed.

Lemma only_grows_update_shader_hash : only_grows (update_shader_hash X).
Proof. unfold update_shader_hash. grow_all. Qed.

Lemma only_grows_check_resources :
  only_grows (PipelineContainer._check_resources X).
Proof.
  unfold PipelineContainer._check_resources,
    ComputePipelineContainer._check_resources,
    RenderPipelineContainer._check_resources,
    RenderPipelineContainer.update_index_buffer_format,
    RenderPipelineContainer.update_vertex_buffer_descriptors.
  grow_all.
Qed.

Lemma only_grows_check_pipeline_info :
  only_grows (PipelineContainer._check_pipeline_info X).
Proof.
  unfold PipelineContainer._check_pipeline_info,
    ComputePipelineContainer._check_pipeline_info,
    RenderPipelineContainer._check_pipeline_info,
    RenderPipelineContainer.update_index_buffer_format.
  grow_all.
Qed.

Lemma only_grows_check_render_info :
  only_grows PipelineContainer._check_render_info.
Proof.
  unfold PipelineContainer._check_render_info,
    ComputePipelineContainer._check_render_info,
    RenderPipelineContainer._check_render_info.
  grow_all.
Qed.

Lemma only_grows_when_changed label body :
  only_grows body -> only_grows (PipelineContainer.when_changed label body).
Proof.
  intros Hb. unfold PipelineContainer.when_changed.
  apply only_grows_bind; [grow|]. intros ch.
  destruct (bool_decide (label ∈ ch)); [exact Hb|grow].
Qed.

Lemma only_grows_update_shader_data :
  only_grows (PipelineContainer.update_shader_data X).
Proof.
  unfold PipelineContainer.update_shader_data, PipelineContainer.ask.
  apply only_grows_bind; [apply only_grows_when_changed; grow|]. intros _.
  apply only_grows_bind.
  { apply only_grows_when_changed.
    apply only_grows_bind; [grow|]. intros r.
    apply only_grows_bind; [grow|]. intros _.
    apply only_grows_bind; [apply only_grows_collect_flat_resources|].
    intros fl.
    apply only_grows_bind; [grow|]. intros _.
    apply only_grows_bind; [grow|]. intros _.
    apply only_grows_bind; [apply only_grows_check_resources|]. intros _.
    apply only_grows_bind; [apply only_grows_update_shader_hash|]. intros _.
    apply only_grows_update_bind_groups. }
  intros _. apply only_grows_bind.
  { apply only_grows_when_changed.
    apply only_grows_bind; [grow|]. intros p.
    apply only_grows_bind; [grow|]. intros _.
    apply only_grows_bind; [apply only_grows_check_pipeline_info|]. grow. }
  intros _. apply only_grows_when_changed.
  apply only_grows_bind; [grow|]. intros i.
  apply only_grows_bind; [grow|]. intros _.
  apply only_grows_check_render_info.
Qed.

Lemma only_grows_update environment_hash :
  only_grows (PipelineContainer.update X environment_hash).
Proof.
  unfold PipelineContainer.update, PipelineContainer.when_any_changed.
  apply only_grows_bind; [grow|]. intros c.
  apply only_grows_bind.
  { apply only_grows_bind; [grow|]. intros ch.
    destruct (bool_decide (ch = ∅)); [grow|].
    apply only_grows_try; [apply only_grows_update_shader_data|grow|grow]. }
  intros _. apply only_grows_bind; [grow|]. intros c'.
  apply only_grows_bind.
  { destruct (truthy (broken c')); [grow|].
    apply only_grows_try; [apply only_grows_update_wgpu_data|grow|grow]. }
  intros _. apply only_grows_bind; [grow|]. intros ch.
  destruct (bool_decide (ch = ∅)); grow.
Qed.

End Grows.

(** ** Updates, removed environments and draws *)

#[local] Ltac grow_more :=
  repeat (intros;
    first
      [ apply only_grows_ret | apply only_grows_raise | apply only_grows_lift
      | apply only_grows_get_self | apply only_grows_changed_add
      | apply only_grows_modify_self; intros; reflexivity
      | apply only_grows_compile_shaders
      | apply only_grows_compose_pipelines
      | apply only_grows_bind
      | match goal with
        | |- only_grows (match ?x with _ => _ end) => destruct x
        end ]).

(** When the modules of the environment are missing, [update_wgpu_data]
    registers the container with the environment and adds the label of
    the compilation before anything else. *)
Lemma update_wgpu_data_missing X env_hash st :
  wgpu_shaders (self st) !! env_hash = None ->
  PipelineContainer.update_wgpu_data X env_hash st
  = ((shader_modules <- PipelineContainer._compile_shaders X ;;
      modify_self (fun c =>
        set_wgpu_shaders (<[env_hash := shader_modules]> (wgpu_shaders c)) c)) ;;;
     c <- get_self ;;
     match wgpu_pipelines c !! env_hash with
     | None =>
         changed_add "compose_pipeline" ;;;
         c <- get_self ;;
         shader_modules <- match wgpu_shaders c !! env_hash with
                           | Some m => ret m
                           | None => raise (KeyError env_hash)
                           end ;;
         pipelines <- PipelineContainer._compose_pipelines X shader_modules ;;
         modify_self (fun c =>
           set_wgpu_pipelines (<[env_hash := pipelines]> (wgpu_pipelines c)) c)
     | Some _ => ret tt
     end)
      {| self := self st;
         world := {| trace := trace (world st)
                              ++ [register_pipeline_container env_hash];
                     next_handle := next_handle (world st);
                     cache := cache (world st) |};
         changed := {["compile_shader"]} ∪ changed st |}.
Proof.
  intros Hs. unfold PipelineContainer.update_wgpu_data.
  unfold bind at 1. unfold get_self at 1. rewrite Hs. reflexivity.
Qed.

Lemma update_wgpu_data_registers X env_hash st :
  wgpu_shaders (self st) !! env_hash = None ->
  "compile_shader"
  ∈ changed (snd (PipelineContainer.update_wgpu_data X env_hash st))
  /\ exists evs,
       trace (world (snd (PipelineContainer.update_wgpu_data X env_hash st)))
       = trace (world st) ++ register_pipeline_container env_hash :: evs.
Proof.
  intros Hs. rewrite (update_wgpu_data_missing X env_hash st Hs).
  match goal with
  | |- context [bind ?m ?k ?s] =>
      assert (Hg : only_grows (bind m k)) by grow_more;
      destruct (Hg s) as (Hch & [evs Htr] & _)
  end.
  cbn [changed world trace] in Hch, Htr. split.
  - set_solver.
  - exists evs. rewrite Htr. now rewrite <- app_assoc.
Qed.

(** An [update] only adds to the surroundings of a container, whether it
    returns or raises: the labels of the caller are all still in
    [changed], the trace of calls is the old one with new calls after
    it, the cache of shader modules still maps every source it mapped to
    the same module, and the container is of the class it was. *)
Theorem update_only_adds (X : Externals) (environment_hash : string)
  (st : State) :
  grows st (snd (PipelineContainer.update X environment_hash st)).
Proof. apply only_grows_update. Qed.

(** With the label [create], [update_shader_data] treats the resources,
    the pipeline info and the render info as changed: the three labels
    are in [changed] afterwards, whether it returns or raises. *)
Theorem update_shader_data_create (X : Externals) (st : State) :
  "create" ∈ changed st ->
  {["resources"; "pipeline_info"; "render_info"]}
  ⊆ changed (snd (PipelineContainer.update_shader_data X st)).
Proof.
  intros Hc.
  set (st3 := snd ((changed_add "resources" ;;; changed_add "pipeline_info" ;;;
                    changed_add "render_info") st)).
  assert (Hsame : PipelineContainer.update_shader_data X st
                  = PipelineContainer.update_shader_data X st3).
  { unfold PipelineContainer.update_shader_data.
    unfold bind at 1. unfold PipelineContainer.when_changed at 1.
    unfold bind at 1. unfold get_changed at 1.
    rewrite bool_decide_eq_true_2 by exact Hc.
    symmetry.
    unfold bind at 1. unfold PipelineContainer.when_changed at 1.
    unfold bind at 1. unfold get_changed at 1.
    rewrite bool_decide_eq_true_2 by (subst st3; cbn; set_solver).
    assert (E : (changed_add "resources" ;;; changed_add "pipeline_info" ;;;
                 changed_add "render_info") st3
                = (changed_add "resources" ;;; changed_add "pipeline_info" ;;;
                   changed_add "render_info") st).
    { subst st3. unfold bind, changed_add. cbn [snd self world changed].
      f_equal. f_equal. set_solver. }
    rewrite E. reflexivity. }
  rewrite Hsame.
  destruct (only_grows_update_shader_data X st3) as [Hg _].
  subst st3. cbn [changed snd] in Hg.
  unfold bind, changed_add in Hg. cbn [snd changed] in Hg.
  unfold bind, changed_add. cbn [snd changed self world].
  set_solver.
Qed.

(** An [update] that returns and leaves the container not broken has
    set [broken] to [False] and has stored shader modules and pipelines
    for the environment it was called with. *)
Theorem update_settles (X : Externals) (environment_hash : string)
  (st st' : State) :
  PipelineContainer.update X environment_hash st = (inr tt, st') ->
  truthy (broken (self st')) = false ->
  broken (self st') = PyBool false
  /\ is_Some (wgpu_shaders (self st')
              !! env_hash_of st environment_hash)
  /\ is_Some (wgpu_pipelines (self st')
              !! env_hash_of st environment_hash).
Proof.
  rewrite update_unfold. cbv zeta. intros H Hb.
  assert (Hgpu : forall s,
    (if truthy (broken (self s)) then (inr tt, log_changes s)
     else
       match PipelineContainer.update_wgpu_data X
               (env_hash_of st environment_hash) s with
       | (inl e, s2) => (inl e, mark (PyInt 2) s2)
       | (inr _, s2) => (inr tt, log_changes (mark (PyBool false) s2))
       end) = (inr tt, st') ->
    broken (self st') = PyBool false
    /\ is_Some (wgpu_shaders (self st') !! env_hash_of st environment_hash)
    /\ is_Some (wgpu_pipelines (self st')
                !! env_hash_of st environment_hash)).
  { intros s. destruct (truthy (broken (self s))) eqn:Hs.
    - intros E. injection E as <-. rewrite log_changes_self in Hb.
      congruence.
    - destruct (PipelineContainer.update_wgpu_data X
                  (env_hash_of st environment_hash) s) as [[e|[]] s2] eqn:Hu;
        [discriminate|].
      intros E. injection E as <-. rewrite log_changes_self.
      split; [reflexivity|].
      destruct (update_wgpu_data_cases _ _ _ _ _ Hu)
        as (shaders & _ & Hs1 & [(e & He & _)|(_ & Hsome & Hp)]);
        [discriminate|].
      unfold mark, with_self. cbn [self].
      rewrite shaders_set_broken, pipelines_set_broken, Hs1.
      split; [exact Hsome|].
      destruct Hp as [[-> Hp]|[p ->]]; [exact Hp|].
      rewrite lookup_insert_eq. eauto. }
  destruct (bool_decide (changed st = ∅)); [now apply (Hgpu st)|].
  destruct (PipelineContainer.update_shader_data X st) as [[e|u] s1];
    [discriminate|]. now apply (Hgpu (mark (PyInt 0) s1)).
Qed.

(** [remove_env_hash] forgets the shader modules and the pipelines of
    one environment and nothing else: what the container holds for other
    environments, its shader data, its [broken] flag, the world and the
    labels are as before.  A later [update_wgpu_data] for that
    environment starts over: it registers the container with the
    environment again and adds the label [compile_shader]. *)
Theorem remove_env_hash_spec (X : Externals) (env_hash : string)
  (st : State) :
  let r := PipelineContainer.remove_env_hash env_hash st in
  fst r = inr tt
  /\ wgpu_shaders (self (snd r)) !! env_hash = None
  /\ wgpu_pipelines (self (snd r)) !! env_hash = None
  /\ (forall other, other <> env_hash ->
        wgpu_shaders (self (snd r)) !! other
        = wgpu_shaders (self st) !! other
        /\ wgpu_pipelines (self (snd r)) !! other
           = wgpu_pipelines (self st) !! other)
  /\ shader_data (self (snd r)) = shader_data (self st)
  /\ broken (self (snd r)) = broken (self st)
  /\ world (snd r) = world st
  /\ changed (snd r) = changed st
  /\ "compile_shader"
     ∈ changed (snd (PipelineContainer.update_wgpu_data X env_hash (snd r)))
  /\ exists evs,
       trace (world (snd (PipelineContainer.update_wgpu_data X env_hash
                            (snd r))))
       = trace (world st) ++ register_pipeline_container env_hash :: evs.
Proof.
  cbv zeta.
  assert (Hs : wgpu_shaders
                 (self (snd (PipelineContainer.remove_env_hash env_hash st)))
               !! env_hash = None) by apply lookup_delete_eq.
  split; [reflexivity|]. split; [exact Hs|].
  split; [apply lookup_delete_eq|]. split.
  { intros other Hne. split; apply lookup_delete_ne; congruence. }
  split; [reflexivity|]. split; [reflexivity|]. split; [reflexivity|].
  split; [reflexivity|].
  apply (update_wgpu_data_registers X) in Hs. exact Hs.
Qed.

(** ** The calls of a draw *)

Lemma after_calls_nil st : after_calls [] st = st.
Proof.
  destruct st as [c [t n k] ch]. unfold after_calls. cbn.
  now rewrite app_nil_r.
Qed.

Lemma after_calls_app a b st :
  after_calls b (after_calls a st) = after_calls (a ++ b) st.
Proof.
  unfold after_calls. cbn [self world changed trace next_handle cache].
  rewrite <- app_assoc, length_app. do 2 f_equal. lia.
Qed.

Section DrawCalls.

Variable X : Externals.
Hypothesis Hquiet : never_raises X.

Lemma gpu_call_quiet ev st :
  gpu_call X ev st = (inr (next_handle (world st)), after_calls [ev] st).
Proof.
  unfold gpu_call, call, bind, get_world, emit, modify_world.
  cbn [world]. rewrite Hquiet. reflexivity.
Qed.

Lemma pass_call_quiet ev st :
  (gpu_call X ev ;;; ret tt) st = (inr tt, after_calls [ev] st).
Proof. unfold bind at 1. now rewrite gpu_call_quiet. Qed.

Lemma for_each_quiet A (f : A -> event) (l : list A) : forall st,
  for_each l (fun x => gpu_call X (f x) ;;; ret tt) st
  = (inr tt, after_calls (map f l) st).
Proof.
  induction l as [|x l IH]; intros st; simpl.
  - now rewrite after_calls_nil.
  - unfold bind at 1. rewrite pass_call_quiet. rewrite IH.
    now rewrite after_calls_app.
Qed.

Lemma vertex_buffers_quiet (buffers : list (Z * Buffer)) : forall st,
  Forall (fun sb => is_Some (buf_wgpu_buffer (snd sb))) buffers ->
  for_each buffers
    (fun sb =>
       match buf_wgpu_buffer (snd sb) with
       | None => raise (AttributeError "_wgpu_buffer")
       | Some (_, native) =>
           gpu_call X
             (set_vertex_buffer (fst sb) native
                (fst (buf_vertex_byte_range (snd sb)))
                (snd (buf_vertex_byte_range (snd sb)))) ;;;
           ret tt
       end) st
  = (inr tt, after_calls (vertex_buffer_calls buffers) st).
Proof.
  induction buffers as [|sb buffers IH]; intros st Hup; simpl.
  - now rewrite after_calls_nil.
  - inversion Hup as [|? ? [[rev native] Hsb] Hrest]; subst.
    unfold bind at 1. rewrite Hsb. rewrite pass_call_quiet.
    rewrite IH by exact Hrest. now rewrite after_calls_app.
Qed.

End DrawCalls.

Lemma draw_calls_quiet (X : Externals) (environment_hash : string)
  (pass_index : nat) (render_mask : Z) (st : State) (mask indices : pyval)
  (items : list pyval) (r : Resources) (passes : gmap nat handle)
  (pipeline : handle) :
  never_raises X ->
  truthy (broken (self st)) = false ->
  subscript_opt (render_info (self st)) "render_mask" = inr mask ->
  is_int mask = true ->
  Z.land render_mask (int_value mask) <> 0%Z ->
  wgpu_pipelines (self st) !! environment_hash = Some passes ->
  passes !! pass_index = Some pipeline ->
  subscript_opt (render_info (self st)) "indices" = inr indices ->
  sequence_items indices = Some items ->
  resources (self st) = Some r ->
  has_key r "index_buffer" = true ->
  has_key r "vertex_buffers" = true ->
  Forall (fun sb => is_Some (buf_wgpu_buffer (snd sb))) (vertex_buffers r) ->
  RenderPipelineContainer.draw X environment_hash pass_index render_mask st
  = match index_buffer r with
    | None =>
        (inr tt,
         after_calls
           (set_pipeline pipeline
            :: vertex_buffer_calls (vertex_buffers r)
            ++ bind_group_calls 99 (wgpu_bind_groups (self st))
            ++ [pass_draw items]) st)
    | Some _ =>
        (inl (AttributeError "size"),
         after_calls
           (set_pipeline pipeline
            :: vertex_buffer_calls (vertex_buffers r)
            ++ bind_group_calls 99 (wgpu_bind_groups (self st))) st)
    end.
Proof.
  intros Hquiet Hb Hmask Hint Hland Hp Hpass Hind Hitems Hr Hki Hkv Hup.
  unfold RenderPipelineContainer.draw.
  unfold bind at 1. unfold get_self at 1. rewrite Hb.
  unfold bind at 1. rewrite Hmask. unfold lift at 1, ret at 1.
  rewrite Hint. cbn [negb].
  destruct (Z.eqb_spec (Z.land render_mask (int_value mask)) 0) as [E|_];
    [contradiction|].
  unfold bind at 1. rewrite Hp. unfold ret at 1.
  unfold bind at 1. rewrite Hpass. unfold ret at 1.
  unfold bind at 1. rewrite Hind. unfold lift at 1, ret at 1.
  unfold bind at 1. unfold self_resources. rewrite Hr.
  unfold lift at 1, ret at 1.
  unfold bind at 1. unfold item at 1. rewrite Hki.
  unfold lift at 1, ret at 1.
  unfold bind at 1. unfold item at 1. rewrite Hkv.
  unfold lift at 1, ret at 1.
  unfold bind at 1. rewrite (gpu_call_quiet X Hquiet).
  unfold bind at 1. rewrite (vertex_buffers_quiet X Hquiet) by exact Hup.
  unfold bind at 1.
  rewrite (for_each_quiet X Hquiet _
             (fun ig => set_bind_group (fst ig) (snd ig) 0 99)).
  rewrite !after_calls_app.
  assert (Hun : unpack indices = inr items)
    by (destruct indices; try discriminate; injection Hitems as <-;
        reflexivity).
  unfold bind_group_calls.
  destruct (index_buffer r) as [ib|].
  - unfold bind at 1. unfold buf_size, lift. reflexivity.
  - unfold bind at 1. rewrite Hun. unfold lift at 1, ret at 1.
    unfold bind at 1. rewrite (gpu_call_quiet X Hquiet). unfold ret.
    rewrite !after_calls_app. f_equal. f_equal.
    cbn [app]. now rewrite <- !app_assoc.
Qed.

(** A [draw] on passes that raise nothing, for a container that is not
    broken and holds a pipeline for the environment and the pass, whose
    render mask overlaps the mask asked for and whose vertex buffers are
    uploaded, makes exactly these calls, in this order: [set_pipeline],
    one [set_vertex_buffer] per vertex buffer, one [set_bind_group] per
    bind group at its index, and then, without an index buffer, [draw]
    with the stored indices; nothing else changes.  With an index buffer
    it raises [AttributeError] once the bind groups are set: the
    arguments of [set_index_buffer] read the [size] of the buffer, which
    a [Buffer] does not have, so neither [set_index_buffer] nor
    [draw_indexed] is called. *)
Theorem draw_calls_spec (X : Externals) (environment_hash : string)
  (pass_index : nat) (render_mask : Z) (st : State) (mask indices : pyval)
  (items : list pyval) (r : Resources) (passes : gmap nat handle)
  (pipeline : handle) :
  never_raises X ->
  truthy (broken (self st)) = false ->
  subscript_opt (render_info (self st)) "render_mask" = inr mask ->
  is_int mask = true ->
  Z.land render_mask (int_value mask) <> 0%Z ->
  wgpu_pipelines (self st) !! environment_hash = Some passes ->
  passes !! pass_index = Some pipeline ->
  subscript_opt (render_info (self st)) "indices" = inr indices ->
  sequence_items indices = Some items ->
  resources (self st) = Some r ->
  has_key r "index_buffer" = true ->
  has_key r "vertex_buffers" = true ->
  Forall (fun sb => is_Some (buf_wgpu_buffer (snd sb))) (vertex_buffers r) ->
  RenderPipelineContainer.draw X environment_hash pass_index render_mask st
  = match index_buffer r with
    | None =>
        (inr tt,
         after_calls
           (set_pipeline pipeline
            :: vertex_buffer_calls (vertex_buffers r)
            ++ bind_group_calls 99 (wgpu_bind_groups (self st))
            ++ [pass_draw items]) st)
    | Some _ =>
        (inl (AttributeError "size"),
         after_calls
           (set_pipeline pipeline
            :: vertex_buffer_calls (vertex_buffers r)
            ++ bind_group_calls 99 (wgpu_bind_groups (self st))) st)
    end.
Proof. apply draw_calls_quiet. Qed.

Lemma draw_masked (X : Externals) (environment_hash : string)
  (pass_index : nat) (render_mask : Z) (st : State) (mask : pyval) :
  truthy (broken (self st)) = false ->
  subscript_opt (render_info (self st)) "render_mask" = inr mask ->
  is_int mask = true ->
  Z.land render_mask (int_value mask) = 0%Z ->
  RenderPipelineContainer.draw X environment_hash pass_index render_mask st
  = (inr tt, st).
Proof.
  intros Hb Hmask Hint Hland. unfold RenderPipelineContainer.draw.
  unfold bind at 1. unfold get_self at 1. rewrite Hb.
  unfold bind at 1. rewrite Hmask. unfold lift at 1, ret at 1.
  rewrite Hint, Hland. reflexivity.
Qed.

(** A [draw] for a render mask that does not overlap the render mask of
    the container returns at once: no call is made and nothing
    changes. *)
Theorem draw_masked_out (X : Externals) (environment_hash : string)
  (pass_index : nat) (render_mask : Z) (st : State) (mask : pyval) :
  truthy (broken (self st)) = false ->
  subscript_opt (render_info (self st)) "render_mask" = inr mask ->
  is_int mask = true ->
  Z.land render_mask (int_value mask) = 0%Z ->
  RenderPipelineContainer.draw X environment_hash pass_index render_mask st
  = (inr tt, st).
Proof. apply draw_masked. Qed.

(** A [draw] for an environment or a pass the container has no pipeline
    for raises [KeyError] before any call on the pass: for an environment
    it was never updated for, and for a pass of that environment that has
    no pipeline. *)
Theorem draw_without_pipeline (X : Externals) (environment_hash : string)
  (pass_index : nat) (render_mask : Z) (st : State) (mask : pyval) :
  truthy (broken (self st)) = false ->
  subscript_opt (render_info (self st)) "render_mask" = inr mask ->
  is_int mask = true ->
  Z.land render_mask (int_value mask) <> 0%Z ->
  (wgpu_pipelines (self st) !! environment_hash = None ->
   RenderPipelineContainer.draw X environment_hash pass_index render_mask st
   = (inl (KeyError environment_hash), st))
  /\ (forall passes,
        wgpu_pipelines (self st) !! environment_hash = Some passes ->
        passes !! pass_index = None ->
        RenderPipelineContainer.draw X environment_hash pass_index
          render_mask st
        = (inl (KeyError (PyStr.of_nat pass_index)), st)).
Proof.
  intros Hb Hmask Hint Hland.
  split.
  - intros Hp. unfold RenderPipelineContainer.draw.
    unfold bind at 1. unfold get_self at 1. rewrite Hb.
    unfold bind at 1. rewrite Hmask. unfold lift at 1, ret at 1.
    rewrite Hint. cbn [negb].
    destruct (Z.eqb_spec (Z.land render_mask (int_value mask)) 0) as [E|_];
      [contradiction|].
    unfold bind at 1. rewrite Hp. reflexivity.
  - intros passes Hp Hpass. unfold RenderPipelineContainer.draw.
    unfold bind at 1. unfold get_self at 1. rewrite Hb.
    unfold bind at 1. rewrite Hmask. unfold lift at 1, ret at 1.
    rewrite Hint. cbn [negb].
    destruct (Z.eqb_spec (Z.land render_mask (int_value mask)) 0) as [E|_];
      [contradiction|].
    unfold bind at 1. rewrite Hp. unfold ret at 1.
    unfold bind at 1. rewrite Hpass. reflexivity.
Qed.

(** ** Bind group descriptors and vertex buffer descriptors *)

Lemma drop_empty_spec A B (l : list (list A)) : forall (m : list B),
  length l = length m ->
  exists e e',
    l = e ++ fst (drop_empty l m)
    /\ m = e' ++ snd (drop_empty l m)
    /\ Forall (fun g => g = []) e
    /\ length e = length e'
    /\ match fst (drop_empty l m) with [] :: _ => False | _ => True end.
Proof.
  induction l as [|g l IH]; intros m Hlen.
  - exists [], []. destruct m; [|discriminate]. simpl. auto.
  - destruct m as [|x m]; [discriminate|]. injection Hlen as Hlen.
    destruct g as [|a g].
    + destruct (IH m Hlen) as (e & e' & H1 & H2 & H3 & H4 & H5).
      exists ([] :: e), (x :: e'). simpl.
      split; [now f_equal|]. split; [now f_equal|].
      split; [now constructor|]. split; [now f_equal|exact H5].
    + exists [], []. simpl. auto.
Qed.

Lemma strip_trailing_cut (A B : Type) (bg : list (list A))
  (bgl : list B) :
  length bg = length bgl ->
  exists tail tail',
    bg = fst (strip_trailing bg bgl) ++ tail
    /\ bgl = snd (strip_trailing bg bgl) ++ tail'
    /\ Forall (fun g => g = []) tail
    /\ length tail = length tail'
    /\ match rev (fst (strip_trailing bg bgl)) with
       | [] :: _ => False
       | _ => True
       end.
Proof.
  intros Hlen. unfold strip_trailing.
  destruct (drop_empty_spec A B (rev bg) (rev bgl)) as
      (e & e' & H1 & H2 & H3 & H4 & H5);
    [now rewrite !length_rev|].
  destruct (drop_empty (rev bg) (rev bgl)) as [a b]. simpl in *.
  exists (rev e), (rev e'). rewrite rev_involutive.
  split; [now rewrite <- rev_app_distr, <- H1, rev_involutive|].
  split; [now rewrite <- rev_app_distr, <- H2, rev_involutive|].
  split; [|split; [now rewrite !length_rev|exact H5]].
  apply List.Forall_forall. intros g Hg. apply in_rev in Hg.
  rewrite List.Forall_forall in H3. now apply H3.
Qed.

(** The clean-up of the descriptors removes empty groups from the end
    and nothing else: what is cut off are empty groups, the two lists are
    cut at the same place, and the last group that is left has a
    binding. *)
Theorem strip_trailing_spec (A B : Type) (bg : list (list A))
  (bgl : list B) :
  length bg = length bgl ->
  exists tail tail',
    bg = fst (strip_trailing bg bgl) ++ tail
    /\ bgl = snd (strip_trailing bg bgl) ++ tail'
    /\ Forall (fun g => g = []) tail
    /\ length tail = length tail'
    /\ match rev (fst (strip_trailing bg bgl)) with
       | [] :: _ => False
       | _ => True
       end.
Proof. apply strip_trailing_cut. Qed.

Lemma slots_descriptors_lengths w u slots ds ls :
  slots_descriptors w u slots = inr (ds, ls) ->
  length ds = length slots /\ length ls = length slots.
Proof.
  revert ds ls. induction slots as [|[slot b] slots IH]; intros ds ls; simpl.
  - intros H. injection H as <- <-. auto.
  - destruct (Binding.get_bind_group_descriptors w u b slot) as [e|[d l]];
      [discriminate|].
    destruct (slots_descriptors w u slots) as [e|[ds' ls']]; [discriminate|].
    intros H. injection H as <- <-. destruct (IH _ _ eq_refl). simpl. lia.
Qed.

Lemma Forall2_pad A B (P : list A -> list B -> Prop) n bg bgl :
  P [] [] -> Forall2 P bg bgl -> Forall2 P (pad n bg) (pad n bgl).
Proof.
  intros Hnil H. unfold pad.
  assert (Hlen : length bg = length bgl) by (induction H; simpl; auto).
  rewrite Hlen.
  apply List.Forall2_app; [exact H|].
  induction (S n - length bgl) as [|k IH]; simpl; constructor; auto.
Qed.

Lemma Forall2_extend_at A B (P : list A -> list B -> Prop) ds ls :
  (forall a b, P a b -> P (a ++ ds) (b ++ ls)) ->
  forall n bg bgl,
    Forall2 P bg bgl ->
    Forall2 P (extend_at n ds bg) (extend_at n ls bgl).
Proof.
  intros Hext n bg bgl H. revert n.
  induction H as [|a b bg bgl Hab H IH]; intros n; simpl.
  - destruct n; constructor.
  - destruct n; constructor; auto.
Qed.

Lemma groups_descriptors_Forall2 (w : WgpuEnums) (u : Utils)
  (groups : list (nat * list (Z * Binding.t)))
  (bg bg' : list (list bind_entry)) (bgl bgl' : list (list layout_entry)) :
  Forall2 (fun a b => length a = length b) bg bgl ->
  groups_descriptors w u groups bg bgl = inr (bg', bgl') ->
  Forall2 (fun a b => length a = length b) bg' bgl'.
Proof.
  revert bg bgl. induction groups as [|[g slots] groups IH];
    intros bg bgl Hal; simpl.
  - intros H. now injection H as <- <-.
  - destruct (slots_descriptors w u (sorted_items Z.leb slots))
      as [e|[ds ls]] eqn:Hs; [discriminate|].
    apply IH. apply slots_descriptors_lengths in Hs as [Hd Hl].
    apply Forall2_extend_at.
    + intros a b Hab. rewrite !length_app. lia.
    + apply Forall2_pad; [reflexivity|exact Hal].
Qed.

(** The entries and the layouts of the bind groups stay aligned: when
    [update_bind_groups] has computed the descriptors, it has as many
    groups of entries as groups of layouts, and every group has as many
    entries as layouts. *)
Theorem groups_descriptors_aligned (w : WgpuEnums) (u : Utils)
  (groups : list (nat * list (Z * Binding.t)))
  (bg bg' : list (list bind_entry)) (bgl bgl' : list (list layout_entry)) :
  Forall2 (fun a b => length a = length b) bg bgl ->
  groups_descriptors w u groups bg bgl = inr (bg', bgl') ->
  Forall2 (fun a b => length a = length b) bg' bgl'.
Proof. apply groups_descriptors_Forall2. Qed.

(** The vertex buffer descriptors follow the vertex buffers one to one:
    on success there is one descriptor per buffer, in the order of the
    buffers, at the shader location of the slot of its buffer, with the
    stride [nbytes // nitems] and the converted format; and a buffer
    without items makes the computation raise. *)
Theorem vbo_descriptors_spec (X : Externals) (buffers : list (Z * Buffer)) :
  (forall ds,
     RenderPipelineContainer.vbo_descriptors X buffers = inr ds ->
     Forall2
       (fun sb d =>
          shader_location d = fst sb
          /\ buf_nitems (snd sb) <> 0%Z
          /\ array_stride d
             = Z.div (buf_nbytes (snd sb)) (buf_nitems (snd sb))
          /\ to_vertex_format (utils X) (buf_format (snd sb))
             = inr (attr_format d)
          /\ attr_offset d = 0%Z
          /\ step_mode d = VertexStepMode_vertex X) buffers ds)
  /\ (Exists (fun sb => buf_nitems (snd sb) = 0%Z) buffers ->
      exists e, RenderPipelineContainer.vbo_descriptors X buffers = inl e).
Proof.
  split.
  - induction buffers as [|[slot b] buffers IH]; intros ds; simpl.
    + intros H. injection H as <-. constructor.
    + destruct (Z.eqb_spec (buf_nitems b) 0) as [E|Hne]; [discriminate|].
      destruct (to_vertex_format (utils X) (buf_format b)) as [e|f] eqn:Hf;
        [discriminate|].
      destruct (RenderPipelineContainer.vbo_descriptors X buffers)
        as [e|ds']; [discriminate|].
      intros H. injection H as <-. constructor; [|now apply IH].
      simpl. auto 10.
  - induction buffers as [|[slot b] buffers IH]; intros Hex; simpl.
    + inversion Hex.
    + destruct (Z.eqb_spec (buf_nitems b) 0) as [E|Hne]; [eauto|].
      destruct (to_vertex_format (utils X) (buf_format b)); [eauto|].
      inversion Hex as [? ? H0|? ? Hrest]; subst; [contradiction|].
      destruct (IH Hrest) as [e ->]. eauto.
Qed.

Lemma gpu_call_self X ev st : self (snd (gpu_call X ev st)) = self st.
Proof. apply (keeps_view_gpu_call X (fun c => c)). Qed.

Lemma layouts_loop X (l : list (list layout_entry)) : forall st st1,
  for_each l
    (fun d =>
       layout <- gpu_call X (create_bind_group_layout d) ;;
       modify_self (fun c =>
         set_bind_groups (bind_group_layout_descriptors c)
           (wgpu_bind_group_layouts c ++ [layout]) (wgpu_bind_groups c) c))
    st = (inr tt, st1) ->
  length (wgpu_bind_group_layouts (self st1))
  = length (wgpu_bind_group_layouts (self st)) + length l
  /\ bind_group_layout_descriptors (self st1)
     = bind_group_layout_descriptors (self st).
Proof.
  induction l as [|d l IH]; intros st st1; simpl.
  - intros H. injection H as <-. split; [lia|reflexivity].
  - unfold bind at 1. unfold bind at 1.
    pose proof (gpu_call_self X (create_bind_group_layout d) st) as Hs.
    destruct (gpu_call X (create_bind_group_layout d) st) as [[e|h] s1];
      [discriminate|]. cbn [snd] in Hs.
    unfold modify_self at 1. intros H. apply IH in H as [H1 H2].
    cbn [self] in H1, H2. rewrite Hs in H1, H2.
    change (wgpu_bind_group_layouts (set_bind_groups ?a ?b ?c ?d))
      with b in H1.
    change (bind_group_layout_descriptors (set_bind_groups ?a ?b ?c ?d))
      with a in H2.
    rewrite length_app in H1. simpl in H1. split; [lia|exact H2].
Qed.

Lemma groups_loop X (l : list (list bind_entry * handle)) : forall st st1,
  for_each l
    (fun dl =>
       bind_group <- gpu_call X (create_bind_group (snd dl) (fst dl)) ;;
       modify_self (fun c =>
         set_bind_groups (bind_group_layout_descriptors c)
           (wgpu_bind_group_layouts c) (wgpu_bind_groups c ++ [bind_group]) c))
    st = (inr tt, st1) ->
  length (wgpu_bind_groups (self st1))
  = length (wgpu_bind_groups (self st)) + length l
  /\ bind_group_layout_descriptors (self st1)
     = bind_group_layout_descriptors (self st)
  /\ wgpu_bind_group_layouts (self st1) = wgpu_bind_group_layouts (self st).
Proof.
  induction l as [|d l IH]; intros st st1; simpl.
  - intros H. injection H as <-. split; [lia|auto].
  - unfold bind at 1. unfold bind at 1.
    pose proof (gpu_call_self X (create_bind_group (snd d) (fst d)) st) as Hs.
    destruct (gpu_call X (create_bind_group (snd d) (fst d)) st)
      as [[e|h] s1]; [discriminate|]. cbn [snd] in Hs.
    unfold modify_self at 1. intros H. apply IH in H as (H1 & H2 & H3).
    cbn [self] in H1, H2, H3. rewrite Hs in H1, H2, H3.
    change (wgpu_bind_groups (set_bind_groups ?a ?b ?c ?d)) with c in H1.
    change (bind_group_layout_descriptors (set_bind_groups ?a ?b ?c ?d))
      with a in H2.
    change (wgpu_bind_group_layouts (set_bind_groups ?a ?b ?c ?d))
      with b in H3.
    rewrite length_app in H1. simpl in H1. split; [lia|auto].
Qed.

(** The second half of [update_bind_groups]: the bind groups are made
    anew, one per pair of a group of entries and a layout. *)
Lemma bind_groups_tail X (bgd : list (list bind_entry)) st st1 :
  (modify_self (fun c =>
     set_bind_groups (bind_group_layout_descriptors c)
       (wgpu_bind_group_layouts c) [] c) ;;;
   c <- get_self ;;
   for_each (zip bgd (wgpu_bind_group_layouts c))
     (fun dl =>
        bind_group <- gpu_call X (create_bind_group (snd dl) (fst dl)) ;;
        modify_self (fun c =>
          set_bind_groups (bind_group_layout_descriptors c)
            (wgpu_bind_group_layouts c) (wgpu_bind_groups c ++ [bind_group])
            c))) st = (inr tt, st1) ->
  length (wgpu_bind_groups (self st1))
  = Nat.min (length bgd) (length (wgpu_bind_group_layouts (self st)))
  /\ bind_group_layout_descriptors (self st1)
     = bind_group_layout_descriptors (self st)
  /\ wgpu_bind_group_layouts (self st1) = wgpu_bind_group_layouts (self st).
Proof.
  unfold bind at 1. unfold modify_self at 1.
  unfold bind at 1. unfold get_self at 1. cbn [self].
  intros H. apply groups_loop in H as (H1 & H2 & H3).
  cbn [self] in H1, H2, H3.
  change (wgpu_bind_groups (set_bind_groups ?a ?b ?c ?d)) with c in H1.
  change (bind_group_layout_descriptors (set_bind_groups ?a ?b ?c ?d))
    with a in H2.
  change (wgpu_bind_group_layouts (set_bind_groups ?a ?b ?c ?d)) with b in H3.
  change (wgpu_bind_group_layouts (set_bind_groups ?a ?b ?c ?d)) with b in H1.
  unfold zip in H1. rewrite length_combine in H1. simpl in H1.
  auto.
Qed.

(** A successful [update_bind_groups] leaves one bind group layout and
    one bind group per group of the stored layout descriptors, for a
    container that had one layout per group before (as a new container
    has, with none of either). *)
Theorem update_bind_groups_counts (X : Externals) (st st1 : State) :
  length (wgpu_bind_group_layouts (self st))
  = length (bind_group_layout_descriptors (self st)) ->
  update_bind_groups X st = (inr tt, st1) ->
  length (wgpu_bind_group_layouts (self st1))
  = length (bind_group_layout_descriptors (self st1))
  /\ length (wgpu_bind_groups (self st1))
     = length (bind_group_layout_descriptors (self st1)).
Proof.
  intros Hinv. unfold update_bind_groups.
  unfold bind at 1. unfold get_self at 1.
  unfold bind at 1.
  destruct (self_resources (self st) "bindings") as [e|r]; [discriminate|].
  unfold lift at 1, ret at 1.
  unfold bind at 1.
  destruct (item r "bindings" bindings) as [e|groups]; [discriminate|].
  unfold lift at 1, ret at 1.
  unfold bind at 1.
  destruct (groups_descriptors (wgpu X) (utils X)
              (sorted_items Nat.leb groups) [] []) as [e|[bg bgl]] eqn:Hg;
    [discriminate|].
  unfold lift at 1, ret at 1. cbn [fst snd].
  apply groups_descriptors_Forall2 in Hg; [|constructor].
  assert (Hlen0 : length bg = length bgl) by (induction Hg; simpl; auto).
  destruct (strip_trailing_cut _ _ bg bgl Hlen0)
    as (tail & tail' & Hb & Hbl & _ & Ht & _).
  destruct (strip_trailing bg bgl) as [bgd bgld]. cbn [fst snd] in Hb, Hbl.
  assert (Hlen : length bgd = length bgld).
  { rewrite Hb, Hbl, !length_app in Hlen0. lia. }
  unfold bind at 1.
  destruct (bool_decide_reflect
              (bind_group_layout_descriptors (self st) = bgld)) as [Heq|Hne].
  - unfold ret at 1. intros H. apply bind_groups_tail in H as (H1 & H2 & H3).
    rewrite H2, H3, H1, Hinv, Heq. split; [reflexivity|lia].
  - unfold bind at 1. unfold modify_self at 1.
    unfold bind at 1. unfold modify_self at 1. cbn [self].
    match goal with
    | |- context [for_each bgld ?body ?s] =>
        destruct (for_each bgld body s) as [[e|[]] s1] eqn:Hloop;
          [discriminate|]
    end.
    apply layouts_loop in Hloop as [L1 L2]. cbn [self] in L1, L2.
    intros H. apply bind_groups_tail in H as (H1 & H2 & H3).
    rewrite H2, H3, H1, L1, L2. cbn. split; lia.
Qed.

(** ** Varyings: reads in the vertex shader, and sources without
    varyings *)

Lemma scan_getters_no_vertex_read a lines : forall n gs gs' i line name,
  scan_getters a n lines gs = inr gs' ->
  nth_error lines i = Some line ->
  In name (getters_of_line line) ->
  set_on_line a name (n + i) = false ->
  in_vs_at lines i (in_vertex_shader gs) = false.
Proof.
  induction lines as [|l lines IH]; intros n gs gs' i line name H Hi Hin Hs;
    simpl in H; [destruct i; discriminate|].
  destruct (getter_step a n l gs) as [e'|gs1] eqn:H1; [discriminate|].
  apply getter_step_inr in H1 as [Hvs H1].
  rewrite in_vs_at_cons. destruct i as [|i]; simpl in Hi.
  - injection Hi as ->. rewrite Nat.add_0_r in Hs.
    eapply record_getters_complete in H1 as [Hv _]; eauto.
  - rewrite <- Hvs. eapply IH; [exact H|exact Hi|exact Hin|].
    now replace (S n + i) with (n + S i) by lia.
Qed.

(** A varying may only be written in the vertex shader: a source with a
    line of the vertex function that reads a varying it does not assign
    on that line is refused with [TypeError]. *)
Theorem resolve_varyings_vertex_read (src name : string) (i : nat) :
  reads_in_vertex (prepare_lines src) name i ->
  exists e, resolve_varyings src = inl e /\ is_TypeError e = true.
Proof.
  intros (line & Hi & Hin & Hna & Hvs).
  unfold resolve_varyings, resolve_varyings_lines.
  destruct (scan_setters 0 (prepare_lines src) varyings_init)
    as [e|st] eqn:Hset.
  { exists e. split; [reflexivity|]. eapply scan_setters_inl; eassumption. }
  destruct (scan_getters (assigned_varyings st) 0 (prepare_lines src) _)
    as [e|gs] eqn:Hget.
  { exists e. split; [reflexivity|]. eapply scan_getters_inl; eassumption. }
  exfalso.
  assert (Hs : set_on_line (assigned_varyings st) name (0 + i) = false).
  { destruct (set_on_line (assigned_varyings st) name (0 + i)) eqn:E;
      [|reflexivity].
    apply (scan_setters_set_on_line _ _ _ _ Hset) in E as [E|E].
    - discriminate.
    - apply assigns_at_0 in E. contradiction. }
  pose proof (scan_getters_no_vertex_read _ _ _ _ _ _ _ _ Hget Hi Hin Hs)
    as Hv.
  simpl in Hv. congruence.
Qed.

Lemma scan_setters_none lines : forall n st,
  forallb (fun l => match re_varying_setter l with
                    | Some _ => false
                    | None => true
                    end) lines = true ->
  scan_setters n lines st = inr st.
Proof.
  induction lines as [|l lines IH]; intros n st H; simpl in *;
    [reflexivity|].
  apply andb_true_iff in H as [Hl H]. unfold setter_step.
  destruct (re_varying_setter l); [discriminate|]. now apply IH.
Qed.

Lemma scan_getters_none a lines : forall n gs,
  struct_insert_pos gs = None ->
  forallb (fun l =>
             match getters_of_line l with [] => true | _ => false end
             && negb (PyStr.contains "Varyings"
                        (PyStr.split_head "//" (PyStr.strip l)))) lines
  = true ->
  exists gs', scan_getters a n lines gs = inr gs'
              /\ used gs' = used gs /\ struct_insert_pos gs' = None.
Proof.
  induction lines as [|l lines IH]; intros n gs Hp H; simpl in *;
    [eauto|].
  apply andb_true_iff in H as [Hl H]. apply andb_true_iff in Hl as [Hg Hc].
  apply negb_true_iff in Hc.
  unfold getter_step. unfold getters_of_line in Hg.
  destruct (re_varying_getter _); [|discriminate]. simpl record_getters.
  rewrite Hp, Hc. cbv iota.
  match goal with
  | |- context [scan_getters a (S n) lines ?g] =>
      destruct (IH (S n) g eq_refl H) as (gs' & -> & Hu & Hp')
  end.
  exists gs'. auto.
Qed.

(** A source without varyings passes [resolve_varyings] unchanged, up to
    the trimming of blank lines at its ends: when no line assigns or
    reads a varying and none mentions [Varyings], the result is the
    prepared lines joined again. *)
Theorem resolve_varyings_no_varyings (src : string) :
  no_varyings (prepare_lines src) = true ->
  resolve_varyings src = inr (PyStr.join PyStr.nl (prepare_lines src)).
Proof.
  unfold no_varyings. intros H.
  assert (Hset : forallb (fun l => match re_varying_setter l with
                                   | Some _ => false
                                   | None => true
                                   end) (prepare_lines src) = true).
  { rewrite forallb_forall in *. intros l Hl. specialize (H l Hl).
    apply andb_true_iff in H as [H _]. now apply andb_true_iff in H as [H _]. }
  assert (Hget : forallb (fun l =>
             match getters_of_line l with [] => true | _ => false end
             && negb (PyStr.contains "Varyings"
                        (PyStr.split_head "//" (PyStr.strip l))))
            (prepare_lines src) = true).
  { rewrite forallb_forall in *. intros l Hl. specialize (H l Hl).
    apply andb_true_iff in H as [H Hc]. apply andb_true_iff in H as [_ Hg].
    now rewrite Hg, Hc. }
  unfold resolve_varyings, resolve_varyings_lines.
  rewrite (scan_setters_none _ _ _ Hset).
  match goal with
  | |- context [scan_getters ?a 0 ?ls ?g] =>
      destruct (scan_getters_none a ls 0 g eq_refl Hget)
        as (gs' & -> & Hu & Hp)
  end.
  simpl in Hu. rewrite Hu, Hp. reflexivity.
Qed.

(** ** Template variables and binding definitions of a shader *)

(** Setting and getting a template variable: for a key that is not the
    name of a class attribute, [shader[key] = value] succeeds, after it
    [shader[key]] is the value, every other key reads as before, and no
    other dict object is touched; for the name of a class attribute it
    raises [KeyError]. *)
Theorem setitem_getitem (V : Type) (class_attributes : list string)
  (key : string) (value : V) (h : heap V) (s : BaseShader) :
  (str_in key class_attributes = false ->
   exists h',
     __setitem__ class_attributes key value h s = inr h'
     /\ __getitem__ key h' s = inr value
     /\ (forall other, other <> key ->
           __getitem__ other h' s = __getitem__ other h s)
     /\ (forall r, r <> kwargs s -> h' !! r = h !! r))
  /\ (str_in key class_attributes = true ->
      __setitem__ class_attributes key value h s = inl (KeyError key)).
Proof.
  unfold __setitem__, __getitem__. split; intros ->; [|reflexivity].
  eexists. split; [reflexivity|].
  rewrite !lookup_total_insert_eq. unfold Dict.t in *.
  split; [now rewrite get_set, String.eqb_refl|]. split.
  - intros other Hne. rewrite get_set.
    destruct (String.eqb_spec other key); [contradiction|reflexivity].
  - intros r Hr. now rewrite lookup_insert_ne.
Qed.

Lemma sampler_code_stripped bindgroup index name :
  PyStr.rstrip (sampler_code bindgroup index name +:+ PyStr.nl +:+ "        ")
  = sampler_code bindgroup index name.
Proof.
  set (prefix := PyStr.nl +:+ "        @group(" +:+ str_int bindgroup
                 +:+ ") @binding(" +:+ str_int index +:+ ")" +:+ PyStr.nl
                 +:+ "        var " +:+ name).
  assert (E1 : sampler_code bindgroup index name = prefix +:+ ": sampler;").
  { unfold sampler_code, prefix. now rewrite !append_assoc. }
  assert (E2 : sampler_code bindgroup index name +:+ PyStr.nl +:+ "        "
               = prefix +:+ (": sampler;" +:+ PyStr.nl +:+ "        ")).
  { rewrite E1. now rewrite !append_assoc. }
  rewrite E2, E1. rewrite rstrip_app_nonblank; [reflexivity|].
  vm_compute. discriminate.
Qed.

(** [define_binding] on a sampler and on an unknown type: a binding whose
    type starts with [sampler] gets the two lines of its declaration,
    without trailing white space, stored as the binding code under its
    name, with the type definitions and the template variables left
    alone; a binding whose type starts with none of [buffer], [sampler]
    and [texture] is refused with [RuntimeError], and so is every
    [storage_texture/] binding. *)
Theorem define_binding_spec (hooks : DefineHooks) (bindgroup index : Z)
  (b : Binding.t) (s : BaseShader) :
  (PyStr.startswith (Binding.type b) "sampler" = true ->
   exists s',
     define_binding hooks bindgroup index b s = inr s'
     /\ Dict.get (Binding.name b) (_binding_codes s')
        = Some (sampler_code bindgroup index (Binding.name b))
     /\ (forall other, other <> Binding.name b ->
           Dict.get other (_binding_codes s')
           = Dict.get other (_binding_codes s))
     /\ _typedefs s' = _typedefs s
     /\ kwargs s' = kwargs s)
  /\ (PyStr.startswith (Binding.type b) "buffer" = false ->
      PyStr.startswith (Binding.type b) "sampler" = false ->
      PyStr.startswith (Binding.type b) "texture" = false ->
      define_binding hooks bindgroup index b s
      = inl (RuntimeError "Unknown binding"))
  /\ (PyStr.startswith (Binding.type b) "storage_texture/" = true ->
      define_binding hooks bindgroup index b s
      = inl (RuntimeError "Unknown binding")).
Proof.
  assert (Hunknown :
    PyStr.startswith (Binding.type b) "buffer" = false ->
    PyStr.startswith (Binding.type b) "sampler" = false ->
    PyStr.startswith (Binding.type b) "texture" = false ->
    define_binding hooks bindgroup index b s
    = inl (RuntimeError "Unknown binding")).
  { intros Hb Hs Ht. unfold define_binding. rewrite Hb, Hs, Ht.
    destruct (String.eqb_spec (Binding.type b) "buffer/uniform") as [E|_];
      [|reflexivity].
    rewrite E in Hb. discriminate. }
  split; [|split; [exact Hunknown|]].
  - intros Hs. unfold define_binding.
    assert (Hb : PyStr.startswith (Binding.type b) "buffer" = false)
      by (eapply startswith_other; [|exact Hs]; discriminate).
    destruct (String.eqb_spec (Binding.type b) "buffer/uniform") as [E|_];
      [rewrite E in Hs; discriminate|].
    rewrite Hb, Hs. unfold _define_sampler. eexists.
    split; [reflexivity|]. rewrite sampler_code_stripped.
    unfold set_binding_code. cbn [_binding_codes _typedefs kwargs].
    split; [now rewrite get_set, String.eqb_refl|].
    split; [|auto]. intros other Hne. rewrite get_set.
    destruct (String.eqb_spec other (Binding.name b));
      [contradiction|reflexivity].
  - intros Hst. unfold PyStr.startswith in Hst.
    apply has_prefix_inv in Hst as (rest & Hty & Hrest).
    apply Hunknown; unfold PyStr.startswith; rewrite Hty.
    + reflexivity.
    + rewrite has_prefix_cons. eapply has_prefix_other; [|exact Hrest].
      discriminate.
    + reflexivity.
Qed.

(** ** The passes a render container has objects for *)

Lemma compile_passes_keys X passes : forall acc st m st1,
  RenderPipelineContainer.compile_passes X passes acc st = (inr m, st1) ->
  forall p, is_Some (m !! p)
            <-> is_Some (acc !! p)
                \/ (In p passes /\ get_color_descriptors X p <> []).
Proof.
  induction passes as [|q passes IH]; intros acc st m st1; simpl.
  - intros H. injection H as <- <-. intros p. tauto.
  - destruct (get_color_descriptors X q) as [|c cs] eqn:Hq.
    + intros H p. rewrite (IH _ _ _ _ H p). split.
      * intros [Ha|[Hin Hc]]; [now left|right; auto].
      * intros [Ha|[[->|Hin] Hc]]; [now left|congruence|right; auto].
    + unfold bind at 1. unfold get_world at 1.
      unfold bind at 1.
      destruct (shader_generate_wgsl X (Some q) (world st)) as [e|wgsl];
        [discriminate|].
      unfold lift at 1, ret at 1. unfold bind at 1.
      destruct (Cache.get_shader_module X wgsl st) as [[e|h] s1];
        [discriminate|].
      intros H p. rewrite (IH _ _ _ _ H p). split.
      * intros [Ha|[Hin Hc]]; [|right; auto].
        destruct (decide (p = q)) as [->|Hne].
        -- right. split; [now left|congruence].
        -- rewrite lookup_insert_ne in Ha by congruence. now left.
      * intros [Ha|[[->|Hin] Hc]].
        -- left. destruct (decide (p = q)) as [->|Hne].
           ++ rewrite lookup_insert_eq. eauto.
           ++ now rewrite lookup_insert_ne by congruence.
        -- left. rewrite lookup_insert_eq. eauto.
        -- right. auto.
Qed.

Lemma compose_passes_keys X c topology cull layout modules passes :
  forall acc st m st1,
    RenderPipelineContainer.compose_passes X c topology cull layout modules
      passes acc st = (inr m, st1) ->
    forall p, is_Some (m !! p)
              <-> is_Some (acc !! p)
                  \/ (In p passes /\ get_color_descriptors X p <> []).
Proof.
  induction passes as [|q passes IH]; intros acc st m st1; simpl.
  - intros H. injection H as <- <-. intros p. tauto.
  - destruct (get_color_descriptors X q) as [|col cs] eqn:Hq.
    + intros H p. rewrite (IH _ _ _ _ H p). split.
      * intros [Ha|[Hin Hc]]; [now left|right; auto].
      * intros [Ha|[[->|Hin] Hc]]; [now left|congruence|right; auto].
    + destruct (modules !! q) as [module|]; [|discriminate].
      unfold bind at 1.
      match goal with
      | |- context [gpu_call X ?ev st] =>
          destruct (gpu_call X ev st) as [[e|h] s1]; [discriminate|]
      end.
      intros H p. rewrite (IH _ _ _ _ H p). split.
      * intros [Ha|[Hin Hc]]; [|right; auto].
        destruct (decide (p = q)) as [->|Hne].
        -- right. split; [now left|congruence].
        -- rewrite lookup_insert_ne in Ha by congruence. now left.
      * intros [Ha|[[->|Hin] Hc]].
        -- left. destruct (decide (p = q)) as [->|Hne].
           ++ rewrite lookup_insert_eq. eauto.
           ++ now rewrite lookup_insert_ne by congruence.
        -- left. rewrite lookup_insert_eq. eauto.
        -- right. auto.
Qed.

Lemma render_compose_keys X modules st m st1 :
  RenderPipelineContainer._compose_pipelines X modules st = (inr m, st1) ->
  forall p, is_Some (m !! p)
            <-> (p < get_pass_count X)%nat
                /\ get_color_descriptors X p <> [].
Proof.
  unfold RenderPipelineContainer._compose_pipelines.
  unfold bind at 1. unfold get_self at 1.
  unfold bind at 1.
  destruct (subscript_opt (pipeline_info (self st)) "primitive_topology")
    as [e|topology]; [discriminate|].
  unfold lift at 1, ret at 1. unfold bind at 1.
  destruct (subscript_opt (pipeline_info (self st)) "cull_mode")
    as [e|cull]; [discriminate|].
  unfold lift at 1, ret at 1. unfold bind at 1.
  match goal with
  | |- context [gpu_call X ?ev st] =>
      destruct (gpu_call X ev st) as [[e|layout] s1]; [discriminate|]
  end.
  intros H p.
  rewrite (compose_passes_keys _ _ _ _ _ _ _ _ _ _ _ H p).
  unfold range. rewrite in_seq, lookup_empty. split.
  - intros [[x Hx]|[Hp Hc]]; [discriminate|]. split; [lia|exact Hc].
  - intros [Hp Hc]. right. split; [lia|exact Hc].
Qed.

(** A render container gets a shader module and a pipeline for exactly
    the passes of the blender that have colour targets: after
    [_compile_shaders] and after [_compose_pipelines] have returned, the
    result has an entry for a pass exactly when the pass is below the
    pass count and its colour descriptors are not empty. *)
Theorem render_passes_spec (X : Externals) (st st1 : State)
  (m : gmap nat handle) :
  (RenderPipelineContainer._compile_shaders X st = (inr m, st1) ->
   forall p, is_Some (m !! p)
             <-> (p < get_pass_count X)%nat
                 /\ get_color_descriptors X p <> [])
  /\ (forall modules,
        RenderPipelineContainer._compose_pipelines X modules st
        = (inr m, st1) ->
        forall p, is_Some (m !! p)
                  <-> (p < get_pass_count X)%nat
                      /\ get_color_descriptors X p <> []).
Proof.
  assert (Hseq : forall p n, In p (range n) <-> (p < n)%nat).
  { intros p n. unfold range. rewrite in_seq. lia. }
  split.
  - unfold RenderPipelineContainer._compile_shaders. intros H p.
    rewrite (compile_passes_keys _ _ _ _ _ _ H p), Hseq.
    rewrite lookup_empty. split.
    + intros [[x Hx]|Hp]; [discriminate|exact Hp].
    + auto.
  - intros modules. unfold RenderPipelineContainer._compose_pipelines.
    unfold bind at 1. unfold get_self at 1.
    unfold bind at 1.
    destruct (subscript_opt (pipeline_info (self st)) "primitive_topology")
      as [e|topology]; [discriminate|].
    unfold lift at 1, ret at 1. unfold bind at 1.
    destruct (subscript_opt (pipeline_info (self st)) "cull_mode")
      as [e|cull]; [discriminate|].
    unfold lift at 1, ret at 1. unfold bind at 1.
    match goal with
    | |- context [gpu_call X ?ev st] =>
        destruct (gpu_call X ev st) as [[e|layout] s1]; [discriminate|]
    end.
    intros H p.
    rewrite (compose_passes_keys _ _ _ _ _ _ _ _ _ _ _ H p), Hseq.
    rewrite lookup_empty. split.
    + intros [[x Hx]|Hp]; [discriminate|exact Hp].
    + auto.
Qed.

(** ** From a first update to a draw *)

Section KeepsMore.

Variable X : Externals.
Context {T : Type}.
Variable view : Container -> T.

Lemma keeps_view_get_changed : keeps view get_changed.
Proof. intros st. reflexivity. Qed.

Lemma keeps_view_changed_add label : keeps view (changed_add label).
Proof. intros st. reflexivity. Qed.

Lemma keeps_view_emit ev : keeps view (emit ev).
Proof. intros st. reflexivity. Qed.

Lemma keeps_view_assert b msg : keeps view (assert b msg).
Proof. destruct b; intros st; reflexivity. Qed.

Lemma keeps_view_modify_self f :
  (forall c, view (f c) = view c) -> keeps view (modify_self f).
Proof. intros Hf st. apply Hf. Qed.

Lemma keeps_view_for_each A (l : list A) (body : A -> M unit) :
  (forall x, keeps view (body x)) -> keeps view (for_each l body).
Proof.
  intros Hb. induction l as [|x l IH]; simpl.
  - apply keeps_view_ret.
  - apply keeps_view_bind; [apply Hb|]. intros _. exact IH.
Qed.

Lemma keeps_view_when_changed label body :
  keeps view body -> keeps view (PipelineContainer.when_changed label body).
Proof.
  intros Hb. unfold PipelineContainer.when_changed.
  apply keeps_view_bind; [apply keeps_view_get_changed|]. intros ch.
  destruct (bool_decide (label ∈ ch)); [exact Hb|apply keeps_view_ret].
Qed.

End KeepsMore.

#[local] Ltac keep :=
  repeat (intros;
    first
      [ apply keeps_view_ret | apply keeps_view_raise | apply keeps_view_lift
      | apply keeps_view_assert | apply keeps_view_get_self
      | apply keeps_view_get_world | apply keeps_view_get_changed
      | apply keeps_view_changed_add | apply keeps_view_emit
      | apply keeps_view_call | apply keeps_view_gpu_call
      | apply keeps_view_modify_self; intros; reflexivity
      | apply keeps_view_bind
      | apply keeps_view_for_each
      | match goal with
        | |- keeps _ (match ?x with _ => _ end) => destruct x
        | |- keeps _ (if ?c then _ else _) => destruct c
        | |- keeps _ (let (_, _) := ?x in _) => destruct x
        end ]).

Lemma keeps_resources_update_shader_hash X :
  keeps resources (update_shader_hash X).
Proof. unfold update_shader_hash. keep. Qed.

Lemma keeps_resources_update_bind_groups X :
  keeps resources (update_bind_groups X).
Proof. unfold update_bind_groups. keep. Qed.

Lemma keeps_resources_formats X :
  keeps resources (RenderPipelineContainer.update_index_buffer_format X)
  /\ keeps resources
       (RenderPipelineContainer.update_vertex_buffer_descriptors X).
Proof.
  unfold RenderPipelineContainer.update_index_buffer_format,
    RenderPipelineContainer.update_vertex_buffer_descriptors.
  split; keep.
Qed.

Lemma keeps_resources_check_pipeline_info X :
  keeps resources (PipelineContainer._check_pipeline_info X).
Proof.
  unfold PipelineContainer._check_pipeline_info,
    ComputePipelineContainer._check_pipeline_info,
    RenderPipelineContainer._check_pipeline_info,
    RenderPipelineContainer.update_index_buffer_format.
  keep.
Qed.

Lemma keeps_resources_check_render_info :
  keeps resources PipelineContainer._check_render_info.
Proof.
  unfold PipelineContainer._check_render_info,
    ComputePipelineContainer._check_render_info,
    RenderPipelineContainer._check_render_info.
  keep.
Qed.

Lemma keeps_pipelines_check_render_info :
  keeps wgpu_pipelines PipelineContainer._check_render_info.
Proof.
  unfold PipelineContainer._check_render_info,
    ComputePipelineContainer._check_render_info,
    RenderPipelineContainer._check_render_info.
  keep.
Qed.

(** What a successful validation of the render info of a render
    container leaves. *)
Lemma render_check_ok st st1 :
  RenderPipelineContainer._check_render_info st = (inr tt, st1) ->
  render_info_ok (self st1).
Proof.
  unfold RenderPipelineContainer._check_render_info.
  unfold bind at 1. unfold get_self at 1.
  destruct (render_info (self st)) as [[| | | | | |d|]|] eqn:Hinfo;
    try discriminate.
  unfold bind at 1.
  destruct (keys_equal d ["indices"; "render_mask"]); [|discriminate].
  unfold assert at 1, ret at 1. unfold bind at 1. unfold subscript.
  destruct (Dict.get "indices" d) as [indices|] eqn:Hind; [|discriminate].
  unfold lift at 1, ret at 1.
  destruct (sequence_items indices) as [items|] eqn:Hseq; [|discriminate].
  unfold bind at 1.
  destruct (forallb is_int items); [|discriminate].
  unfold assert at 1, ret at 1. unfold bind at 1.
  destruct (existsb (Nat.eqb (length items)) [2; 4; 5]%nat) eqn:Hlen;
    [|discriminate].
  unfold assert at 1, ret at 1. unfold bind at 1.
  assert (Hcases : (exists a b, items = [a; b])
                   \/ ((length items = 4 \/ length items = 5)%nat
                       /\ match items with [_; _] => False | _ => True end)).
  { simpl in Hlen. rewrite orb_false_r in Hlen.
    apply orb_true_iff in Hlen as [Hl|Hl].
    - apply Nat.eqb_eq in Hl. left.
      destruct items as [|a [|b [|c r]]]; try discriminate. eauto.
    - right. apply orb_true_iff in Hl as [Hl|Hl]; apply Nat.eqb_eq in Hl;
        (split; [lia|]);
        destruct items as [|a [|b [|c r]]]; try discriminate; auto. }
  destruct Hcases as [(a & b & ->)|[Hl Hnot]].
  - unfold modify_self at 1. unfold bind at 1. unfold get_self at 1.
    cbn [self]. unfold bind at 1.
    change (render_info (set_render_info ?i _)) with (Some i).
    unfold subscript_opt, subscript. rewrite get_set.
    change ("render_mask" =? "indices")%string with false. cbv iota.
    destruct (Dict.get "render_mask" d) as [mask|] eqn:Hmask;
      [|discriminate].
    unfold lift at 1, ret at 1. unfold assert.
    destruct (RenderPipelineContainer.valid_render_mask mask) eqn:Hv;
      [|discriminate].
    intros H. injection H as <-. cbn [self].
    exists (Dict.set "indices" (PyTuple [a; b; PyInt 0; PyInt 0]) d), mask,
      (PyTuple [a; b; PyInt 0; PyInt 0]), [a; b; PyInt 0; PyInt 0].
    split; [reflexivity|]. rewrite !get_set.
    change ("render_mask" =? "indices")%string with false.
    rewrite String.eqb_refl. cbv iota. auto 10.
  - assert (Hsame :
      match items with
      | [a; b] =>
          modify_self
            (set_render_info
               (PyDict (Dict.set "indices"
                          (PyTuple [a; b; PyInt 0; PyInt 0]) d)))
      | _ => ret tt
      end st = (inr tt, st)).
    { destruct items as [|a [|b [|c r]]]; try reflexivity. destruct Hnot. }
    rewrite Hsame. unfold bind at 1. unfold get_self at 1.
    unfold bind at 1. rewrite Hinfo. unfold subscript_opt, subscript.
    destruct (Dict.get "render_mask" d) as [mask|] eqn:Hmask;
      [|discriminate].
    unfold lift at 1, ret at 1. unfold assert.
    destruct (RenderPipelineContainer.valid_render_mask mask) eqn:Hv;
      [|discriminate].
    intros H. injection H as <-.
    exists d, mask, indices, items. auto 10.
Qed.

Lemma bind_inr A B (m : M A) (k : A -> M B) st b st' :
  bind m k st = (inr b, st') ->
  exists a s, m st = (inr a, s) /\ k a s = (inr b, st').
Proof.
  unfold bind. destruct (m st) as [[e|a] s]; [discriminate|]. eauto.
Qed.

Lemma keeps_apply A T (view : Container -> T) (m : M A) st r st' :
  keeps view m -> m st = (r, st') -> view (self st') = view (self st).
Proof. intros Hk H. specialize (Hk st). now rewrite H in Hk. Qed.

Lemma grows_apply A (m : M A) st r st' :
  only_grows m -> m st = (r, st') -> grows st st'.
Proof. intros Hk H. specialize (Hk st). now rewrite H in Hk. Qed.

Lemma when_changed_in label body st :
  label ∈ changed st ->
  PipelineContainer.when_changed label body st = body st.
Proof.
  intros H. unfold PipelineContainer.when_changed, bind, get_changed.
  now rewrite bool_decide_eq_true_2.
Qed.

Lemma keeps_view_collect T (view : Container -> T) A B (l : list A)
  (body : A -> M (list B)) :
  (forall x, keeps view (body x)) -> keeps view (collect l body).
Proof.
  intros Hb. induction l as [|x l IH]; simpl.
  - apply keeps_view_ret.
  - apply keeps_view_bind; [apply Hb|]. intros here.
    apply keeps_view_bind; [exact IH|]. intros there. apply keeps_view_ret.
Qed.

#[local] Ltac keep_all :=
  repeat (keep; try apply keeps_view_collect).

Lemma keeps_kind_binding_flat_resources b :
  keeps kind (binding_flat_resources b).
Proof. unfold binding_flat_resources. keep_all. Qed.

Lemma keeps_kind_collect_flat_resources r :
  keeps kind (collect_flat_resources r).
Proof.
  unfold collect_flat_resources.
  apply keeps_view_bind; [keep|]. intros index.
  apply keeps_view_bind; [keep_all|]. intros vertex.
  apply keeps_view_bind; [|keep].
  apply keeps_view_collect. intros g.
  apply keeps_view_collect. intros sb.
  apply keeps_kind_binding_flat_resources.
Qed.

#[local] Ltac unfold_checks :=
  unfold PipelineContainer.ask,
    PipelineContainer._check_resources, PipelineContainer._check_pipeline_info,
    PipelineContainer._check_render_info,
    ComputePipelineContainer._check_resources,
    ComputePipelineContainer._check_pipeline_info,
    ComputePipelineContainer._check_render_info,
    RenderPipelineContainer._check_resources,
    RenderPipelineContainer._check_pipeline_info,
    RenderPipelineContainer._check_render_info,
    RenderPipelineContainer.update_index_buffer_format,
    RenderPipelineContainer.update_vertex_buffer_descriptors,
    update_shader_hash, update_bind_groups.

Lemma render_resources_ok X st st1 :
  RenderPipelineContainer._check_resources X st = (inr tt, st1) ->
  resources_ok (self st1).
Proof.
  unfold RenderPipelineContainer._check_resources.
  unfold bind at 1. unfold get_self at 1.
  destruct (resources (self st)) as [r|] eqn:Hr; [|discriminate].
  intros H. apply bind_inr in H as ([] & s & Ha & H).
  unfold assert in Ha.
  match type of Ha with
  | (if ?c then _ else _) _ = _ => destruct c eqn:Hkeys; [|discriminate]
  end.
  injection Ha as <-.
  assert (Hk : keeps resources
                 (RenderPipelineContainer.update_index_buffer_format X ;;;
                  RenderPipelineContainer.update_vertex_buffer_descriptors X)).
  { apply keeps_view_bind; [apply keeps_resources_formats|].
    intros _. apply keeps_resources_formats. }
  apply (keeps_apply _ _ _ _ _ _ _ Hk) in H.
  exists r. rewrite H. split; [exact Hr|].
  apply andb_true_iff in Hkeys as [_ Hkeys]. simpl in Hkeys.
  rewrite !andb_true_iff in Hkeys. tauto.
Qed.

#[local] Ltac grow_top :=
  repeat (intros;
    first
      [ apply only_grows_ret | apply only_grows_raise | apply only_grows_lift
      | apply only_grows_assert | apply only_grows_get_self
      | apply only_grows_get_world | apply only_grows_get_changed
      | apply only_grows_changed_add | apply only_grows_emit
      | apply only_grows_call | apply only_grows_gpu_call
      | apply only_grows_collect_flat_resources
      | apply only_grows_check_resources
      | apply only_grows_check_pipeline_info
      | apply only_grows_check_render_info
      | apply only_grows_update_shader_hash
      | apply only_grows_update_bind_groups
      | apply only_grows_modify_self; intros; reflexivity
      | apply only_grows_bind
      | apply only_grows_for_each
      | match goal with
        | |- only_grows (match ?x with _ => _ end) => destruct x
        end ]).

Lemma keeps_kind_checks X :
  keeps kind (PipelineContainer._check_resources X)
  /\ keeps kind (update_shader_hash X)
  /\ keeps kind (update_bind_groups X)
  /\ keeps kind PipelineContainer._check_render_info.
Proof. unfold_checks. repeat split; keep. Qed.

Lemma resources_ok_eq c c' :
  resources c' = resources c -> resources_ok c -> resources_ok c'.
Proof. intros E (r & Hr & H). exists r. now rewrite E. Qed.

(** What a first update of the shader data of a render container
    leaves. *)
Lemma update_shader_data_created X st st1 :
  kind (self st) = Render ->
  "create" ∈ changed st ->
  PipelineContainer.update_shader_data X st = (inr tt, st1) ->
  resources_ok (self st1) /\ render_info_ok (self st1)
  /\ wgpu_pipelines (self st1) = ∅ /\ kind (self st1) = Render
  /\ changed st ⊆ changed st1.
Proof.
  intros Hkind Hc. unfold PipelineContainer.update_shader_data.
  intros H. apply bind_inr in H as ([] & s0 & H0 & H).
  apply bind_inr in H as ([] & s1 & H1 & H).
  apply bind_inr in H as ([] & s2 & H2 & H3).
  rewrite when_changed_in in H0 by exact Hc.
  unfold bind, changed_add in H0. injection H0 as <-.
  rewrite when_changed_in in H1 by (cbn [changed]; set_solver).
  (* the resources *)
  match type of H1 with
  | _ ?s = _ => assert (G1 : grows s s1)
  end.
  { eapply grows_apply; [|exact H1]. unfold PipelineContainer.ask.
    grow_top. }
  destruct G1 as (Gc1 & _ & _ & _ & Gk1). cbn [changed self] in Gc1, Gk1.
  assert (Hres1 : resources_ok (self s1)).
  { apply bind_inr in H1 as (r & sa & _ & H1).
    apply bind_inr in H1 as ([] & sb & _ & H1).
    apply bind_inr in H1 as (fl & sc & _ & H1).
    apply bind_inr in H1 as ([] & sd & _ & H1).
    apply bind_inr in H1 as ([] & se & _ & H1).
    apply bind_inr in H1 as ([] & sf & Hf & H1).
    apply bind_inr in H1 as ([] & sg & Hg & Hh).
    destruct (keeps_kind_checks X) as (K1 & K2 & K3 & _).
    pose proof (keeps_apply _ _ _ _ _ _ _ K1 Hf) as E1.
    pose proof (keeps_apply _ _ _ _ _ _ _ K2 Hg) as E2.
    pose proof (keeps_apply _ _ _ _ _ _ _ K3 Hh) as E3.
    assert (Hk : kind (self se) = Render) by congruence.
    unfold PipelineContainer._check_resources in Hf.
    unfold bind at 1 in Hf. unfold get_self at 1 in Hf. rewrite Hk in Hf.
    apply render_resources_ok in Hf.
    eapply resources_ok_eq; [|exact Hf].
    rewrite (keeps_apply _ _ _ _ _ _ _
               (keeps_resources_update_bind_groups X) Hh).
    apply (keeps_apply _ _ _ _ _ _ _
             (keeps_resources_update_shader_hash X) Hg). }
  (* the pipeline info *)
  rewrite when_changed_in in H2 by set_solver.
  assert (G2 : grows s1 s2).
  { eapply grows_apply; [|exact H2]. unfold PipelineContainer.ask.
    grow_top. }
  destruct G2 as (Gc2 & _ & _ & _ & Gk2).
  assert (Hres2 : resources (self s2) = resources (self s1)).
  { eapply keeps_apply; [|exact H2]. unfold_checks. keep. }
  assert (Hp2 : wgpu_pipelines (self s2) = ∅).
  { apply bind_inr in H2 as (p & sa & _ & H2).
    apply bind_inr in H2 as ([] & sb & _ & H2).
    apply bind_inr in H2 as ([] & sc & _ & H2).
    apply bind_inr in H2 as ([] & sd & _ & H2).
    unfold modify_self in H2. now injection H2 as <-. }
  (* the render info *)
  rewrite when_changed_in in H3 by set_solver.
  assert (G3 : grows s2 st1).
  { eapply grows_apply; [|exact H3]. unfold PipelineContainer.ask.
    grow_top. }
  destruct G3 as (Gc3 & _ & _ & _ & Gk3).
  assert (Hres3 : resources (self st1) = resources (self s2)).
  { eapply keeps_apply; [|exact H3]. unfold_checks. keep. }
  assert (Hp3 : wgpu_pipelines (self st1) = wgpu_pipelines (self s2)).
  { eapply keeps_apply; [|exact H3]. unfold_checks. keep. }
  assert (Hkind1 : kind (self st1) = Render) by congruence.
  split; [|split; [|split; [congruence|split; [exact Hkind1|set_solver]]]].
  - eapply resources_ok_eq; [|exact Hres1]. congruence.
  - apply bind_inr in H3 as (i & sa & _ & H3).
    apply bind_inr in H3 as ([] & sb & _ & H3).
    destruct (keeps_kind_checks X) as (_ & _ & _ & K4).
    pose proof (keeps_apply _ _ _ _ _ _ _ K4 H3) as E.
    unfold PipelineContainer._check_render_info in H3.
    unfold bind at 1 in H3. unfold get_self at 1 in H3.
    rewrite <- E, Hkind1 in H3. now apply render_check_ok in H3.
Qed.
Lemma update_wgpu_data_composed X env st st1 :
  wgpu_pipelines (self st) !! env = None ->
  PipelineContainer.update_wgpu_data X env st = (inr tt, st1) ->
  exists modules s s' p,
    PipelineContainer._compose_pipelines X modules s = (inr p, s')
    /\ kind (self s) = kind (self st)
    /\ wgpu_pipelines (self st1) !! env = Some p.
Proof.
  intros Hnone. unfold PipelineContainer.update_wgpu_data.
  intros H. apply bind_inr in H as (c & s0 & H0 & H).
  unfold get_self in H0. injection H0 as <- <-.
  apply bind_inr in H as ([] & sA & HA & H).
  assert (KA : wgpu_pipelines (self sA) = wgpu_pipelines (self st)
               /\ kind (self sA) = kind (self st)).
  { split.
    - eapply keeps_apply; [|exact HA].
      destruct (wgpu_shaders (self st) !! env); [keep|].
      apply keeps_view_bind; [keep|]. intros _.
      apply keeps_view_bind; [keep|]. intros _.
      apply keeps_view_bind; [apply keeps_view_compile_shaders|]. keep.
    - eapply keeps_apply; [|exact HA].
      destruct (wgpu_shaders (self st) !! env); [keep|].
      apply keeps_view_bind; [keep|]. intros _.
      apply keeps_view_bind; [keep|]. intros _.
      apply keeps_view_bind; [apply keeps_view_compile_shaders|]. keep. }
  destruct KA as [KA1 KA2].
  apply bind_inr in H as (c & s1 & H1 & H).
  unfold get_self in H1. injection H1 as <- <-.
  rewrite KA1, Hnone in H.
  apply bind_inr in H as ([] & sB & HB & H).
  unfold changed_add in HB. injection HB as <-.
  apply bind_inr in H as (c & s2 & H2 & H).
  unfold get_self in H2. injection H2 as <- <-.
  apply bind_inr in H as (modules & s3 & H3 & H).
  assert (E3 : s3 = {| self := self sA; world := world sA;
                       changed := {["compose_pipeline"]} ∪ changed sA |}).
  { cbn [self] in H3. destruct (wgpu_shaders (self sA) !! env);
      [|discriminate]. unfold ret in H3. now injection H3 as _ <-. }
  subst s3.
  apply bind_inr in H as (p & s4 & H4 & H).
  unfold modify_self in H. injection H as <-.
  eexists modules, _, s4, p. split; [exact H4|]. split; [exact KA2|].
  cbn [self]. change (wgpu_pipelines (set_wgpu_pipelines ?v _)) with v.
  apply lookup_insert_eq.
Qed.

Lemma is_int_valid mask :
  RenderPipelineContainer.valid_render_mask mask = true -> is_int mask = true.
Proof.
  unfold RenderPipelineContainer.valid_render_mask.
  intros H. now apply andb_true_iff in H as [H _].
Qed.

(** After a first update a render container has all a [draw] looks up:
    when an [update] with the label [create] has returned, a [draw] for
    the same environment, for a pass of the blender that has colour
    targets, on a pass that raises nothing and with the vertex buffers
    uploaded, finds its render mask, its pipeline, its indices and its
    resources, and all it changes are the calls on the pass.  It returns
    normally when the masks do not overlap or there is no index buffer;
    with an index buffer it raises the [AttributeError] for the [size]
    of the buffer. *)
Theorem update_then_draw (X : Externals) (environment_hash : string)
  (pass_index : nat) (render_mask : Z) (st st1 : State) :
  never_raises X ->
  kind (self st) = Render ->
  "create" ∈ changed st ->
  PipelineContainer.update X environment_hash st = (inr tt, st1) ->
  (pass_index < get_pass_count X)%nat ->
  get_color_descriptors X pass_index <> [] ->
  vertex_buffers_uploaded (self st1) ->
  exists r mask evs,
    resources (self st1) = Some r
    /\ subscript_opt (render_info (self st1)) "render_mask" = inr mask
    /\ RenderPipelineContainer.draw X environment_hash pass_index
         render_mask st1
       = (if Z.eqb (Z.land render_mask (int_value mask)) 0 then inr tt
          else match index_buffer r with
               | None => inr tt
               | Some _ => inl (AttributeError "size")
               end,
          after_calls evs st1).
Proof.
  intros Hquiet Hkind Hc Hup Hpass Hcolors Hbuf.
  rewrite update_unfold in Hup. cbv zeta in Hup.
  rewrite bool_decide_eq_false_2 in Hup by set_solver.
  destruct (PipelineContainer.update_shader_data X st) as [[e|[]] s1] eqn:Hs;
    [discriminate|].
  change (truthy (broken (self (mark (PyInt 0) s1)))) with false in Hup.
  cbv iota in Hup.
  assert (Heh : env_hash_of st environment_hash = environment_hash)
    by (unfold env_hash_of; now rewrite Hkind).
  rewrite Heh in Hup.
  destruct (PipelineContainer.update_wgpu_data X environment_hash
              (mark (PyInt 0) s1)) as [[e|[]] s2] eqn:Hg; [discriminate|].
  injection Hup as <-.
  destruct (update_shader_data_created X st s1 Hkind Hc Hs)
    as (Hres & Hinfo & Hpipes & Hk1 & _).
  assert (Hnone : wgpu_pipelines (self (mark (PyInt 0) s1))
                  !! environment_hash = None).
  { unfold mark, with_self. cbn [self]. rewrite pipelines_set_broken, Hpipes.
    apply lookup_empty. }
  destruct (update_wgpu_data_composed X _ _ _ Hnone Hg)
    as (modules & s & s' & passes & Hcomp & Hks & Hp).
  pose proof (keeps_update_wgpu_data X environment_hash (mark (PyInt 0) s1))
    as Hkeep.
  rewrite Hg in Hkeep. cbn [snd] in Hkeep. rewrite shader_data_mark in Hkeep.
  set (st' := log_changes (mark (PyBool false) s2)) in *.
  assert (Hself : self st' = set_broken (PyBool false) (self s2))
    by (subst st'; now rewrite log_changes_self).
  assert (Hri : render_info (self st') = render_info (self s1)).
  { rewrite Hself. unfold shader_data in Hkeep. now inversion Hkeep. }
  assert (Hrs : resources (self st') = resources (self s1)).
  { rewrite Hself. unfold shader_data in Hkeep. now inversion Hkeep. }
  assert (Hpl : wgpu_pipelines (self st') !! environment_hash = Some passes)
    by (rewrite Hself, pipelines_set_broken; exact Hp).
  assert (Hbr : truthy (broken (self st')) = false)
    by now rewrite Hself.
  assert (Hpipe : is_Some (passes !! pass_index)).
  { unfold PipelineContainer._compose_pipelines in Hcomp.
    unfold bind at 1 in Hcomp. unfold get_self at 1 in Hcomp.
    assert (Hkr : kind (self s) = Render) by (rewrite Hks; exact Hk1).
    rewrite Hkr in Hcomp.
    apply (render_compose_keys _ _ _ _ _ Hcomp). auto. }
  destruct Hpipe as [pipeline Hpipe].
  destruct Hinfo as (d & mask & indices & items & Hd & Hm & Hv & Hi & Hseq & _).
  destruct Hres as (r & Hr & Hki & Hkv & _).
  assert (Hmask : subscript_opt (render_info (self st')) "render_mask"
                  = inr mask).
  { rewrite Hri, Hd. unfold subscript_opt, subscript. now rewrite Hm. }
  assert (Hind : subscript_opt (render_info (self st')) "indices"
                 = inr indices).
  { rewrite Hri, Hd. unfold subscript_opt, subscript. now rewrite Hi. }
  pose proof (is_int_valid _ Hv) as Hint.
  assert (Hr' : resources (self st') = Some r) by now rewrite Hrs.
  exists r, mask.
  destruct (Z.eqb_spec (Z.land render_mask (int_value mask)) 0%Z) as [Hz|Hnz].
  - exists []. rewrite after_calls_nil. split; [exact Hr'|].
    split; [exact Hmask|]. now apply draw_masked with (mask := mask).
  - pose proof (draw_calls_quiet X environment_hash pass_index render_mask
                  st' mask indices items r passes pipeline Hquiet Hbr Hmask
                  Hint Hnz Hpl Hpipe Hind Hseq Hr' Hki Hkv (Hbuf r Hr'))
      as Hdraw.
    destruct (index_buffer r); eexists; (split; [exact Hr'|]);
      (split; [exact Hmask|]); exact Hdraw.
Qed.

(** ** The further properties on the samples *)

Lemma get_bind_group_descriptors_slot_witness :
  exists entry layout,
    Binding.get_bind_group_descriptors sample_wgpu sample_utils s_positions 5
    = inr (entry, layout)
    /\ be_binding entry = 5%Z /\ le_binding layout = 5%Z
    /\ le_visibility layout = 1%Z
    /\ be_resource entry = BufferRange 40 0 36.
Proof.
  eexists _, _. split; [vm_compute; reflexivity|].
  destruct (get_bind_group_descriptors_slot sample_wgpu sample_utils
              s_positions 5 _ _ eq_refl) as (H1 & H2 & H3 & _).
  repeat split; assumption || reflexivity.
Defined.

Lemma get_bind_group_descriptors_rejects_witness :
  Binding.get_bind_group_descriptors sample_wgpu sample_utils u_wrong 0
  = inl (AssertionError "isinstance(resource, Buffer)").
Proof.
  apply (proj1 (get_bind_group_descriptors_rejects sample_wgpu sample_utils
                  u_wrong 0)).
  - vm_compute. reflexivity.
  - intros buf. discriminate.
Defined.

Lemma get_shader_module_cached_witness :
  cache (world module_cached) !! "fn main() { }" = Some 0%nat
  /\ Cache.get_shader_module sample_externals "fn main() { }" module_cached
     = (inr 0%nat, module_cached).
Proof.
  apply (get_shader_module_cached sample_externals "fn main() { }"
           (fresh_state Compute ∅)).
  vm_compute. reflexivity.
Defined.

Lemma get_shader_module_failure_witness :
  cache (world module_refused) = cache (world (fresh_state Compute ∅))
  /\ cache (world (fresh_state Compute ∅)) !! "fn main() { }" = None
  /\ trace (world module_refused)
     = trace (world (fresh_state Compute ∅))
       ++ [create_shader_module "fn main() { }"]
  /\ self module_refused = self (fresh_state Compute ∅).
Proof.
  apply (get_shader_module_failure failing_device "fn main() { }"
           (fresh_state Compute ∅) module_refused
           (ExternalError "validation failed")).
  vm_compute. reflexivity.
Defined.

Lemma update_wgpu_data_settles_witness :
  is_Some (wgpu_shaders (self gpu_phase_done) !! "")
  /\ is_Some (wgpu_pipelines (self gpu_phase_done) !! "")
  /\ (forall other, other <> "" ->
        wgpu_shaders (self gpu_phase_done) !! other
        = wgpu_shaders (self (mark (PyInt 0) updated_compute_data)) !! other
        /\ wgpu_pipelines (self gpu_phase_done) !! other
           = wgpu_pipelines (self (mark (PyInt 0) updated_compute_data))
             !! other)
  /\ PipelineContainer.update_wgpu_data sample_externals "" gpu_phase_done
     = (inr tt, gpu_phase_done).
Proof.
  apply (update_wgpu_data_settles sample_externals ""
           (mark (PyInt 0) updated_compute_data)).
  vm_compute. reflexivity.
Defined.

Lemma update_wgpu_data_failure_witness :
  wgpu_pipelines (self gpu_phase_failed)
  = wgpu_pipelines (self (mark (PyInt 0) updated_compute_data))
  /\ wgpu_shaders (self gpu_phase_failed) !! "" = None.
Proof.
  destruct (update_wgpu_data_failure failing_device ""
              (mark (PyInt 0) updated_compute_data) gpu_phase_failed
              (ExternalError "validation failed"))
    as (Hp & _ & _); [vm_compute; reflexivity|].
  split; [exact Hp|]. vm_compute. reflexivity.
Defined.

Lemma update_shader_data_create_witness :
  {["resources"; "pipeline_info"; "render_info"]}
  ⊆ changed (snd (PipelineContainer.update_shader_data failing_shader
                    (fresh_state Compute {["create"]}))).
Proof.
  apply update_shader_data_create. cbn. set_solver.
Defined.

Lemma update_settles_witness :
  broken (self updated_compute) = PyBool false
  /\ is_Some (wgpu_shaders (self updated_compute) !! "")
  /\ is_Some (wgpu_pipelines (self updated_compute) !! "").
Proof.
  apply (update_settles sample_externals "A"
           (fresh_state Compute {["create"]}) updated_compute).
  - vm_compute. reflexivity.
  - vm_compute. reflexivity.
Defined.

Lemma sample_never_raises : never_raises sample_render_externals.
Proof. intros ev w. reflexivity. Qed.

Lemma draw_calls_witness :
  RenderPipelineContainer.draw sample_render_externals "A" 0 3 updated_for_A
  = (inr tt,
     after_calls
       [set_pipeline 2; set_vertex_buffer 0 40 0 36;
        pass_draw sample_indices] updated_for_A)
  /\ RenderPipelineContainer.draw indexed_externals "A" 0 3
       first_update_indexed
     = (inl (AttributeError "size"),
        after_calls
          [set_pipeline 2; set_vertex_buffer 0 40 0 36]
          first_update_indexed).
Proof.
  split.
  - apply (draw_calls_spec sample_render_externals "A" 0 3 updated_for_A
             (PyInt 3) (PyTuple sample_indices) sample_indices
             sample_resources {[ 0%nat := 2%nat ]} 2%nat).
    + exact sample_never_raises.
    + vm_compute. reflexivity.
    + vm_compute. reflexivity.
    + reflexivity.
    + vm_compute. discriminate.
    + vm_compute. reflexivity.
    + vm_compute. reflexivity.
    + vm_compute. reflexivity.
    + reflexivity.
    + vm_compute. reflexivity.
    + vm_compute. reflexivity.
    + vm_compute. reflexivity.
    + repeat constructor. vm_compute. eexists. reflexivity.
  - apply (draw_calls_spec indexed_externals "A" 0 3 first_update_indexed
             (PyInt 3) (PyTuple sample_indices) sample_indices
             indexed_resources {[ 0%nat := 2%nat ]} 2%nat).
    + intros ev w. reflexivity.
    + vm_compute. reflexivity.
    + vm_compute. reflexivity.
    + reflexivity.
    + vm_compute. discriminate.
    + vm_compute. reflexivity.
    + vm_compute. reflexivity.
    + vm_compute. reflexivity.
    + reflexivity.
    + vm_compute. reflexivity.
    + vm_compute. reflexivity.
    + vm_compute. reflexivity.
    + repeat constructor. vm_compute. eexists. reflexivity.
Defined.

Lemma draw_masked_out_witness :
  RenderPipelineContainer.draw sample_render_externals "A" 0 4 updated_for_A
  = (inr tt, updated_for_A).
Proof.
  apply (draw_masked_out sample_render_externals "A" 0 4 updated_for_A
           (PyInt 3)).
  - vm_compute. reflexivity.
  - vm_compute. reflexivity.
  - reflexivity.
  - vm_compute. reflexivity.
Defined.

Lemma draw_without_pipeline_witness :
  RenderPipelineContainer.draw sample_render_externals "B" 0 3 updated_for_A
  = (inl (KeyError "B"), updated_for_A)
  /\ RenderPipelineContainer.draw sample_render_externals "A" 1 3
       updated_for_A
     = (inl (KeyError "1"), updated_for_A).
Proof.
  assert (H := draw_without_pipeline sample_render_externals).
  split.
  - apply (proj1 (H "B" 0%nat 3%Z updated_for_A (PyInt 3)
                    ltac:(vm_compute; reflexivity)
                    ltac:(vm_compute; reflexivity) eq_refl
                    ltac:(vm_compute; discriminate))).
    vm_compute. reflexivity.
  - apply (proj2 (H "A" 1%nat 3%Z updated_for_A (PyInt 3)
                    ltac:(vm_compute; reflexivity)
                    ltac:(vm_compute; reflexivity) eq_refl
                    ltac:(vm_compute; discriminate))
             {[ 0%nat := 2%nat ]}).
    + vm_compute. reflexivity.
    + vm_compute. reflexivity.
Defined.

Lemma strip_trailing_witness :
  exists tail tail',
    [[1%nat]; []; []] = fst (strip_trailing [[1%nat]; []; []] [10; 20; 30]%nat)
                        ++ tail
    /\ [10; 20; 30]%nat
       = snd (strip_trailing [[1%nat]; []; []] [10; 20; 30]%nat) ++ tail'
    /\ Forall (fun g => g = []) tail
    /\ length tail = length tail'
    /\ match rev (fst (strip_trailing [[1%nat]; []; []] [10; 20; 30]%nat)) with
       | [] :: _ => False
       | _ => True
       end.
Proof.
  apply (strip_trailing_spec nat nat [[1%nat]; []; []] [10; 20; 30]%nat).
  reflexivity.
Defined.

Lemma groups_descriptors_aligned_witness :
  exists bg bgl,
    groups_descriptors sample_wgpu sample_utils
      [(1%nat, [(0%Z, s_colormap); (1%Z, t_colormap "rgba8unorm")])] [] []
    = inr (bg, bgl)
    /\ Forall2 (fun a b => length a = length b) bg bgl.
Proof.
  eexists _, _. split; [vm_compute; reflexivity|].
  eapply (groups_descriptors_aligned sample_wgpu sample_utils
            [(1%nat, [(0%Z, s_colormap); (1%Z, t_colormap "rgba8unorm")])]
            [] _ [] _).
  - constructor.
  - vm_compute. reflexivity.
Defined.

Lemma update_bind_groups_counts_witness :
  length (wgpu_bind_group_layouts (self bound_state_updated)) = 2%nat
  /\ length (wgpu_bind_groups (self bound_state_updated)) = 2%nat.
Proof.
  destruct (update_bind_groups_counts sample_externals bound_state
              bound_state_updated eq_refl) as [H1 H2];
    [vm_compute; reflexivity|].
  rewrite H1, H2. split; vm_compute; reflexivity.
Defined.

Lemma resolve_varyings_vertex_read_witness :
  exists e, resolve_varyings vertex_read_src = inl e
            /\ is_TypeError e = true.
Proof.
  apply (resolve_varyings_vertex_read vertex_read_src "uv" 3).
  exists "    let u = varyings.uv.x;".
  split; [vm_compute; reflexivity|].
  split; [vm_compute; auto|].
  split; [|vm_compute; reflexivity].
  intros (line & Hn & Hs). vm_compute in Hn. injection Hn as <-.
  vm_compute in Hs. discriminate.
Defined.

Lemma resolve_varyings_no_varyings_witness :
  resolve_varyings compute_src
  = inr (PyStr.join PyStr.nl (prepare_lines compute_src)).
Proof.
  apply resolve_varyings_no_varyings. vm_compute. reflexivity.
Defined.

Lemma setitem_getitem_witness :
  (exists h',
     __setitem__ sample_class_attributes "write_pick" "False" sample_heap
       sample_shader = inr h'
     /\ __getitem__ "write_pick" h' sample_shader = inr "False"
     /\ (forall other, other <> "write_pick" ->
           __getitem__ other h' sample_shader
           = __getitem__ other sample_heap sample_shader)
     /\ (forall r, r <> kwargs sample_shader -> h' !! r = sample_heap !! r))
  /\ __setitem__ sample_class_attributes "type" "compute" sample_heap
       sample_shader = inl (KeyError "type").
Proof.
  split.
  - apply (proj1 (setitem_getitem string sample_class_attributes
                    "write_pick" "False" sample_heap sample_shader)).
    reflexivity.
  - apply (proj2 (setitem_getitem string sample_class_attributes
                    "type" "compute" sample_heap sample_shader)).
    reflexivity.
Defined.

Lemma define_binding_witness :
  (exists s',
     define_binding sample_define_hooks 0 1 s_colormap sample_shader = inr s'
     /\ Dict.get "s_colormap" (_binding_codes s')
        = Some (sampler_code 0 1 "s_colormap"))
  /\ define_binding sample_define_hooks 0 2 t_target sample_shader
     = inl (RuntimeError "Unknown binding").
Proof.
  split.
  - destruct (proj1 (define_binding_spec sample_define_hooks 0 1 s_colormap
                       sample_shader) eq_refl) as (s' & H1 & H2 & _).
    exists s'. split; [exact H1|exact H2].
  - apply (proj2 (proj2 (define_binding_spec sample_define_hooks 0 2
                           t_target sample_shader))).
    reflexivity.
Defined.

Lemma vbo_descriptors_witness :
  Forall2
    (fun sb d =>
       shader_location d = fst sb
       /\ buf_nitems (snd sb) <> 0%Z
       /\ array_stride d = Z.div (buf_nbytes (snd sb)) (buf_nitems (snd sb))
       /\ to_vertex_format (utils sample_render_externals)
            (buf_format (snd sb)) = inr (attr_format d)
       /\ attr_offset d = 0%Z
       /\ step_mode d = VertexStepMode_vertex sample_render_externals)
    [(0%Z, sample_positions)]
    [{| array_stride := 12; step_mode := "vertex";
        attr_format := "float32x3"; attr_offset := 0;
        shader_location := 0 |}].
Proof.
  apply (proj1 (vbo_descriptors_spec sample_render_externals
                  [(0%Z, sample_positions)])).
  vm_compute. reflexivity.
Defined.

Lemma render_passes_witness :
  is_Some (two_pass_modules !! 0%nat)
  /\ ~ is_Some (two_pass_modules !! 1%nat).
Proof.
  assert (H : RenderPipelineContainer._compile_shaders two_pass_externals
                (fresh_state Render ∅) = (inr two_pass_modules,
                                          two_pass_compiled))
    by (vm_compute; reflexivity).
  pose proof (proj1 (render_passes_spec two_pass_externals _ _ _) H) as Hk.
  split.
  - apply Hk. split; [vm_compute; lia|discriminate].
  - intros Hs. apply Hk in Hs as [_ Hc]. now apply Hc.
Defined.

Lemma remove_env_hash_witness :
  wgpu_pipelines
    (self (snd (PipelineContainer.remove_env_hash "A" updated_for_A)))
  !! "A" = None
  /\ "compile_shader"
     ∈ changed
         (snd (PipelineContainer.update_wgpu_data sample_render_externals "A"
                 (snd (PipelineContainer.remove_env_hash "A"
                         updated_for_A)))).
Proof.
  destruct (remove_env_hash_spec sample_render_externals "A" updated_for_A)
    as (_ & _ & Hp & _ & _ & _ & _ & _ & Hc & _).
  split; [exact Hp|exact Hc].
Defined.

Lemma update_then_draw_witness :
  (exists r mask evs,
     resources (self first_update_A) = Some r
     /\ subscript_opt (render_info (self first_update_A)) "render_mask"
        = inr mask
     /\ RenderPipelineContainer.draw sample_render_externals "A" 0 3
          first_update_A
        = (if Z.eqb (Z.land 3 (int_value mask)) 0 then inr tt
           else match index_buffer r with
                | None => inr tt
                | Some _ => inl (AttributeError "size")
                end,
           after_calls evs first_update_A))
  /\ (exists r mask evs,
        resources (self first_update_indexed) = Some r
        /\ subscript_opt (render_info (self first_update_indexed))
             "render_mask" = inr mask
        /\ RenderPipelineContainer.draw indexed_externals "A" 0 3
             first_update_indexed
           = (if Z.eqb (Z.land 3 (int_value mask)) 0 then inr tt
              else match index_buffer r with
                   | None => inr tt
                   | Some _ => inl (AttributeError "size")
                   end,
              after_calls evs first_update_indexed)).
Proof.
  split.
  - apply (update_then_draw sample_render_externals "A" 0 3
             (fresh_state Render {["create"]}) first_update_A).
    + exact sample_never_raises.
    + reflexivity.
    + cbn. set_solver.
    + vm_compute. reflexivity.
    + vm_compute. lia.
    + discriminate.
    + intros r Hr. vm_compute in Hr. injection Hr as <-.
      repeat constructor. eexists. reflexivity.
  - apply (update_then_draw indexed_externals "A" 0 3
             (fresh_state Render {["create"]}) first_update_indexed).
    + intros ev w. reflexivity.
    + reflexivity.
    + cbn. set_solver.
    + vm_compute. reflexivity.
    + vm_compute. lia.
    + discriminate.
    + intros r Hr. vm_compute in Hr. injection Hr as <-.
      repeat constructor. eexists. reflexivity.
Defined.
